(** * Marketplace scraper: extraction, assembly and merge

    A shallow embedding of [wb_selenium_scraper.py] and
    [ozon_selenium_scraper.py]: the field extractors, the product
    assemblers and the JSON store merge, over a model of the Python
    values they handle, of the Selenium page they read and of the files
    and directories they write. *)

From Stdlib Require Import ZArith NArith List Bool Lia String Ascii.
From Stdlib Require Import SpecFloat DecimalString.
From stdpp Require Import base option numbers list gmap.

Set Default Proof Using "Type".
Local Open Scope N_scope.

(** ** Python values *)

Module Py.

(** A Python [str] is a sequence of Unicode code points. *)
Definition pystr := list N.

(** Decoding of the UTF-8 bytes of a literal into code points; [pending]
    counts the continuation bytes still expected. *)
Fixpoint utf8_decode (pending : nat) (acc : N) (bs : list N) : pystr :=
  match bs with
  | [] => []
  | b :: bs' =>
      match pending with
      | O =>
          if b <? 128 then b :: utf8_decode 0 0 bs'
          else if b <? 224 then utf8_decode 1 (b - 192) bs'
          else if b <? 240 then utf8_decode 2 (b - 224) bs'
          else utf8_decode 3 (b - 240) bs'
      | S O => (acc * 64 + (b - 128)) :: utf8_decode 0 0 bs'
      | S p => utf8_decode p (acc * 64 + (b - 128)) bs'
      end
  end.

Definition u (s : string) : pystr :=
  utf8_decode 0 0 (List.map N_of_ascii (list_ascii_of_string s)).

Definition pystr_eqb (a b : pystr) : bool := bool_decide (a = b).

(** Truthiness of a [str]: non-empty. *)
Definition truthy_str (s : pystr) : bool :=
  match s with [] => false | _ => true end.

(** [str.isspace] on one character, which is also the class [\s] of [re]
    on [str] patterns. *)
Definition isspace (c : N) : bool :=
  ((9 <=? c) && (c <=? 13)) || ((28 <=? c) && (c <=? 32)) || (c =? 133)
  || (c =? 160) || (c =? 5760) || ((8192 <=? c) && (c <=? 8202))
  || (c =? 8232) || (c =? 8233) || (c =? 8239) || (c =? 8287)
  || (c =? 12288).

(** First code point of every block of ten decimal digits (category Nd,
    Unicode 14): the digit of value [d] is at offset [d] in its block. *)
Definition decimal_blocks : list N :=
  [48; 1632; 1776; 1984; 2406; 2534; 2662; 2790; 2918; 3046; 3174; 3302;
   3430; 3558; 3664; 3792; 3872; 4160; 4240; 6112; 6160; 6470; 6608; 6784;
   6800; 6992; 7088; 7232; 7248; 42528; 43216; 43264; 43472; 43504; 43600;
   44016; 65296; 66720; 68912; 69734; 69872; 69942; 70096; 70384; 70736;
   70864; 71248; 71360; 71472; 71904; 72016; 72784; 73040; 73120; 92768;
   92864; 93008; 120782; 120792; 120802; 120812; 120822; 123200; 123632;
   125264; 130032].

(** The decimal value of a character, when it is a decimal digit. *)
Definition todecimal (c : N) : option N :=
  match List.find (fun b => (b <=? c) && (c <? b + 10)) decimal_blocks with
  | Some b => Some (c - b)
  | None => None
  end.

(** The class [\d] of [re] on [str] patterns. *)
Definition isdecimal (c : N) : bool :=
  match todecimal c with Some _ => true | None => false end.

Fixpoint drop_while (p : N -> bool) (s : pystr) : pystr :=
  match s with
  | c :: s' => if p c then drop_while p s' else s
  | [] => []
  end.

Fixpoint take_while (p : N -> bool) (s : pystr) : pystr :=
  match s with
  | c :: s' => if p c then c :: take_while p s' else []
  | [] => []
  end.

(** [s.strip()] *)
Definition lstrip (s : pystr) : pystr := drop_while isspace s.
Definition rstrip (s : pystr) : pystr := rev (drop_while isspace (rev s)).
Definition strip (s : pystr) : pystr := rstrip (lstrip s).

(** [s.replace(old, new)] for a one-character [old]. *)
Definition replace_char (old : N) (new : pystr) (s : pystr) : pystr :=
  flat_map (fun c => if c =? old then new else [c]) s.

(** [s.startswith(p)] and [sub in s]. *)
Fixpoint startswith (p s : pystr) : bool :=
  match p, s with
  | [], _ => true
  | _ :: _, [] => false
  | a :: p', b :: s' => (a =? b) && startswith p' s'
  end.

Fixpoint contains (sub s : pystr) : bool :=
  startswith sub s ||
  match s with
  | [] => false
  | _ :: s' => contains sub s'
  end.

(** [s.split('\n')[0]] *)
Definition first_line (s : pystr) : pystr :=
  take_while (fun c => negb (c =? 10)) s.

(** *** Numbers *)

(** A Python [float] is an IEEE-754 binary64 value. *)
Definition float := spec_float.

Definition prec : Z := 53.
Definition emax : Z := 1024.

Definition float_of_Z (z : Z) : float := binary_normalize prec emax z 0 false.

Definition fleb (a b : float) : bool := SFleb a b.
Definition feqb (a b : float) : bool := SFeqb a b.
Definition fdiv (a b : float) : float := SFdiv prec emax a b.

(** Truthiness of a [float]: different from zero. *)
Definition truthy_float (x : float) : bool := negb (feqb x (float_of_Z 0)).

(** The nearest binary64 value of [n / 10^k], ties to even. *)
Definition float_of_decimal (n : N) (k : nat) : float :=
  match n with
  | N0 => S754_zero false
  | Npos p =>
      let '(m, e, l) :=
        SFdiv_core_binary prec emax (Zpos p) 0 (Z.pow 10 (Z.of_nat k)) 0 in
      binary_round_aux prec emax false m e l
  end.

(** The whitespace [float()] skips at both ends of its argument: the
    ASCII blanks, and every other space from U+007F on. *)
Definition float_space (c : N) : bool :=
  ((9 <=? c) && (c <=? 13)) || (c =? 32) || ((127 <=? c) && isspace c).

(** The value of a run of decimal digits, read after [acc]. *)
Definition digits_value (acc : N) (ds : list N) : N :=
  fold_left (fun a d => a * 10 + d) ds acc.

(** The longest prefix of decimal digits, as digit values, and the rest. *)
Fixpoint span_digits (s : pystr) : list N * pystr :=
  match s with
  | [] => ([], [])
  | c :: s' =>
      match todecimal c with
      | Some d => let '(ds, r) := span_digits s' in (d :: ds, r)
      | None => ([], s)
      end
  end.

(** [float(s)] on the texts the scrapers pass to it, which hold nothing
    but decimal digits, points and whitespace (for the price text this is
    [clean_text_alphabet] below): digits with an optional point, blanks
    allowed at both ends only, the value rounded to the nearest binary64.
    [None] is [ValueError]. *)
Definition float_of_str (s : pystr) : option float :=
  let body := drop_while float_space s in
  let '(ip, r1) := span_digits body in
  let '(fp, r2) :=
    match r1 with
    | 46 :: r => span_digits r
    | _ => ([], r1)
    end in
  if forallb float_space r2 && negb (Nat.eqb (length ip + length fp) 0)
  then Some (float_of_decimal (digits_value 0 (ip ++ fp)) (length fp))
  else None.

(** A Python number as the records carry it: Ozon prices are [int],
    Wildberries prices are [float]. *)
Inductive number :=
| PyInt (z : Z)
| PyFloat (x : float).

(** The default limit of [int()] on the length of a digit string. *)
Definition int_max_str_digits : nat := 4300.

(** [int(s)] on a text of decimal digits.  [None] is [ValueError]. *)
Definition int_of_str (s : pystr) : option Z :=
  let '(ds, r) := span_digits s in
  match ds, r with
  | _ :: _, [] =>
      if Nat.leb (length ds) int_max_str_digits
      then Some (Z.of_N (digits_value 0 ds))
      else None
  | _, _ => None
  end.

(** The decimal numeral of [z]. *)
Definition numeral (z : Z) : pystr :=
  u (DecimalString.NilZero.string_of_int (Z.to_int z)).

(** [str(z)] on an [int]: its numeral, when that has no more digits than
    the limit.  [None] is [ValueError]. *)
Definition str_of_Z (z : Z) : option pystr :=
  let s := numeral z in
  let digits := if (z <? 0)%Z then Nat.pred (length s) else length s in
  if Nat.leb digits int_max_str_digits then Some s else None.

(** The parts of the Unicode tables the text functions below rely on,
    beyond spaces and decimal digits. *)
Class Unicode := {
  (** [s.lower()] *)
  lower : pystr -> pystr;
  (** the class [\w] of [re] *)
  isword : N -> bool;
  (** whether [re.IGNORECASE] takes two characters for the same letter *)
  ci_eq : N -> N -> bool
}.

(** *** Exceptions and loops *)

Inductive exn :=
| ValueError
| TypeError
| KeyError
| OSError
| UnicodeDecodeError
| JSONDecodeError
| WebDriverException.

(** The outcome of a computation that may raise. *)
Inductive res (A : Type) :=
| Ok (a : A)
| Raise (e : exn).
Arguments Ok {A} a.
Arguments Raise {A} e.

#[global] Instance res_bind : MBind res := fun A B f r =>
  match r with
  | Ok a => f a
  | Raise e => Raise e
  end.

(** [for x in xs: body], where a pass of the body either returns a value
    from the enclosing function ([Some]) or falls through to the next
    pass ([None]); an exception ends the loop. *)
Fixpoint for_each {A R} (xs : list A) (body : A -> res (option R))
    : res (option R) :=
  match xs with
  | [] => Ok None
  | x :: xs' =>
      match body x with
      | Ok None => for_each xs' body
      | r => r
      end
  end.

(** [try: block  except: continue] (or [pass]): an exception of the block
    is a fall-through. *)
Definition swallow {R} (r : res (option R)) : res (option R) :=
  match r with
  | Ok o => Ok o
  | Raise _ => Ok None
  end.

(** The value a function returns once its exceptions are all caught:
    [default] stands for the [return] that follows the loops. *)
Definition returned {R} (r : res (option R)) : option R :=
  match r with
  | Ok o => o
  | Raise _ => None
  end.

End Py.

(** ** Regular expressions

    The fragment of Python's [re] the scrapers use: a pattern is a
    choice between sequences of quantified character classes, with the
    assertions [^], [$] and [\b] and at most one capturing group.
    Matching backtracks in the order of [re]: alternatives left to
    right, a greedy quantifier the longer match first, a lazy one the
    shorter. *)

Module Re.
Import Py.

Inductive atom :=
| Chr (p : N -> bool) (lo : nat) (hi : option nat) (greedy : bool)
| Bound (word : N -> bool)
| Bol
| Eol
| Open
| Close.

Definition sequence := list atom.
Definition pattern := list sequence.

(** What a match has seen so far: the character before the current
    position, whether group 1 is open, and its text (reversed). *)
Record mstate := MState {
  prev : option N;
  recording : bool;
  captured : list N
}.

Definition push (c : N) (st : mstate) : mstate :=
  MState (Some c) (recording st)
         (if recording st then c :: captured st else captured st).

(** A successful match: the text of group 1 and the unread input. *)
Definition found := (pystr * pystr)%type.

Definition cont := mstate -> pystr -> option found.

(** [p{lo,}] over at most [fuel] further characters, then [k]. *)
Fixpoint rep (p : N -> bool) (greedy : bool) (lo fuel : nat) (k : cont)
    (st : mstate) (s : pystr) {struct fuel} : option found :=
  let stop := fun _ : unit => if Nat.eqb lo 0 then k st s else None in
  let more := fun _ : unit =>
    match fuel, s with
    | S fuel', c :: s' =>
        if p c then rep p greedy (Nat.pred lo) fuel' k (push c st) s'
        else None
    | _, _ => None
    end in
  if greedy
  then match more tt with Some r => Some r | None => stop tt end
  else match stop tt with Some r => Some r | None => more tt end.

(** [\b]: exactly one of the two neighbours is a word character. *)
Definition at_boundary (word : N -> bool) (st : mstate) (s : pystr) : bool :=
  let before := match prev st with Some c => word c | None => false end in
  let after := match s with c :: _ => word c | [] => false end in
  xorb before after.

(** [^] without [re.MULTILINE]: the start of the text. *)
Definition at_bol (st : mstate) : bool :=
  match prev st with None => true | Some _ => false end.

(** [$] without [re.MULTILINE]: the end of the text, or just before a
    newline that ends it. *)
Definition at_eol (s : pystr) : bool :=
  match s with
  | [] => true
  | [10] => true
  | _ => false
  end.

Fixpoint run (re : sequence) (k : cont) : cont :=
  match re with
  | [] => k
  | Chr p lo hi greedy :: re' =>
      fun st s =>
        let fuel := match hi with Some h => h | None => length s end in
        rep p greedy lo fuel (run re' k) st s
  | Bound word :: re' =>
      fun st s => if at_boundary word st s then run re' k st s else None
  | Bol :: re' =>
      fun st s => if at_bol st then run re' k st s else None
  | Eol :: re' =>
      fun st s => if at_eol s then run re' k st s else None
  | Open :: re' =>
      fun st s => run re' k (MState (prev st) true (captured st)) s
  | Close :: re' =>
      fun st s => run re' k (MState (prev st) false (captured st)) s
  end.

(** The match that starts at the current position, if any. *)
Fixpoint match_here (re : pattern) (before : option N) (s : pystr)
    : option found :=
  match re with
  | [] => None
  | alt :: re' =>
      match run alt (fun st rest => Some (rev (captured st), rest))
                (MState before false []) s with
      | Some r => Some r
      | None => match_here re' before s
      end
  end.

(** [re.search(re, s)]: the leftmost match; its group 1 and what follows
    the match. *)
Fixpoint search_from (re : pattern) (before : option N) (s : pystr)
    : option found :=
  match match_here re before s with
  | Some r => Some r
  | None =>
      match s with
      | [] => None
      | c :: s' => search_from re (Some c) s'
      end
  end.

(** [m = re.search(re, s)], as [m.group(1)]. *)
Definition search (re : pattern) (s : pystr) : option pystr :=
  option_map fst (search_from re None s).

(** Number of characters a match starting on [s] consumed. *)
Definition consumed (s rest : pystr) : nat := (length s - length rest)%nat.

(** [re.findall(re, s)] for a pattern with one group: group 1 of every
    match, left to right, matches not overlapping.  [skip] counts the
    characters still inside the previous match.  Every pattern of the
    scrapers consumes at least one character, so a match of no character
    is not looked for. *)
Fixpoint findall_from (re : pattern) (skip : nat) (before : option N)
    (s : pystr) : list pystr :=
  match s with
  | [] => []
  | c :: s' =>
      match skip with
      | S n => findall_from re n (Some c) s'
      | O =>
          match match_here re before s with
          | Some (g, rest) =>
              match consumed s rest with
              | O => findall_from re 0 (Some c) s'
              | S n => g :: findall_from re n (Some c) s'
              end
          | None => findall_from re 0 (Some c) s'
          end
      end
  end.

Definition findall (re : pattern) (s : pystr) : list pystr :=
  findall_from re 0 None s.

(** [re.sub(re, repl, s)] for a replacement without group references. *)
Fixpoint sub_from (re : pattern) (repl : pystr) (skip : nat)
    (before : option N) (s : pystr) : pystr :=
  match s with
  | [] => []
  | c :: s' =>
      match skip with
      | S n => sub_from re repl n (Some c) s'
      | O =>
          match match_here re before s with
          | Some (_, rest) =>
              match consumed s rest with
              | O => c :: sub_from re repl 0 (Some c) s'
              | S n => repl ++ sub_from re repl n (Some c) s'
              end
          | None => c :: sub_from re repl 0 (Some c) s'
          end
      end
  end.

Definition sub (re : pattern) (repl s : pystr) : pystr :=
  sub_from re repl 0 None s.

(** *** Building patterns *)

Definition one (p : N -> bool) : atom := Chr p 1 (Some 1%nat) true.
Definition opt (p : N -> bool) : atom := Chr p 0 (Some 1%nat) true.
Definition star (p : N -> bool) : atom := Chr p 0 None true.
Definition plus (p : N -> bool) : atom := Chr p 1 None true.
Definition lazy_star (p : N -> bool) : atom := Chr p 0 None false.
Definition between (p : N -> bool) (lo hi : nat) : atom :=
  Chr p lo (Some hi) true.

Definition only (c : N) : N -> bool := N.eqb c.
Definition any_of (cs : list N) : N -> bool :=
  fun c => existsb (N.eqb c) cs.
Definition none_of (p : N -> bool) : N -> bool := fun c => negb (p c).
Definition either (p q : N -> bool) : N -> bool := fun c => p c || q c.
Definition in_range (a b : N) : N -> bool :=
  fun c => (a <=? c) && (c <=? b).
(** [.] without [re.DOTALL] *)
Definition dot : N -> bool := fun c => negb (c =? 10).

(** A literal text, character by character. *)
Definition lit (s : pystr) : sequence := List.map (fun c => one (only c)) s.

(** A literal text under [re.IGNORECASE]: [ci_eq a b] tells whether [re]
    takes the characters [a] and [b] for the same letter. *)
Definition lit_ci (ci_eq : N -> N -> bool) (s : pystr) : sequence :=
  List.map (fun c => one (ci_eq c)) s.

End Re.

(** ** The page under Selenium

    A page is read as it stands once it has loaded: the same lookup
    gives the same answer each time it is made.  Every call into the
    browser may raise. *)

Module Selenium.
Import Py.

(** A [WebElement], as far as the scrapers look at it. *)
Record element := Element {
  text : res pystr;
  get_attribute : pystr -> res (option pystr);
  is_displayed : res bool;
  is_enabled : res bool;
  (** [element.find_element(By.XPATH, "..").text] *)
  parent_text : res pystr
}.

Inductive By := CSS_SELECTOR | XPATH | TAG_NAME.

Record driver := Driver {
  title : res pystr;
  find_elements : By -> pystr -> res (list element);
  (** [driver.execute_script("return document.title;")] *)
  document_title : res (option pystr)
}.

(** [driver.find_element]: the first element found, an exception when
    there is none. *)
Definition find_element (d : driver) (how : By) (selector : pystr)
    : res element :=
  found ← find_elements d how selector;
  match found with
  | e :: _ => Ok e
  | [] => Raise WebDriverException
  end.

(** [WebDriverWait(driver, t).until(EC.presence_of_element_located(...))]:
    the element once it is there, [TimeoutException] when it never is. *)
Definition wait_presence (d : driver) (how : By) (selector : pystr)
    : res element :=
  find_element d how selector.

(** A product card of a listing page: its own text, and the elements
    found inside it. *)
Record card := Card {
  card_text : res pystr;
  card_find_elements : pystr -> res (list element)
}.

Definition card_find_element (c : card) (selector : pystr) : res element :=
  found ← card_find_elements c selector;
  match found with
  | e :: _ => Ok e
  | [] => Raise WebDriverException
  end.

(** A listing page: the product cards a selector finds on it. *)
Record listing := Listing {
  find_cards : pystr -> res (list card)
}.

(** A started browser: the listing page it shows once it was sent to the
    search address, left to load and scrolled, or the exception one of
    these steps raised; and what [driver.quit()] does. *)
Record browser := Browser {
  search_page : res listing;
  quit : res unit
}.

End Selenium.

(** ** Stored records *)

Module Store.
Import Py.

(** The value under ['article']: a [str], or an [int] when the
    configuration lists the identifiers as numbers. *)
Inductive scalar :=
| Str (s : pystr)
| Int (z : Z).

#[global] Instance scalar_eq_dec : EqDecision scalar.
Proof. solve_decision. Defined.

#[global] Instance scalar_countable : Countable scalar :=
  inj_countable'
    (fun v => match v with Str s => inl s | Int z => inr z end)
    (fun x => match x with inl s => Str s | inr z => Int z end)
    (fun v => match v with Str _ | Int _ => eq_refl end).

(** [str(v)]; on an [int] of more than 4300 digits it raises
    [ValueError]. *)
Definition str (v : scalar) : res pystr :=
  match v with
  | Str s => Ok s
  | Int z =>
      match str_of_Z z with
      | Some s => Ok s
      | None => Raise ValueError
      end
  end.

(** A product as a [dict]; Ozon records have no ['availability']. *)
Record product := Product {
  marketplace : pystr;
  article : scalar;
  name : pystr;
  price : number;
  old_price : option number;
  availability : option pystr;
  rating : option float;
  reviews_count : Z;
  url : pystr;
  collected_at : pystr
}.

(** What [save_to_json] may find in a list: a [dict] with the keys of a
    product, an object whose [__dict__] is one, or any other value. *)
Inductive item :=
| Dict (p : product)
| Instance (p : product)
| Other.

(** A parsed JSON document: a list, or any other value. *)
Inductive json :=
| JArray (items : list item)
| JOther.

(** *** What a JSON file can hold *)

(** A surrogate code point.  A [str] may hold one, and [json.load] reads
    one from an escape; a file opened with [encoding='utf-8'] raises
    [UnicodeEncodeError] when one is written to it. *)
Definition surrogate (c : N) : bool := (55296 <=? c) && (c <=? 57343).

Definition encodes (s : pystr) : bool :=
  forallb (fun c => negb (surrogate c)) s.

(** An [int] that [str()] and [int()] convert: one of at most 4300
    digits. *)
Definition converts (z : Z) : bool :=
  match str_of_Z z with
  | Some _ => true
  | None => false
  end.

Definition converts_number (n : number) : bool :=
  match n with
  | PyInt z => converts z
  | PyFloat _ => true
  end.

Definition converts_scalar (v : scalar) : bool :=
  match v with
  | Str _ => true
  | Int z => converts z
  end.

(** The integers of a record are all within the limit. *)
Definition integers_convert (p : product) : bool :=
  converts_scalar (article p) && converts_number (price p)
  && match old_price p with
     | Some n => converts_number n
     | None => true
     end
  && converts (reviews_count p).

Definition encodes_scalar (v : scalar) : bool :=
  match v with
  | Str s => encodes s
  | Int _ => true
  end.

(** The texts of a record hold no surrogate. *)
Definition texts_encode (p : product) : bool :=
  encodes (marketplace p) && encodes_scalar (article p) && encodes (name p)
  && match availability p with
     | Some s => encodes s
     | None => true
     end
  && encodes (url p) && encodes (collected_at p).

(** A record that [json.dump(..., ensure_ascii=False)] writes to a
    UTF-8 file without an exception. *)
Definition storable (p : product) : bool :=
  integers_convert p && texts_encode p.

(** A document whose integers [json.load] converts; on a literal of
    more than 4300 digits it raises [ValueError]. *)
Definition loadable (doc : json) : bool :=
  match doc with
  | JArray items =>
      forallb (fun it =>
                 match it with
                 | Dict p | Instance p => integers_convert p
                 | Other => true
                 end) items
  | JOther => true
  end.

(** *** The file system *)

(** What reading a file gives: [Unreadable] when [open] or the decoding
    of its bytes raises, [Malformed] when [json.load] raises
    [JSONDecodeError], as it does on an empty file and on one that ends
    inside a document, else the document its text denotes. *)
Inductive file :=
| Unreadable (e : exn)
| Malformed
| Json (doc : json).

(** The file system: the regular files and the directories, each under
    the path the program names it by, and whether the system lets a
    directory be made and a file be opened for writing. *)
Record world := World {
  files : gmap pystr file;
  dirs : gset pystr;
  mkdir_ok : pystr -> bool;
  write_ok : pystr -> bool
}.

(** [os.path.dirname(p)] *)
Fixpoint head_of (p : pystr) : pystr :=
  match p with
  | [] => []
  | c :: p' =>
      if existsb (N.eqb 47) p' then c :: head_of p'
      else if c =? 47 then [c] else []
  end.

Definition dirname (p : pystr) : pystr :=
  let head := head_of p in
  if truthy_str head && negb (forallb (N.eqb 47) head)
  then rev (drop_while (N.eqb 47) (rev head))
  else head.

(** The directories on the way to [d], outermost first and [d] last:
    the prefixes of [d] that end with a name, before a slash or at the
    end of [d].  [before] is the part of the path already read. *)
Fixpoint parents_from (before d : pystr) : list pystr :=
  match d with
  | [] => []
  | c :: d' =>
      let here := before ++ [c] in
      let at_end :=
        match d' with
        | [] => true
        | c' :: _ => c' =? 47
        end in
      if at_end && negb (c =? 47) then here :: parents_from here d'
      else parents_from here d'
  end.

Definition parents (d : pystr) : list pystr := parents_from [] d.

(** [os.mkdir(a)] where [os.makedirs(..., exist_ok=True)] calls it: a
    directory that is there is left alone, a regular file in its place
    or a refusal of the system raises [OSError]. *)
Definition mkdir (w : world) (a : pystr) : res world :=
  if bool_decide (a ∈ dirs w) then Ok w
  else if bool_decide (is_Some (files w !! a)) then Raise OSError
  else if mkdir_ok w a
       then Ok (World (files w) ({[a]} ∪ dirs w) (mkdir_ok w) (write_ok w))
       else Raise OSError.

Fixpoint mkdirs (w : world) (ds : list pystr) : res unit * world :=
  match ds with
  | [] => (Ok tt, w)
  | a :: ds' =>
      match mkdir w a with
      | Ok w' => mkdirs w' ds'
      | Raise e => (Raise e, w)
      end
  end.

(** [os.makedirs(d, exist_ok=True)]: the missing directories on the way
    to [d] are made, outermost first; those made before an exception
    stay.  The empty path raises [FileNotFoundError]. *)
Definition makedirs (w : world) (d : pystr) : res unit * world :=
  if truthy_str d then mkdirs w (parents d) else (Raise OSError, w).

(** [os.path.exists(f)] *)
Definition exists_ (w : world) (f : pystr) : bool :=
  bool_decide (is_Some (files w !! f)) || bool_decide (f ∈ dirs w).

(** [with open(f, 'r', encoding='utf-8') as h: json.load(h)]; [open]
    raises [OSError] on a missing file and on a directory. *)
Definition load (w : world) (f : pystr) : res json :=
  match files w !! f with
  | None => Raise OSError
  | Some (Unreadable e) => Raise e
  | Some Malformed => Raise JSONDecodeError
  | Some (Json doc) => if loadable doc then Ok doc else Raise ValueError
  end.

(** [with open(f, 'w', encoding='utf-8') as h:
       json.dump(records, h, ensure_ascii=False, indent=2)].
    [open] raises [OSError] on a directory and when the system refuses;
    once it has returned the file is empty.  [json.dump] writes the
    document piece by piece: on a record it cannot write
    ([UnicodeEncodeError] and the [ValueError] of [str(int)], both
    [ValueError]s) the file is left holding the pieces before it, a text
    that ends inside the document. *)
Definition dump (w : world) (f : pystr) (records : list product)
    : res unit * world :=
  if write_ok w f && negb (bool_decide (f ∈ dirs w))
  then
    if forallb storable records
    then (Ok tt,
          World (<[f := Json (JArray (Dict <$> records))]> (files w))
                (dirs w) (mkdir_ok w) (write_ok w))
    else (Raise ValueError,
          World (<[f := Malformed]> (files w))
                (dirs w) (mkdir_ok w) (write_ok w))
  else (Raise OSError, w).

(** *** [save_to_json] *)

(** The key of the merge. *)
Definition key : Type := pystr * pystr.

(** [(str(item['article']), item['marketplace'])] *)
Definition key_of (p : product) : res key :=
  a ← str (article p);
  Ok (a, marketplace p).

(** The loop of [save_to_json] over [all_data], from the state
    [(unique_data, seen)]; [as_dict] reads one item as a [dict]. *)
Fixpoint dedup (as_dict : item -> res product) (all_data : list item)
    (unique_data : list product) (seen : gset key) : res (list product) :=
  match all_data with
  | [] => Ok unique_data
  | it :: rest =>
      p ← as_dict it;
      k ← key_of p;
      if bool_decide (k ∉ seen)
      then dedup as_dict rest (unique_data ++ [p]) ({[k]} ∪ seen)
      else dedup as_dict rest unique_data seen
  end.

(** [existing_data + data] *)
Definition concat (existing_data : json) (data : list item) : res (list item) :=
  match existing_data with
  | JArray l => Ok (l ++ data)
  | JOther => Raise TypeError
  end.

(** [existing_data], as [save_to_json] has it before the merge: the
    empty list, unless the file exists and its name contains "latest";
    then what [json.load] gives, or the empty list when it raises
    [JSONDecodeError]. *)
Definition read_existing (w : world) (filename : pystr) : res json :=
  if exists_ w filename && contains (u "latest") filename
  then match load w filename with
       | Raise JSONDecodeError => Ok (JArray [])
       | r => r
       end
  else Ok (JArray []).

(** [unique_data], as [save_to_json] has it before it opens the file
    for writing. *)
Definition merge (as_dict : item -> res product) (w : world)
    (data : list item) (filename : pystr) : res (list product) :=
  existing_data ← read_existing w filename;
  all_data ←
    (if contains (u "latest") filename
     then concat existing_data data
     else Ok data);
  dedup as_dict all_data [] ∅.

(** The body of [save_to_json], common to both modules but for the way
    an item is read: the outcome, and the file system it leaves. *)
Definition save_body (as_dict : item -> res product) (w : world)
    (data : list item) (filename : pystr) : res unit * world :=
  match makedirs w (dirname filename) with
  | (Ok _, w) =>
      match merge as_dict w data filename with
      | Ok unique_data => dump w filename unique_data
      | Raise e => (Raise e, w)
      end
  | (Raise e, w) => (Raise e, w)
  end.

(** [try: body; return True  except Exception: return False] *)
Definition save_with (as_dict : item -> res product) (w : world)
    (data : list item) (filename : pystr) : bool * world :=
  match save_body as_dict w data filename with
  | (Ok _, w') => (true, w')
  | (Raise _, w') => (false, w')
  end.

End Store.

(** ** wb_selenium_scraper.py *)

Module WB.
Import Py Re Selenium.

Record ProductData := mkProductData {
  marketplace : pystr;
  article : pystr;
  name : pystr;
  price : float;
  old_price : option float;
  availability : pystr;
  rating : option float;
  reviews_count : Z;
  url : pystr;
  collected_at : pystr
}.

(** [p.__dict__] *)
Definition as_dict (p : ProductData) : Store.product :=
  Store.Product (marketplace p) (Store.Str (article p)) (name p)
    (PyFloat (price p)) (option_map PyFloat (old_price p))
    (Some (availability p)) (rating p) (reviews_count p) (url p)
    (collected_at p).

(** [10 <= x <= 1000000] *)
Definition plausible (x : float) : bool :=
  fleb (float_of_Z 10) x && fleb x (float_of_Z 1000000).

(** [[^\d\s,.]] *)
Definition not_price_char : N -> bool :=
  none_of (either isdecimal (either isspace (any_of [44; 46]))).

(** The three assignments to [clean_text] of [extract_price_from_text]. *)
Definition clean_text (text : pystr) : pystr :=
  let clean_text := sub [[one not_price_char]] [] (strip text) in
  let clean_text := replace_char 32 [] clean_text in
  replace_char 44 [46] clean_text.

Definition extract_price_from_text (text : pystr) : option float :=
  if negb (truthy_str text) then None
  else
    let clean_text := clean_text text in
    if truthy_str clean_text
    then match float_of_str clean_text with
         | Some price => if plausible price then Some price else None
         | None => None
         end
    else None.

(** [if price: return price], on an [Optional[float]] *)
Definition if_price (price : option float) : option float :=
  match price with
  | Some p => if truthy_float p then Some p else None
  | None => None
  end.

Definition thousands_gap : N -> bool := any_of [32; 8239].

(** [[^a-zA-Zа-яА-Я0-9/]] *)
Definition not_name_edge : N -> bool :=
  none_of (either (in_range 97 122) (either (in_range 65 90)
          (either (in_range 1072 1103) (either (in_range 1040 1071)
          (either (in_range 48 57) (only 47)))))).

Definition words_to_remove : list pystr :=
  [u "купить"; u "цена"; u "доставка"; u "в корзину"; u "₽"; u "руб"].

Section Text.
Context `{U : Unicode}.

Definition clean_product_name (name : pystr) : pystr :=
  if negb (truthy_str name) then u "Неизвестный товар"
  else
    let name := strip (sub [[plus isspace]] [32] name) in
    let name :=
      sub [[between isdecimal 1 3; opt thousands_gap; between isdecimal 3 3;
            opt thousands_gap; between isdecimal 0 3; opt thousands_gap;
            one (only 8381); star dot; Eol]] [] name in
    let name :=
      fold_left
        (fun name word =>
           sub [[Bound isword] ++ lit_ci ci_eq word ++ [Bound isword]] [] name)
        words_to_remove name in
    let name :=
      sub [[Bol; plus not_name_edge]; [plus not_name_edge; Eol]] [] name in
    strip name.

Definition block_indicators : list pystr :=
  [u "включите javascript"; u "вы не робот"; u "checking your browser";
   u "please wait"; u "доступ ограничен"; u "captcha"; u "капча";
   u "доступ к сайту закрыт"; u "blocked"; u "security check"].

Definition is_blocked (d : driver) : bool :=
  let checked :=
    page_title ← title d;
    let page_title := lower page_title in
    body ← find_element d TAG_NAME (u "body");
    body_text ← text body;
    let body_text := lower body_text in
    Ok (existsb (fun indicator =>
                   contains indicator body_text || contains indicator page_title)
                block_indicators) in
  match checked with
  | Ok b => b
  | Raise _ => false
  end.

Definition name_selectors : list pystr :=
  [u "h1.product-page__title"; u "h1[data-link*='goods_name']";
   u ".product-page__header h1"; u "h1.product-card__name";
   u ".product-page__title-wrap h1"; u "h1.product__name"; u "#productNmId";
   u ".product-page__info h1"; u "h1[itemprop='name']"; u ".product-title";
   u ".goods-name"; u "h1"].

Definition extract_product_name (d : driver) (article : pystr)
    : option pystr :=
  let by_selector :=
    for_each name_selectors (fun selector =>
      swallow (
        element ← wait_presence d CSS_SELECTOR selector;
        t ← text element;
        let name := strip t in
        if truthy_str name && Nat.ltb 3 (length name)
        then Ok (Some (clean_product_name name))
        else Ok None)) in
  match returned by_selector with
  | Some name => Some name
  | None =>
      returned (swallow (
        meta_title ← document_title d;
        match meta_title with
        | Some meta_title =>
            if truthy_str meta_title && Nat.ltb 10 (length meta_title)
            then
              let clean_title :=
                sub [[star isspace; one (any_of [8211; 45]); star isspace]
                     ++ lit (u "Wildberries") ++ [star dot; Eol]] []
                    meta_title in
              if Nat.ltb 10 (length clean_title)
              then Ok (Some (clean_product_name clean_title))
              else Ok None
            else Ok None
        | None => Ok None
        end))
  end.

End Text.

Definition price_selectors : list pystr :=
  [u "ins.price-block__final-price"; u ".price-block__final-price";
   u ".final-price"; u ".lower-price"; u ".j-final-price";
   u "[class*='price__lower']"; u ".price-block__price";
   u ".price-block__final-price-wrapper"; u ".product-card__price"].

(** A pattern of [extract_price_from_scripts]: its text, which the
    function inspects, and its meaning. *)
Record script_pattern := ScriptPattern {
  source : pystr;
  compiled : pattern
}.

Definition quoted (s : string) : pystr := [34] ++ u s ++ [34].

(** The quoted [key], a colon, spaces, an optional quote, then as
    group 1 digits, an optional point and further digits, then an
    optional quote. *)
Definition decimal_field (key : string) : script_pattern :=
  ScriptPattern
    (quoted key ++ u ":\s*[" ++ [34] ++ u "]?(\d+[.]?\d*)[" ++ [34] ++ u "]?")
    [lit (quoted key) ++ [one (only 58); star isspace; opt (only 34); Open;
       plus isdecimal; opt (only 46); star isdecimal; Close; opt (only 34)]].

(** The quoted [key], a colon, spaces, then digits as group 1. *)
Definition integer_field (key : string) : script_pattern :=
  ScriptPattern
    (quoted key ++ u ":\s*(\d+)")
    [lit (quoted key) ++ [one (only 58); star isspace; Open; plus isdecimal;
       Close]].

Definition patterns : list script_pattern :=
  [decimal_field "price"; decimal_field "finalPrice";
   integer_field "salePriceU"; integer_field "priceU";
   decimal_field "currentPrice"].

Definition extract_price_from_scripts (d : driver) (article : pystr)
    : option float :=
  returned (
    scripts ← find_elements d TAG_NAME (u "script");
    for_each scripts (fun script =>
      inner ← get_attribute script (u "innerHTML");
      let script_content := default [] inner in
      if contains ([34] ++ article ++ [34]) script_content
         || contains ([39] ++ article ++ [39]) script_content
         || contains (u "nm:" ++ article) script_content
      then
        for_each patterns (fun pattern =>
          for_each (findall (compiled pattern) script_content) (fun m =>
            match float_of_str m with
            | Some price_val =>
                let price_val :=
                  if contains (u "PriceU") (source pattern)
                  then fdiv price_val (float_of_Z 100)
                  else price_val in
                if plausible price_val then Ok (Some price_val) else Ok None
            | None => Ok None
            end))
      else Ok None)).

Definition extract_product_price (d : driver) (article : pystr)
    : option float :=
  let by_selector :=
    for_each price_selectors (fun selector =>
      swallow (
        price_elements ← find_elements d CSS_SELECTOR selector;
        for_each price_elements (fun price_element =>
          t ← text price_element;
          let price_text := strip t in
          Ok (if_price (extract_price_from_text price_text))))) in
  match returned by_selector with
  | Some price => Some price
  | None =>
      let by_rouble :=
        swallow (
          elements_with_rub ←
            find_elements d XPATH (u "//*[contains(text(), '₽')]");
          for_each elements_with_rub (fun elem =>
            own_text ← text elem;
            parent_text ←
              (if negb (truthy_str own_text) then parent_text elem
               else Ok own_text);
            Ok (if_price (extract_price_from_text parent_text)))) in
      match returned by_rouble with
      | Some price => Some price
      | None => if_price (extract_price_from_scripts d article)
      end
  end.

Definition old_price_selectors : list pystr :=
  [u "del.price-block__old-price"; u ".price-block__old-price"; u ".old-price";
   u "s.price-block__old-price"; u ".price-block__old-price-wrap";
   u "[class*='old-price']"].

Definition extract_old_price (d : driver) : option float :=
  returned (
    for_each old_price_selectors (fun selector =>
      swallow (
        elements ← find_elements d CSS_SELECTOR selector;
        for_each elements (fun elem =>
          t ← text elem;
          let old_price_text := strip t in
          Ok (if_price (extract_price_from_text old_price_text)))))).

Definition out_of_stock_selectors : list pystr :=
  [u ".product-page__not-available"; u ".out-of-stock"; u ".not-available";
   u ".unavailable"; u "[class*='outOfStock']"; u "[class*='notAvailable']";
   u ".sold-out"; u ".item-unavailable"].

Definition in_stock_selectors : list pystr :=
  [u ".product-page__order-btn"; u ".order-btn"; u "[class*='add-to-cart']";
   u ".j-add-to-basket"; u ".buy-btn"].

Definition in_stock : pystr := u "В наличии".
Definition out_of_stock : pystr := u "Нет в наличии".
Definition unknown : pystr := u "Неизвестно".

Definition extract_availability (d : driver) (price : float) : pystr :=
  let absent :=
    for_each out_of_stock_selectors (fun selector =>
      swallow (
        element ← find_element d CSS_SELECTOR selector;
        shown ← is_displayed element;
        if (shown : bool) then Ok (Some out_of_stock) else Ok None)) in
  match returned absent with
  | Some a => a
  | None =>
      let present :=
        for_each in_stock_selectors (fun selector =>
          swallow (
            element ← find_element d CSS_SELECTOR selector;
            shown ← is_displayed element;
            usable ← (if (shown : bool) then is_enabled element else Ok false);
            if (usable : bool) then Ok (Some in_stock) else Ok None)) in
      match returned present with
      | Some a => a
      | None => if feqb price (float_of_Z 0) then unknown else in_stock
      end
  end.

Definition rating_selectors : list pystr :=
  [u ".product-page__rating .rating"; u ".product-rating"; u "[class*='rating']";
   u ".rating-stars"; u ".stars"; u "[itemprop='ratingValue']";
   u ".product-rating__value"].

(** [(\d+[.,]\d+)] *)
Definition rating_pattern : pattern :=
  [[Open; plus isdecimal; one (any_of [46; 44]); plus isdecimal; Close]].

(** [0 <= x <= 5] *)
Definition in_rating_range (x : float) : bool :=
  fleb (float_of_Z 0) x && fleb x (float_of_Z 5).

Definition extract_rating (d : driver) : option float :=
  returned (
    for_each rating_selectors (fun selector =>
      swallow (
        element ← find_element d CSS_SELECTOR selector;
        t ← text element;
        a1 ← get_attribute element (u "data-rate");
        a2 ← get_attribute element (u "data-rating");
        a3 ← get_attribute element (u "content");
        a4 ← get_attribute element (u "value");
        let sources := [Some (strip t); a1; a2; a3; a4] in
        for_each sources (fun source =>
          match source with
          | Some source =>
              if truthy_str source
              then
                match search rating_pattern source with
                | Some m =>
                    match float_of_str (replace_char 44 [46] m) with
                    | Some rating =>
                        if in_rating_range rating then Ok (Some rating)
                        else Ok None
                    | None => Raise ValueError
                    end
                | None => Ok None
                end
              else Ok None
          | None => Ok None
          end)))).

Definition reviews_selectors : list pystr :=
  [u ".product-page__comments-count"; u ".comments-count"; u ".review-count";
   u "[class*='review-count']"; u "[class*='comments-count']";
   u "[class*='feedbacks-count']"; u ".product-rating__count";
   u "[data-link*='feedbacks']"].

(** [(\d+)] *)
Definition count_pattern : pattern := [[Open; plus isdecimal; Close]].

Definition extract_reviews_count (d : driver) : Z :=
  default 0%Z (returned (
    for_each reviews_selectors (fun selector =>
      swallow (
        element ← find_element d CSS_SELECTOR selector;
        t ← text element;
        let text := strip t in
        match search count_pattern (replace_char 32 [] text) with
        | Some m =>
            match int_of_str m with
            | Some count => Ok (Some count)
            | None => Raise ValueError
            end
        | None => Ok None
        end)))).

Section Flow.
Context `{U : Unicode}.

(** [collect_product_data(article)].  [session url] is the page the
    browser shows once it was started, sent to [url] and left to load
    and the pop-ups were dismissed, or the exception one of these steps
    raised; [now] is [datetime.now().isoformat()]. *)
Definition collect_product_data (session : pystr -> res driver) (now : pystr)
    (article : pystr) : option ProductData :=
  let url :=
    u "https://www.wildberries.ru/catalog/" ++ article ++ u "/detail.aspx" in
  match session url with
  | Raise _ => None
  | Ok d =>
      if is_blocked d then None
      else
        match extract_product_name d article with
        | None => None
        | Some name =>
            if negb (truthy_str name) then None
            else
              match extract_product_price d article with
              | None => None
              | Some price =>
                  if negb (truthy_float price) then None
                  else
                    let old_price := extract_old_price d in
                    let availability := extract_availability d price in
                    let rating := extract_rating d in
                    let reviews_count := extract_reviews_count d in
                    Some (mkProductData (u "Wildberries") article name price
                            old_price availability rating reviews_count url now)
              end
        end
  end.


(** The loop of [collect_multiple_products] from its [i]-th pass on,
    [results] being what the passes before have appended: pass [i] sees
    the pages [session i] and the time [clock i]. *)
Fixpoint collect_from (session : nat -> pystr -> res driver)
    (clock : nat -> pystr) (i : nat) (articles : list pystr)
    (results : list ProductData) : list ProductData :=
  match articles with
  | [] => results
  | article :: articles' =>
      match collect_product_data (session i) (clock i) article with
      | Some product_data =>
          collect_from session clock (S i) articles' (results ++ [product_data])
      | None => collect_from session clock (S i) articles' results
      end
  end.

Definition collect_multiple_products (session : nat -> pystr -> res driver)
    (clock : nat -> pystr) (articles : list pystr) : list ProductData :=
  collect_from session clock 0 articles [].

End Flow.

(** An item as [save_to_json] reads it: an object is replaced by its
    [__dict__], then the keys are looked up. *)
Definition item_dict (it : Store.item) : res Store.product :=
  match it with
  | Store.Dict p => Ok p
  | Store.Instance p => Ok p
  | Store.Other => Raise KeyError
  end.

Definition save_to_json (w : Store.world) (data : list Store.item)
    (filename : pystr) : bool * Store.world :=
  Store.save_with item_dict w data filename.

End WB.

(** ** ozon_selenium_scraper.py *)

Module Ozon.
Import Py Re Selenium.

Definition article_patterns : list pattern :=
  [ (* /product/[^/]*?(\d+)/ *)
    [lit (u "/product/") ++ [lazy_star (none_of (only 47)); Open;
       plus isdecimal; Close; one (only 47)]];
    (* --(\d+)/?$ *)
    [lit (u "--") ++ [Open; plus isdecimal; Close; opt (only 47); Eol]];
    (* /(\d+)/?$ *)
    [[one (only 47); Open; plus isdecimal; Close; opt (only 47); Eol]] ].

Definition extract_article_from_url (url : pystr) : pystr :=
  default [] (returned (
    for_each article_patterns (fun pattern => Ok (search pattern url)))).

Definition price_selectors : list pystr :=
  [u "span[class*='price']"; u "div[class*='price']";
   u "span[class*='tsHeadline']"; u "div[class*='tsHeadline']";
   u "span[class*='cost']"; u "div[class*='cost']"; u ".c311-a1"; u ".a0c1";
   u ".a1v9"; u "[data-widget*='price']"].

Definition thousands_gap : N -> bool := any_of [32; 8239].

(** The group [\d{1,3}[  ]?\d{3}[  ]?\d{0,3}] of both price
    patterns. *)
Definition grouped_digits : sequence :=
  [Open; between isdecimal 1 3; opt thousands_gap; between isdecimal 3 3;
   opt thousands_gap; between isdecimal 0 3; Close].

Definition price_patterns : list pattern :=
  [ [grouped_digits ++ [opt thousands_gap; opt (only 8381)]];
    [[one (only 8381); star thousands_gap] ++ grouped_digits] ].

(** [1000 <= price <= 100000] *)
Definition plausible (price : Z) : bool :=
  (1000 <=? price)%Z && (price <=? 100000)%Z.

Definition extract_accurate_price (element : card) : option Z :=
  returned (
    by_selector ←
      for_each price_selectors (fun selector =>
        swallow (
          price_elements ← card_find_elements element selector;
          for_each price_elements (fun price_element =>
            t ← text price_element;
            let price_text := strip t in
            if truthy_str price_text
            then
              let clean_text :=
                sub [[one (none_of (either isdecimal isspace))]] []
                    price_text in
              let clean_text := sub [[plus isspace]] [] clean_text in
              if truthy_str clean_text && Nat.leb 3 (length clean_text)
              then
                match int_of_str clean_text with
                | Some price =>
                    if plausible price then Ok (Some price) else Ok None
                | None => Raise ValueError
                end
              else Ok None
            else Ok None)));
    match by_selector with
    | Some price => Ok (Some price)
    | None =>
        element_text ← card_text element;
        for_each price_patterns (fun pattern =>
          for_each (findall pattern element_text) (fun m =>
            let clean_price := sub [[one (none_of isdecimal)]] [] m in
            if truthy_str clean_price
            then
              match int_of_str clean_price with
              | Some price =>
                  if plausible price then Ok (Some price) else Ok None
              | None => Raise ValueError
              end
            else Ok None))
    end).

Definition title_selectors : list pystr :=
  [u "span[class*='tsBody']"; u "a[class*='title']"; u "span[class*='title']";
   u "div[class*='title']"; u "h3"; u "h4"; u ".a5-a";
   u "[class*='tile-title']"].

Definition extract_product_name (element : card) : option pystr :=
  returned (
    by_selector ←
      for_each title_selectors (fun selector =>
        swallow (
          title_elements ← card_find_elements element selector;
          for_each title_elements (fun title_element =>
            t ← text title_element;
            let title_text := strip t in
            if truthy_str title_text && Nat.ltb 10 (length title_text)
            then Ok (Some title_text)
            else Ok None)));
    match by_selector with
    | Some name => Ok (Some name)
    | None =>
        swallow (
          t ← card_text element;
          let text := first_line t in
          if truthy_str text && Nat.ltb 10 (length text)
          then Ok (Some text)
          else Ok None)
    end).

Definition rating_selectors : list pystr :=
  [u "span[class*='rating']"; u "div[class*='rating']"; u "[class*='star-rate']"].

(** [(\d+[.,]\d+)] *)
Definition rating_pattern : pattern :=
  [[Open; plus isdecimal; one (any_of [46; 44]); plus isdecimal; Close]].

Definition extract_rating (element : card) : option float :=
  returned (
    for_each rating_selectors (fun selector =>
      swallow (
        rating_elements ← card_find_elements element selector;
        for_each rating_elements (fun rating_elem =>
          t ← text rating_elem;
          let rating_text := strip t in
          if truthy_str rating_text
          then
            match search rating_pattern rating_text with
            | Some m =>
                match float_of_str (replace_char 44 [46] m) with
                | Some rating => Ok (Some rating)
                | None => Raise ValueError
                end
            | None => Ok None
            end
          else Ok None)))).

Definition reviews_selectors : list pystr :=
  [u "span[class*='review']"; u "div[class*='review']";
   u "[class*='review-count']"].

(** [(\d+)] *)
Definition count_pattern : pattern := [[Open; plus isdecimal; Close]].

Definition extract_reviews_count (element : card) : Z :=
  default 0%Z (returned (
    for_each reviews_selectors (fun selector =>
      swallow (
        reviews_elements ← card_find_elements element selector;
        for_each reviews_elements (fun reviews_elem =>
          t ← text reviews_elem;
          let reviews_text := strip t in
          if truthy_str reviews_text
          then
            match search count_pattern reviews_text with
            | Some m =>
                match int_of_str m with
                | Some count => Ok (Some count)
                | None => Raise ValueError
                end
            | None => Ok None
            end
          else Ok None))))).

Definition old_price_selectors : list pystr :=
  [u "span[class*='old-price']"; u "div[class*='old-price']";
   u "s[class*='price']"].

Definition extract_old_price (element : card) : option Z :=
  returned (
    for_each old_price_selectors (fun selector =>
      swallow (
        old_price_elements ← card_find_elements element selector;
        for_each old_price_elements (fun old_elem =>
          t ← text old_elem;
          let old_text := strip t in
          if truthy_str old_text
          then
            let clean_text :=
              sub [[one (none_of (either isdecimal isspace))]] [] old_text in
            let clean_text := sub [[plus isspace]] [] clean_text in
            if truthy_str clean_text && Nat.leb 3 (length clean_text)
            then
              match int_of_str clean_text with
              | Some old_price =>
                  if (1000 <? old_price)%Z then Ok (Some old_price)
                  else Ok None
              | None => Raise ValueError
              end
            else Ok None
          else Ok None)))).

Definition link_selectors : list pystr :=
  [u "a[href*='/product/']"; u "a[class*='tile-link']";
   u "a[class*='card-link']"].

(** [extract_product_info_immediately(element, driver)]; [now] is
    [datetime.now().isoformat()]. *)
Definition extract_product_info_immediately (element : card) (now : pystr)
    : option Store.product :=
  let product_url :=
    returned (
      for_each link_selectors (fun selector =>
        swallow (
          link_element ← card_find_element element selector;
          href ← get_attribute link_element (u "href");
          match href with
          | Some product_url =>
              if truthy_str product_url then Ok (Some product_url)
              else Ok None
          | None => Ok None
          end))) in
  match product_url with
  | None => None
  | Some product_url =>
      let article := extract_article_from_url product_url in
      if negb (truthy_str article) then None
      else
        match extract_product_name element with
        | None => None
        | Some name =>
            if negb (truthy_str name) then None
            else
              match extract_accurate_price element with
              | None => None
              | Some price =>
                  if (price =? 0)%Z || (price <? 1000)%Z then None
                  else
                    let rating := extract_rating element in
                    let reviews_count := extract_reviews_count element in
                    let old_price := extract_old_price element in
                    Some (Store.Product (u "Ozon") (Store.Str article) name
                            (PyInt price) (option_map PyInt old_price) None
                            rating reviews_count product_url now)
              end
        end
  end.

Definition selectors : list pystr :=
  [u "div[class*='tile-root']"; u "article[class*='tile-root']";
   u "div[class*='widget-search-result'] div[class*='tile']";
   u "div[class*='search-result'] div[class*='tile']"; u "div[class*='tile']";
   u "article[class*='tile']"; u "div[class*='card']"].

(** The state of [find_all_products_safe]: the two variables of the
    function, and the number of records assembled so far, which is the
    number of times the clock was read. *)
Record scan := Scan {
  products_data : list Store.product;
  seen_articles : gset Store.scalar;
  assembled : nat
}.

(** One pass of the inner loop; [clock n] is what [datetime.now()] gives
    when it is read for the [n]-th time. *)
Definition scan_element (clock : nat -> pystr) (st : scan) (element : card)
    : scan :=
  match extract_product_info_immediately element (clock (assembled st)) with
  | Some product_info =>
      if bool_decide (Store.article product_info ∉ seen_articles st)
      then Scan (products_data st ++ [product_info])
                ({[Store.article product_info]} ∪ seen_articles st)
                (S (assembled st))
      else Scan (products_data st) (seen_articles st) (S (assembled st))
  | None => st
  end.

(** One pass of the outer loop: a selector whose lookup raises is
    skipped. *)
Definition scan_selector (page : listing) (clock : nat -> pystr) (st : scan)
    (selector : pystr) : scan :=
  match find_cards page selector with
  | Ok elements => fold_left (scan_element clock) elements st
  | Raise _ => st
  end.

Definition find_all_products_safe (page : listing) (clock : nat -> pystr)
    : list Store.product :=
  products_data
    (fold_left (scan_selector page clock) selectors (Scan [] ∅ 0)).

(** The loop of [remove_duplicates], from the state
    [(unique_products, seen_articles)]. *)
Fixpoint unique_from (products unique_products : list Store.product)
    (seen : gset Store.scalar) : list Store.product :=
  match products with
  | [] => unique_products
  | product :: products' =>
      let article := Store.article product in
      if bool_decide (article ∉ seen)
      then unique_from products' (unique_products ++ [product])
                       ({[article]} ∪ seen)
      else unique_from products' unique_products seen
  end.

Definition remove_duplicates (products : list Store.product)
    : list Store.product :=
  match products with
  | [] => []
  | _ => unique_from products [] ∅
  end.

(** [search_target_products(target_articles)]; [started] is what
    [setup_driver()] gives.  The identifiers come from the configuration
    as [str] or [int]. *)
Definition search_target_products (started : res browser)
    (clock : nat -> pystr) (target_articles : list Store.scalar)
    : res (list Store.product) :=
  driver ← started;
  let target_articles_set : gset Store.scalar := list_to_set target_articles in
  let found_products :=
    match search_page driver with
    | Ok page =>
        let all_products_data := find_all_products_safe page clock in
        let found_products :=
          List.filter
            (fun product_data =>
               bool_decide (Store.article product_data ∈ target_articles_set))
            all_products_data in
        remove_duplicates found_products
    | Raise _ => []
    end in
  _ ← quit driver;
  Ok found_products.

(** An item as [save_to_json] reads it: the keys are looked up in the
    item itself. *)
Definition item_dict (it : Store.item) : res Store.product :=
  match it with
  | Store.Dict p => Ok p
  | Store.Instance _ => Raise TypeError
  | Store.Other => Raise KeyError
  end.

Definition save_to_json (w : Store.world) (data : list Store.item)
    (filename : pystr) : bool * Store.world :=
  Store.save_with item_dict w data filename.

End Ozon.

(** ** Tables and pages for the examples *)

Module Sample.
Import Py Re Selenium.

(** The Unicode tables restricted to Basic Latin and Cyrillic: the
    texts of the examples stay inside these. *)
Definition lower_char (c : N) : N :=
  if in_range 65 90 c || in_range 1040 1071 c then c + 32
  else if in_range 1024 1039 c then c + 80
  else c.

Definition basic : Unicode := {|
  lower := List.map lower_char;
  isword := fun c =>
    isdecimal c || in_range 97 122 c || in_range 65 90 c || (c =? 95)
    || in_range 1024 1119 c;
  ci_eq := fun a b => lower_char a =? lower_char b
|}.

Definition by_eqb (a b : By) : bool :=
  match a, b with
  | CSS_SELECTOR, CSS_SELECTOR | XPATH, XPATH | TAG_NAME, TAG_NAME => true
  | _, _ => false
  end.

(** The elements listed under a selector, none when it is not listed. *)
Fixpoint listed (table : list (By * pystr * list element)) (how : By)
    (selector : pystr) : list element :=
  match table with
  | [] => []
  | (h, s, es) :: table' =>
      if by_eqb h how && pystr_eqb s selector then es
      else listed table' how selector
  end.

(** A page with the given title and elements, on which no call fails. *)
Definition page (page_title : pystr)
    (table : list (By * pystr * list element)) : driver :=
  Driver (Ok page_title) (fun how selector => Ok (listed table how selector))
         (Ok (Some page_title)).

(** A visible, enabled element with the given text and no attribute. *)
Definition shown (t : pystr) : element :=
  Element (Ok t) (fun _ => Ok None) (Ok true) (Ok true) (Ok []).

(** A product card with the given text and elements. *)
Definition tile (t : pystr) (table : list (pystr * list element)) : card :=
  Card (Ok t)
       (fun selector =>
          Ok (listed (List.map (fun '(s, es) => (CSS_SELECTOR, s, es)) table)
                     CSS_SELECTOR selector)).

(** A link to [href]. *)
Definition link (href : pystr) : element :=
  Element (Ok [])
          (fun a => Ok (if pystr_eqb a (u "href") then Some href else None))
          (Ok true) (Ok true) (Ok []).

(** A Wildberries product page: a heading, a price, an out-of-stock
    banner and an order button, both visible. *)
Definition wb_page : driver :=
  page (u "Smart TV 32 Full HD")
    [ (TAG_NAME, u "body", [shown (u "Smart TV 32 Full HD 15 990 ₽")]);
      (CSS_SELECTOR, u "h1", [shown (u "Smart TV 32 Full HD")]);
      (CSS_SELECTOR, u ".price-block__final-price", [shown (u "15 990 ₽")]);
      (CSS_SELECTOR, u ".sold-out", [shown (u "Sold out")]);
      (CSS_SELECTOR, u ".order-btn", [shown (u "Order")]) ].

(** The same page without banner and button. *)
Definition wb_plain_page : driver :=
  page (u "Smart TV 32 Full HD")
    [ (TAG_NAME, u "body", [shown (u "Smart TV 32 Full HD 15 990 ₽")]);
      (CSS_SELECTOR, u "h1", [shown (u "Smart TV 32 Full HD")]);
      (CSS_SELECTOR, u ".price-block__final-price", [shown (u "15 990 ₽")]) ].

(** A page that shows a captcha. *)
Definition captcha_page : driver :=
  page (u "Wildberries") [ (TAG_NAME, u "body", [shown (u "Enter the CAPTCHA")]) ].

(** An Ozon card whose rating element reads 12,5 and whose review
    element reads 1 234 отзыва. *)
Definition ozon_card : card :=
  tile (u "Smart TV 32 Full HD Salute")
    [ (u "a[href*='/product/']",
       [link (u "https://www.ozon.ru/product/smart-tv-1955609657/")]);
      (u "span[class*='tsBody']", [shown (u "Smart TV 32 Full HD Salute")]);
      (u "span[class*='price']", [shown (u "15 990 ₽")]);
      (u "span[class*='rating']", [shown (u "12,5")]);
      (u "span[class*='review']", [shown (u "1 234 отзыва")]) ].

(** A Wildberries page whose review counter reads 1 234 отзыва. *)
Definition wb_reviews_page : driver :=
  page (u "Smart TV 32 Full HD")
    [ (CSS_SELECTOR, u ".comments-count", [shown (u "1 234 отзыва")]) ].

Definition now : pystr := u "2025-01-01T00:00:00".

(** A clock that stands still. *)
Definition clock : nat -> pystr := fun _ => now.

(** A listing page on which two selectors find the sample card, one of
    them twice. *)
Definition ozon_listing : listing :=
  Listing (fun selector =>
    if pystr_eqb selector (u "div[class*='tile-root']") then Ok [ozon_card]
    else if pystr_eqb selector (u "div[class*='tile']")
         then Ok [ozon_card; ozon_card]
         else Raise WebDriverException).

Definition ozon_browser : browser := Browser (Ok ozon_listing) (Ok tt).

(** A Wildberries page with an old price, a rating and a review count. *)
Definition wb_full_page : driver :=
  page (u "Smart TV 32 Full HD")
    [ (TAG_NAME, u "body", [shown (u "Smart TV 32 Full HD 15 990 ₽")]);
      (CSS_SELECTOR, u "h1", [shown (u "  Smart TV 32 Full HD  ")]);
      (CSS_SELECTOR, u ".price-block__final-price", [shown (u "15 990 ₽")]);
      (CSS_SELECTOR, u ".old-price", [shown (u "19 990 ₽")]);
      (CSS_SELECTOR, u ".product-rating", [shown (u "4,5 из 5")]);
      (CSS_SELECTOR, u ".comments-count", [shown (u "1 234 отзыва")]) ].

(** A browser that shows the full page for article 358384386 and fails
    to load any other. *)
Definition wb_session : nat -> pystr -> res driver :=
  fun _ url =>
    if pystr_eqb url (u "https://www.wildberries.ru/catalog/358384386/detail.aspx")
    then Ok wb_full_page
    else Raise WebDriverException.

Definition tv (market : pystr) (art : Z) (cost : Z) : Store.product :=
  Store.Product market (Store.Int art) (u "Smart TV 32 Full HD")
    (PyInt cost) None None None 0%Z (u "https://example.org/") now.

Definition latest : pystr := u "data/products_latest.json".

Definition market : pystr := u "MarketX".

(** A file system that holds the directory data and, in it, [content]
    as the latest store, and refuses nothing. *)
Definition disk (content : Store.file) : Store.world :=
  Store.World {[ latest := content ]} {[ u "data" ]}
              (fun _ => true) (fun _ => true).

(** A file system that holds nothing and refuses nothing. *)
Definition empty_disk : Store.world :=
  Store.World ∅ ∅ (fun _ => true) (fun _ => true).

(** A record whose name is a lone surrogate, U+D83D. *)
Definition torn (market : pystr) (art : Z) (cost : Z) : Store.product :=
  Store.Product market (Store.Int art) [55357]
    (PyInt cost) None None None 0%Z (u "https://example.org/") now.

(** An element that is not displayed. *)
Definition hidden (t : pystr) : element :=
  Element (Ok t) (fun _ => Ok None) (Ok false) (Ok true) (Ok []).

(** A Wildberries page on which the sold-out selector finds a hidden
    element before a visible one, and the order button is visible. *)
Definition wb_hidden_first_page : driver :=
  page (u "Smart TV 32 Full HD")
    [ (CSS_SELECTOR, u ".sold-out",
       [hidden (u "Sold out"); shown (u "Sold out")]);
      (CSS_SELECTOR, u ".order-btn", [shown (u "Order")]) ].

End Sample.

(** ** Notions the statements use *)

Module Spec.
Import Py Selenium.

(** The text of an article: the article itself, or the decimal numeral
    of an [int], so that the article 123 and the article "123" have the
    same text. *)
Definition article_text (a : Store.scalar) : pystr :=
  match a with
  | Store.Str s => s
  | Store.Int z => numeral z
  end.

(** The key of the merge: the pair of the article, as a text, and the
    marketplace. *)
Definition merge_key (p : Store.product) : pystr * pystr :=
  (article_text (Store.article p), Store.marketplace p).

(** Two records with the same key: the same article text and the same
    marketplace. *)
Definition same_key (p q : Store.product) : Prop :=
  article_text (Store.article p) = article_text (Store.article q)
  ∧ Store.marketplace p = Store.marketplace q.

(** The records of [ps] whose key is neither in [seen] nor carried by a
    record before them in [ps]. *)
Fixpoint first_occurrences (ps : list Store.product)
    (seen : gset (pystr * pystr)) : list Store.product :=
  match ps with
  | [] => []
  | p :: ps' =>
      if bool_decide (merge_key p ∉ seen)
      then p :: first_occurrences ps' ({[merge_key p]} ∪ seen)
      else first_occurrences ps' seen
  end.

(** The elements of [xs] whose key is neither in [seen] nor the key of an
    element before them in [xs]. *)
Fixpoint first_by {A K : Type} `{Countable K} (key : A → K) (xs : list A)
    (seen : gset K) : list A :=
  match xs with
  | [] => []
  | x :: xs' =>
      if bool_decide (key x ∉ seen)
      then x :: first_by key xs' ({[key x]} ∪ seen)
      else first_by key xs' seen
  end.

(** The keys of a list, as a set. *)
Definition keys_of {A K : Type} `{Countable K} (key : A → K) (xs : list A)
    : gset K :=
  list_to_set (key <$> xs).

(** Every class of the sequence that is read while group 1 is open lies
    inside [P]; [recording] tells whether the group is open at the start
    of the sequence. *)
Fixpoint captures_within (P : N → bool) (recording : bool) (re : Re.sequence)
    : Prop :=
  match re with
  | [] => True
  | Re.Chr p _ _ _ :: re' =>
      (recording = true → ∀ c, p c = true → P c = true)
      ∧ captures_within P recording re'
  | Re.Open :: re' => captures_within P true re'
  | Re.Close :: re' => captures_within P false re'
  | _ :: re' => captures_within P recording re'
  end.

(** A continuation of a match that, entered with a captured text inside
    [P] and with group 1 open or not as [recording] says, ends with a
    group text inside [P]. *)
Definition captures_sound (P : N → bool) (recording : bool) (k : Re.cont)
    : Prop :=
  ∀ st s g rest,
    Re.recording st = recording →
    Forall (λ c, P c = true) (Re.captured st) →
    k st s = Some (g, rest) →
    Forall (λ c, P c = true) g.

(** A text without a space at either end. *)
Definition trimmed (s : pystr) : Prop :=
  (∀ c rest, s = c :: rest → isspace c = false) ∧
  (∀ c front, s = front ++ [c] → isspace c = false).

(** A file name without a directory part. *)
Definition bare (filename : pystr) : Prop := (47 : N) ∉ filename.

(** An item read as a [dict], an object giving its [__dict__]. *)
Definition unwrap (it : Store.item) : Store.item :=
  match it with
  | Store.Instance p => Store.Dict p
  | other => other
  end.

(** [p] was assembled from a card that a selector of the listing scan
    finds on the page, at some reading of the clock. *)
Definition listed_product (page : listing) (clock : nat → pystr)
    (p : Store.product) : Prop :=
  ∃ selector elements element n,
    selector ∈ Ozon.selectors ∧ find_cards page selector = Ok elements ∧
    element ∈ elements ∧
    Ozon.extract_product_info_immediately element (clock n) = Some p.

(** What the listing scan keeps true of its state: the articles
    collected are distinct, they are the articles seen, and every product
    collected is a listed one. *)
Definition scanned (page : listing) (clock : nat → pystr) (st : Ozon.scan)
    : Prop :=
  NoDup (Store.article <$> Ozon.products_data st) ∧
  (∀ a, a ∈ Ozon.seen_articles st
        ↔ a ∈ Store.article <$> Ozon.products_data st) ∧
  ∀ p, p ∈ Ozon.products_data st → listed_product page clock p.

(** [p] stands at index [i] of [ps] and no record before it has its
    key. *)
Definition first_at (ps : list Store.product) (i : nat) (p : Store.product)
    : Prop :=
  ps !! i = Some p ∧
  ∀ j q, (j < i)%nat → ps !! j = Some q → merge_key q ≠ merge_key p.

(** [merged] holds the first occurrence of every key of [all], and
    nothing else, in the order of [all]: no two of its records have both
    the same article text and the same marketplace. *)
Definition keeps_first_occurrences (all merged : list Store.product) : Prop :=
  NoDup (merge_key <$> merged) ∧
  merged `sublist_of` all ∧
  ∀ p, p ∈ merged ↔ ∃ i, first_at all i p.

(** The directory [d] can be made: it is named, and each directory on
    the way to it either is there or is missing, with no regular file in
    its place, and the system lets it be made. *)
Definition creatable (w : Store.world) (d : pystr) : Prop :=
  d ≠ [] ∧
  ∀ a, a ∈ Store.parents d →
       a ∈ Store.dirs w
       ∨ (Store.files w !! a = None ∧ Store.mkdir_ok w a = true).

(** The file [f] can be opened for writing: the system lets it, and [f]
    is not a directory. *)
Definition writable (w : Store.world) (f : pystr) : Prop :=
  Store.write_ok w f = true ∧ f ∉ Store.dirs w.

(** The store [f] holds the records [prior]: the file is a list of
    them, or nothing is there and [prior] is empty. *)
Definition holds (w : Store.world) (f : pystr) (prior : list Store.product)
    : Prop :=
  (Store.exists_ w f = false ∧ prior = [])
  ∨ Store.files w !! f = Some (Store.Json (Store.JArray (Store.Dict <$> prior))).

(** The file system once the directories on the way to [d] were made. *)
Definition made (w : Store.world) (d : pystr) : Store.world :=
  Store.World (Store.files w) (list_to_set (Store.parents d) ∪ Store.dirs w)
              (Store.mkdir_ok w) (Store.write_ok w).

(** The file system once the directory of [filename] was made and
    [content] became what [filename] holds. *)
Definition replaced (w : Store.world) (filename : pystr)
    (content : Store.file) : Store.world :=
  Store.World (<[filename := content]> (Store.files w))
              (list_to_set (Store.parents (Store.dirname filename))
               ∪ Store.dirs w)
              (Store.mkdir_ok w) (Store.write_ok w).

(** The file system once the directory of [filename] was made and
    [records] were written to [filename]. *)
Definition written (w : Store.world) (filename : pystr)
    (records : list Store.product) : Store.world :=
  replaced w filename (Store.Json (Store.JArray (Store.Dict <$> records))).

(** The body of the page, as [is_blocked] reads it. *)
Definition body_text (d : driver) : res pystr :=
  body ← find_element d TAG_NAME (u "body");
  text body.



(** The element the selector finds first is displayed. *)
Definition displays (d : driver) (selector : pystr) : Prop :=
  ∃ e, find_element d CSS_SELECTOR selector = Ok e ∧ is_displayed e = Ok true.

(** The element the selector finds first is displayed and enabled. *)
Definition offers (d : driver) (selector : pystr) : Prop :=
  ∃ e, find_element d CSS_SELECTOR selector = Ok e ∧ is_displayed e = Ok true
       ∧ is_enabled e = Ok true.

(** Some element that an out-of-stock selector finds on the page, the
    first or a later one, is displayed. *)
Definition out_of_stock_element (d : driver) : Prop :=
  ∃ selector found e,
    selector ∈ WB.out_of_stock_selectors ∧
    find_elements d CSS_SELECTOR selector = Ok found ∧
    e ∈ found ∧ is_displayed e = Ok true.

(** An out-of-stock indicator and an add-to-cart control as the code
    looks for them: the first element of some selector of the list is
    displayed (and, for the control, enabled). *)
Definition out_of_stock_indicator (d : driver) : Prop :=
  ∃ selector, selector ∈ WB.out_of_stock_selectors ∧ displays d selector.

Definition add_to_cart_control (d : driver) : Prop :=
  ∃ selector, selector ∈ WB.in_stock_selectors ∧ offers d selector.

End Spec.

(** ** Loops and exceptions *)

Section Loops.
Import Py.
Context {A R : Type}.
Implicit Types (xs : list A) (body : A → res (option R)).

Lemma for_each_returns xs body r :
  for_each xs body = Ok (Some r) → ∃ x, x ∈ xs ∧ body x = Ok (Some r).
Proof.
  induction xs as [|x xs IH]; simpl; [done|].
  destruct (body x) as [[v|]|e] eqn:Hx; intros Hr; simplify_eq.
  - exists x. split; [left|done].
  - destruct (IH Hr) as (y & Hy & Hb). exists y. split; [by right|done].
Qed.

Lemma for_each_falls_through xs body :
  (∀ x, x ∈ xs → body x = Ok None) → for_each xs body = Ok None.
Proof.
  induction xs as [|x xs IH]; simpl; intros Hall; [done|].
  rewrite (Hall x); [|left]. apply IH. intros y Hy. apply Hall. by right.
Qed.

Lemma for_each_hits xs body r x :
  x ∈ xs → body x = Ok (Some r) →
  (∀ y, y ∈ xs → body y = Ok None ∨ body y = Ok (Some r)) →
  for_each xs body = Ok (Some r).
Proof.
  induction xs as [|y xs IH]; simpl; intros Hx Hb Hall.
  - by apply elem_of_nil in Hx.
  - destruct (Hall y) as [Hy|Hy]; [left| |by rewrite Hy].
    rewrite Hy. apply IH; [|done|].
    + apply elem_of_cons in Hx as [->|Hx]; [congruence|done].
    + intros z Hz. apply Hall. by right.
Qed.

Lemma swallow_returns (r : res (option R)) v :
  swallow r = Ok (Some v) → r = Ok (Some v).
Proof. destruct r; simpl; congruence. Qed.

Lemma returned_returns (r : res (option R)) v :
  returned r = Some v → r = Ok (Some v).
Proof. destruct r; simpl; congruence. Qed.

End Loops.

Lemma bind_returns {A B} (r : Py.res A) (k : A → Py.res B) b :
  (a ← r; k a) = Py.Ok b → ∃ a, r = Py.Ok a ∧ k a = Py.Ok b.
Proof. destruct r as [a|e]; simpl; [eauto|done]. Qed.

(** ** First occurrences, for any key *)

Section FirstBy.
Import Spec.
Context {A K : Type} `{Countable K} (key : A → K).
Implicit Types (xs ys : list A) (seen : gset K).

Lemma first_by_elem xs seen x :
  x ∈ first_by key xs seen → x ∈ xs ∧ key x ∉ seen.
Proof.
  revert seen. induction xs as [|x0 xs IH]; intros seen; simpl.
  - by intros ?%elem_of_nil.
  - case_bool_decide as Hk.
    + intros [->|Hin]%elem_of_cons; [split; [left|done]|].
      apply IH in Hin as [Hin Hn]. split; [by right|].
      by apply not_elem_of_union in Hn as [_ Hn].
    + intros [Hin Hn]%IH. split; [by right|done].
Qed.

Lemma first_by_NoDup xs seen : NoDup (key <$> first_by key xs seen).
Proof.
  revert seen. induction xs as [|x0 xs IH]; intros seen; simpl.
  - constructor.
  - case_bool_decide; [|apply IH]. rewrite fmap_cons. constructor; [|apply IH].
    intros (y & Hy & [_ Hn]%first_by_elem)%list_elem_of_fmap.
    apply Hn, elem_of_union_l, elem_of_singleton. done.
Qed.

Lemma first_by_sublist xs seen : first_by key xs seen `sublist_of` xs.
Proof.
  revert seen. induction xs as [|x0 xs IH]; intros seen; simpl; [done|].
  case_bool_decide; [by apply sublist_skip|by apply sublist_cons].
Qed.

(** Elements whose keys are all seen already add nothing. *)
Lemma first_by_absorbed xs seen :
  (∀ x, x ∈ xs → key x ∈ seen) → first_by key xs seen = [].
Proof.
  induction xs as [|x0 xs IH]; intros Hall; simpl; [done|].
  rewrite bool_decide_eq_false_2.
  - apply IH. intros x Hx. apply Hall. by right.
  - intros Hn. apply Hn, Hall. left.
Qed.

(** A list whose keys are distinct and unseen is kept as it is. *)
Lemma first_by_distinct xs seen :
  NoDup (key <$> xs) → (∀ x, x ∈ xs → key x ∉ seen) →
  first_by key xs seen = xs.
Proof.
  revert seen. induction xs as [|x0 xs IH]; intros seen Hnd Hfresh; simpl;
    [done|].
  rewrite fmap_cons in Hnd. apply NoDup_cons in Hnd as [Hx0 Hnd].
  rewrite bool_decide_eq_true_2 by (apply Hfresh; left).
  f_equal. apply IH; [done|]. intros x Hx.
  apply not_elem_of_union. split; [|apply Hfresh; by right].
  apply not_elem_of_singleton. intros Heq. apply Hx0. rewrite <- Heq.
  apply list_elem_of_fmap. eauto.
Qed.

Lemma first_by_app xs ys seen :
  first_by key (xs ++ ys) seen =
  first_by key xs seen ++ first_by key ys (keys_of key xs ∪ seen).
Proof.
  unfold keys_of. revert seen. induction xs as [|x0 xs IH]; intros seen.
  - simpl. f_equal. by rewrite (left_id_L ∅ (∪)).
  - rewrite <- app_comm_cons, fmap_cons, list_to_set_cons.
    cbn [first_by]. case_bool_decide as Hk.
    + rewrite IH. simpl. do 3 f_equal. apply set_eq. intros k.
      rewrite !elem_of_union. naive_solver.
    + rewrite IH. do 2 f_equal. apply set_eq. intros k.
      rewrite !elem_of_union, elem_of_singleton. naive_solver.
Qed.

(** Taking first occurrences twice is taking them once. *)
Lemma first_by_idem xs : first_by key (first_by key xs ∅) ∅ = first_by key xs ∅.
Proof.
  apply first_by_distinct; [apply first_by_NoDup|].
  intros x _. apply not_elem_of_empty.
Qed.

(** Every key of [xs] is seen or carried by a first occurrence. *)
Lemma first_by_covers xs seen x :
  x ∈ xs → key x ∈ seen ∨ ∃ y, y ∈ first_by key xs seen ∧ key y = key x.
Proof.
  revert seen. induction xs as [|x0 xs IH]; intros seen;
    [by intros ?%elem_of_nil|].
  intros [->|Hin]%elem_of_cons; simpl.
  - case_bool_decide as Hk; [|by left]. right. exists x0. split; [left|done].
  - case_bool_decide as Hk; [|by apply IH].
    destruct (IH ({[key x0]} ∪ seen) Hin) as [Hs|(y & Hy & Hky)].
    + apply elem_of_union in Hs as [->%elem_of_singleton|Hs]; [|by left].
      right. exists x0. split; [left|done].
    + right. exists y. split; [by right|done].
Qed.

End FirstBy.

(** ** The file system *)

Section Files.
Import Py Store Spec.
Implicit Types (w : world) (d f a : pystr) (ds : list pystr).

(** A directory on the way to [d] is a part of [d] that ends with a
    character other than the slash. *)
Lemma parents_from_elem before d a :
  a ∈ parents_from before d →
  ∃ x c y, a = before ++ x ++ [c] ∧ d = x ++ c :: y ∧ c ≠ 47.
Proof.
  revert before. induction d as [|c d IH]; intros before; simpl;
    [by intros ?%elem_of_nil|].
  assert (a ∈ parents_from (before ++ [c]) d →
          ∃ x c0 y, a = before ++ x ++ [c0] ∧ c :: d = x ++ c0 :: y ∧ c0 ≠ 47)
    as Hrest.
  { intros (x & c0 & y & -> & -> & Hc0)%IH. exists (c :: x), c0, y.
    by rewrite <- !app_assoc. }
  destruct (_ && negb (c =? 47)) eqn:Hhere; [|done].
  intros [->|Hin]%elem_of_cons; [|by apply Hrest].
  exists [], c, d. split; [done|]. split; [done|].
  apply andb_true_iff in Hhere as [_ Hc]. apply negb_true_iff in Hc.
  by apply N.eqb_neq.
Qed.

Lemma head_of_nil f : head_of f = [] → existsb (N.eqb 47) f = false.
Proof.
  induction f as [|c f IH]; cbn [head_of existsb]; [done|].
  destruct (existsb (N.eqb 47) f) eqn:Hany; [done|].
  destruct (c =? 47) eqn:Hc; [done|]. intros _.
  by rewrite N.eqb_sym, Hc.
Qed.

Lemma head_of_split f :
  ∃ t, f = head_of f ++ t ∧ (head_of f = [] ∨ ∃ h, head_of f = h ++ [47]).
Proof.
  induction f as [|c f (t & Ht & IH)]; simpl; [by exists []; auto|].
  destruct (existsb (N.eqb 47) f) eqn:Hany.
  - exists t. split; [simpl; by f_equal|]. right.
    destruct IH as [Hnone|(h & Hh)].
    + apply head_of_nil in Hnone. congruence.
    + exists (c :: h). by rewrite Hh.
  - destruct (c =? 47) eqn:Hc.
    + apply N.eqb_eq in Hc as ->. exists f. split; [done|]. right. by exists [].
    + exists (c :: f). auto.
Qed.

Lemma drop_while_suffix (p : N → bool) (s : pystr) :
  ∃ front, s = front ++ drop_while p s.
Proof.
  induction s as [|c s (front & IH)]; simpl; [by exists []|].
  destruct (p c); [|by exists []]. exists (c :: front). simpl. by f_equal.
Qed.

(** The directory part of a name is a proper part of it, unless it
    consists of slashes. *)
Lemma dirname_split f :
  (∃ y, y ≠ [] ∧ f = dirname f ++ y) ∨ Forall (λ c, c = 47) (dirname f).
Proof.
  unfold dirname. destruct (head_of_split f) as (t & Hf & Hhead).
  destruct (head_of f) as [|c0 head] eqn:Hh; [by right|].
  simpl truthy_str. cbv beta iota zeta. rewrite andb_true_l.
  destruct (forallb (N.eqb 47) (c0 :: head)) eqn:Hall; simpl negb; cbv iota.
  - right. apply List.Forall_forall. intros c Hc.
    eapply forallb_forall in Hall; [|exact Hc]. by apply N.eqb_eq in Hall.
  - left. destruct Hhead as [|(h & Hhead)]; [done|]. rewrite Hhead.
    rewrite rev_app_distr. cbn [rev app drop_while]. rewrite N.eqb_refl.
    destruct (drop_while_suffix (N.eqb 47) (rev h)) as (front & Hfront).
    exists (rev front ++ 47 :: t). split; [by destruct (rev front)|].
    rewrite Hf, Hhead, <- !app_assoc. simpl.
    rewrite (app_assoc _ (rev front)), <- rev_app_distr, <- Hfront.
    by rewrite rev_involutive.
Qed.

(** No directory on the way to the directory part of a name is the name
    itself. *)
Lemma parents_dirname_other f a : a ∈ parents (dirname f) → a ≠ f.
Proof.
  intros (x & c & y & Ha & Hd & Hc)%parents_from_elem Heq. simpl in Ha.
  destruct (dirname_split f) as [(z & Hz & Hf)|Hall].
  - rewrite Hd in Hf. rewrite <- Heq, Ha in Hf at 1.
    rewrite <- !app_assoc in Hf.
    apply app_inv_head in Hf. simpl in Hf. injection Hf as Hf.
    symmetry in Hf. apply app_eq_nil in Hf as [_ ?]. done.
  - rewrite Hd in Hall. apply Forall_app in Hall as [_ Hall].
    by inversion Hall.
Qed.

Lemma mkdir_returns w a w' :
  mkdir w a = Ok w' →
  files w' = files w ∧ mkdir_ok w' = mkdir_ok w ∧ write_ok w' = write_ok w ∧
  a ∈ dirs w' ∧ dirs w ⊆ dirs w' ∧ (∀ b, b ∈ dirs w' → b ∈ dirs w ∨ b = a).
Proof.
  unfold mkdir. case_bool_decide as Hin.
  { intros [= <-]. repeat split; auto. }
  case_bool_decide; [done|]. destruct (mkdir_ok w a); [|done].
  intros [= <-]. simpl. repeat split.
  - apply elem_of_union_l, elem_of_singleton. done.
  - apply union_subseteq_r.
  - intros b [->%elem_of_singleton|Hb]%elem_of_union; auto.
Qed.

Lemma mkdir_raises w a e : mkdir w a = Raise e → a ∉ dirs w.
Proof. unfold mkdir. case_bool_decide; [done|auto]. Qed.

(** Whatever [os.makedirs] does, it leaves the files as they are, takes
    no directory away, and adds none but those on the way. *)
Lemma mkdirs_frame ds w r w' :
  mkdirs w ds = (r, w') →
  files w' = files w ∧ mkdir_ok w' = mkdir_ok w ∧ write_ok w' = write_ok w ∧
  dirs w ⊆ dirs w' ∧ (∀ b, b ∈ dirs w' → b ∈ dirs w ∨ b ∈ ds) ∧
  (r = Ok tt → ∀ b, b ∈ ds → b ∈ dirs w').
Proof.
  revert w. induction ds as [|a ds IH]; intros w; simpl.
  { intros [= <- <-]. repeat split; auto. by intros _ b ?%elem_of_nil. }
  destruct (mkdir w a) as [w1|e] eqn:Hmk.
  - apply mkdir_returns in Hmk as (Hf & Hm & Hw & Ha & Hsub & Honly).
    intros (Hf' & Hm' & Hw' & Hsub' & Honly' & Hall)%IH.
    repeat split; try congruence.
    + by etrans.
    + intros b [Hb|Hb]%Honly'; [|right; by right].
      destruct (Honly b Hb) as [?| ->]; [by left|right; left].
    + intros Hr b [->|Hb]%elem_of_cons; [by apply Hsub'|by apply Hall].
  - intros [= <- <-]. repeat split; auto. done.
Qed.

Lemma makedirs_frame w d r w' :
  makedirs w d = (r, w') →
  files w' = files w ∧ mkdir_ok w' = mkdir_ok w ∧ write_ok w' = write_ok w ∧
  dirs w ⊆ dirs w' ∧ (∀ b, b ∈ dirs w' → b ∈ dirs w ∨ b ∈ parents d) ∧
  (r = Ok tt → d ≠ [] ∧ ∀ b, b ∈ parents d → b ∈ dirs w').
Proof.
  unfold makedirs. destruct d as [|c d]; simpl truthy_str; cbv iota.
  - intros [= <- <-]. repeat split; auto. done.
  - intros (? & ? & ? & ? & ? & Hall)%mkdirs_frame.
    repeat split; auto; done.
Qed.

(** Directories that are there are left alone. *)
Lemma mkdirs_present ds w :
  (∀ a, a ∈ ds → a ∈ dirs w) → mkdirs w ds = (Ok tt, w).
Proof.
  induction ds as [|a ds IH]; intros Hall; simpl; [done|].
  unfold mkdir. rewrite bool_decide_eq_true_2 by (apply Hall; left).
  apply IH. intros b Hb. apply Hall. by right.
Qed.

Lemma mkdirs_creates ds w :
  (∀ a, a ∈ ds → a ∈ dirs w ∨ (files w !! a = None ∧ mkdir_ok w a = true)) →
  mkdirs w ds
  = (Ok tt, World (files w) (list_to_set ds ∪ dirs w) (mkdir_ok w) (write_ok w)).
Proof.
  revert w. induction ds as [|a ds IH]; intros w Hall; simpl.
  { rewrite (left_id_L ∅ (∪)). by destruct w. }
  unfold mkdir. case_bool_decide as Hin.
  - rewrite IH by (intros b Hb; apply Hall; by right).
    do 2 f_equal. apply set_eq. intros b.
    rewrite !elem_of_union, elem_of_singleton. naive_solver.
  - destruct (Hall a) as [?|[Hnone Hok]]; [left|done|].
    rewrite Hnone, Hok. rewrite bool_decide_eq_false_2 by (by intros [? ?]).
    rewrite IH; simpl.
    + do 2 f_equal. apply set_eq. intros b.
      rewrite !elem_of_union, elem_of_singleton. naive_solver.
    + intros b Hb. destruct (Hall b) as [?|?]; [by right| |by right].
      left. by apply elem_of_union_r.
Qed.

Lemma makedirs_creates w d :
  creatable w d → makedirs w d = (Ok tt, made w d).
Proof.
  intros [Hd Hall]. unfold makedirs, made.
  destruct d as [|c d]; [done|]. simpl truthy_str. cbv iota.
  by apply mkdirs_creates.
Qed.

End Files.

(** ** The merge of the latest store *)

Section Merge.
Import Py Store Spec.
Implicit Types (ps out : list product) (seen : gset (pystr * pystr))
  (p q : product) (w : world) (data : list item) (filename : pystr)
  (as_dict : item → res product).

(** The key the code computes is the pair of the article text and the
    marketplace, when [str()] converts the article. *)
Lemma key_of_returns p k :
  key_of p = Ok k ↔ k = merge_key p ∧ converts_scalar (article p) = true.
Proof.
  unfold key_of, merge_key, str, converts_scalar, converts, article_text,
    str_of_Z.
  destruct (article p) as [s|z]; simpl.
  - split; [by intros [= <-]|by intros [-> _]].
  - destruct (Nat.leb _ _); simpl.
    + split; [by intros [= <-]|by intros [-> _]].
    + split; [done|by intros [_ ?]].
Qed.

Lemma key_of_converts p :
  converts_scalar (article p) = true → key_of p = Ok (merge_key p).
Proof. intros Hp. by apply key_of_returns. Qed.

Lemma storable_converts p :
  storable p = true →
  integers_convert p = true ∧ converts_scalar (article p) = true.
Proof.
  unfold storable. intros [Hi _]%andb_true_iff. split; [done|].
  unfold integers_convert in Hi.
  repeat (apply andb_true_iff in Hi as [Hi ?]). done.
Qed.

Lemma Forall_storable_converts ps :
  Forall (λ p, storable p = true) ps →
  Forall (λ p, converts_scalar (article p) = true) ps
  ∧ forallb integers_convert ps = true.
Proof.
  induction 1 as [|p ps [Hi Ha]%storable_converts _ [IH1 IH2]]; [done|].
  split; [by constructor|]. simpl. by rewrite Hi.
Qed.

Lemma dedup_first_occurrences as_dict :
  (∀ p, as_dict (Dict p) = Ok p) →
  ∀ ps out seen,
    Forall (λ p, converts_scalar (article p) = true) ps →
    dedup as_dict (Dict <$> ps) out seen = Ok (out ++ first_occurrences ps seen).
Proof.
  intros Hd ps. induction ps as [|p ps IH]; intros out seen Hps; simpl.
  - by rewrite app_nil_r.
  - apply Forall_cons in Hps as [Hp Hps].
    rewrite Hd. cbn [mbind res_bind]. rewrite (key_of_converts p Hp).
    cbn [mbind res_bind]. case_bool_decide.
    + rewrite IH by done. rewrite <- app_assoc.
      by rewrite bool_decide_eq_true_2 by done.
    + rewrite bool_decide_eq_false_2 by (by intros ?). by apply IH.
Qed.

Lemma first_occurrences_first_by ps seen :
  first_occurrences ps seen = first_by merge_key ps seen.
Proof.
  revert seen. induction ps as [|p ps IH]; intros seen; simpl; [done|].
  by rewrite !IH.
Qed.

Lemma first_at_head p0 ps p :
  first_at (p0 :: ps) 0 p ↔ p = p0.
Proof.
  unfold first_at. simpl. split.
  - intros [? _]. congruence.
  - intros ->. split; [done|]. intros j q Hj. lia.
Qed.

Lemma first_at_tail p0 ps i p :
  first_at (p0 :: ps) (S i) p ↔ merge_key p0 ≠ merge_key p ∧ first_at ps i p.
Proof.
  unfold first_at. simpl. split.
  - intros [Hi Hfirst]. split; [|split; [done|]].
    + apply (Hfirst 0%nat); [lia|done].
    + intros j q Hj Hq. apply (Hfirst (S j)); [lia|done].
  - intros (Hne & Hi & Hfirst). split; [done|].
    intros [|j] q Hj Hq; simpl in Hq.
    + congruence.
    + apply (Hfirst j); [lia|done].
Qed.

Lemma first_occurrences_elem ps seen p :
  p ∈ first_occurrences ps seen ↔
  ∃ i, first_at ps i p ∧ merge_key p ∉ seen.
Proof.
  revert seen. induction ps as [|p0 ps IH]; intros seen; simpl.
  - split; [by intros ?%elem_of_nil|]. by intros (i & [Hi _] & _).
  - case_bool_decide as Hk.
    + rewrite elem_of_cons, IH. split.
      * intros [->|(i & Hi & Hp)].
        { exists 0%nat. by rewrite first_at_head. }
        apply not_elem_of_union in Hp as [Hne%not_elem_of_singleton Hp].
        exists (S i). rewrite first_at_tail.
        split; [split; [congruence|done]|done].
      * intros ([|i] & Hi & Hp).
        { left. by apply first_at_head in Hi. }
        apply first_at_tail in Hi as [Hne Hi]. right. exists i.
        split; [done|]. apply not_elem_of_union. split; [|done].
        apply not_elem_of_singleton. congruence.
    + rewrite IH. split.
      * intros (i & Hi & Hp). exists (S i). rewrite first_at_tail.
        split; [split; [|done]|done]. intros Heq. rewrite Heq in Hk. done.
      * intros ([|i] & Hi & Hp).
        { apply first_at_head in Hi as ->. done. }
        apply first_at_tail in Hi as [Hne Hi]. by exists i.
Qed.

Lemma first_occurrences_NoDup ps seen :
  NoDup (merge_key <$> first_occurrences ps seen).
Proof. rewrite first_occurrences_first_by. apply first_by_NoDup. Qed.

Lemma first_occurrences_sublist ps seen :
  first_occurrences ps seen `sublist_of` ps.
Proof. rewrite first_occurrences_first_by. apply first_by_sublist. Qed.

(** Every key of [ps] is the key of a first occurrence. *)
Lemma first_at_exists ps p :
  p ∈ ps → ∃ i q, first_at ps i q ∧ merge_key q = merge_key p.
Proof.
  induction ps as [|p0 ps IH]; [by intros ?%elem_of_nil|].
  intros Hin.
  destruct (decide (merge_key p0 = merge_key p)) as [Heq|Hne].
  - exists 0%nat, p0. by rewrite first_at_head.
  - apply elem_of_cons in Hin as [->|Hin]; [done|].
    destruct (IH Hin) as (i & q & Hi & Hk).
    destruct (decide (merge_key p0 = merge_key q)) as [Heq'|Hne'].
    + exists 0%nat, p0. rewrite first_at_head. split; [done|congruence].
    + exists (S i), q. by rewrite first_at_tail.
Qed.

Lemma first_at_app_l ps ps' i p :
  first_at ps i p → first_at (ps ++ ps') i p.
Proof.
  intros [Hi Hfirst]. split; [by apply lookup_app_l_Some|].
  intros j q Hj Hq. apply (Hfirst j); [done|].
  apply lookup_lt_Some in Hi. rewrite lookup_app_l in Hq; [done|lia].
Qed.

Lemma first_at_app_r ps ps' i p :
  first_at ps' i p → (∀ q, q ∈ ps → merge_key q ≠ merge_key p) →
  first_at (ps ++ ps') (length ps + i) p.
Proof.
  intros [Hi Hfirst] Hfresh. split.
  - rewrite lookup_app_r by lia.
    by replace (length ps + i - length ps)%nat with i by lia.
  - intros j q Hj Hq. destruct (decide (j < length ps)%nat) as [Hlt|Hge].
    + rewrite lookup_app_l in Hq by done.
      apply Hfresh. by eapply list_elem_of_lookup_2.
    + rewrite lookup_app_r in Hq by lia.
      apply (Hfirst (j - length ps)%nat); [lia|done].
Qed.

Lemma first_occurrences_keeps all :
  keeps_first_occurrences all (first_occurrences all ∅).
Proof.
  split; [apply first_occurrences_NoDup|].
  split; [apply first_occurrences_sublist|].
  intros p. rewrite first_occurrences_elem. split.
  - intros (i & Hi & _). by exists i.
  - intros (i & Hi). exists i. split; [done|]. apply not_elem_of_empty.
Qed.

Lemma first_occurrences_storable ps seen :
  Forall (λ p, storable p = true) ps →
  forallb storable (first_occurrences ps seen) = true.
Proof.
  intros Hps. apply forallb_forall. intros p Hp%list_elem_of_In.
  rewrite List.Forall_forall in Hps. apply Hps, list_elem_of_In.
  eapply elem_of_sublist; [exact Hp|apply first_occurrences_sublist].
Qed.

(** What the loop of [save_to_json] has done when it ends without an
    exception. *)
Lemma dedup_returns as_dict (items : list item) out (r : list product) seen :
  dedup as_dict items out seen = Ok r →
  ∃ ps, Forall2 (λ it p, as_dict it = Ok p) items ps
        ∧ Forall (λ p, converts_scalar (article p) = true) ps
        ∧ r = out ++ first_occurrences ps seen.
Proof.
  revert out seen. induction items as [|it items IH]; intros out seen; simpl.
  - intros [= <-]. exists []. by rewrite app_nil_r.
  - destruct (as_dict it) as [p|e] eqn:Hit; cbn [mbind res_bind]; [|done].
    destruct (key_of p) as [k|e] eqn:Hk; cbn [mbind res_bind]; [|done].
    apply key_of_returns in Hk as [-> Hp].
    case_bool_decide as Hk; intros (ps & Hps & Hconv & ->)%IH;
      exists (p :: ps); (split; [by constructor|]);
      (split; [by constructor|]); simpl.
    + rewrite bool_decide_eq_true_2 by done. by rewrite <- app_assoc.
    + by rewrite bool_decide_eq_false_2 by (by intros ?).
Qed.

Lemma dedup_ext as_dict (xs ys : list item) out seen :
  Forall2 (λ a b, as_dict a = as_dict b) xs ys →
  dedup as_dict xs out seen = dedup as_dict ys out seen.
Proof.
  intros Hxy. revert out seen.
  induction Hxy as [|a b xs ys Hab _ IH]; intros out seen; simpl; [done|].
  rewrite Hab. destruct (as_dict b); cbn [mbind res_bind]; [|done].
  destruct (key_of _); cbn [mbind res_bind]; [|done].
  case_bool_decide; apply IH.
Qed.

(** Reading the records back gives the records. *)
Lemma Forall2_Dict as_dict ps qs :
  (∀ p, as_dict (Dict p) = Ok p) →
  Forall2 (λ it p, as_dict it = Ok p) (Dict <$> ps) qs → qs = ps.
Proof.
  intros Hd. revert qs. induction ps as [|p ps IH]; intros qs Hqs.
  - by apply Forall2_nil_inv_l in Hqs.
  - rewrite fmap_cons in Hqs.
    apply Forall2_cons_inv_l in Hqs as (q & qs' & Hq & Hqs & ->).
    rewrite Hd in Hq. injection Hq as <-. f_equal. by apply IH.
Qed.

(** The merge looks at the file system through the file it is given
    only. *)
Lemma merge_frame as_dict w w1 data filename :
  files w1 = files w →
  (filename ∈ dirs w1 ↔ filename ∈ dirs w) →
  merge as_dict w1 data filename = merge as_dict w data filename.
Proof.
  intros Hf Hd. unfold merge, read_existing, exists_, load. rewrite Hf.
  by rewrite (bool_decide_ext _ _ Hd).
Qed.

(** What the merge has done when it ends without an exception. *)
Lemma merge_returns as_dict w data filename unique :
  merge as_dict w data filename = Ok unique →
  ∃ existing,
    (contains (u "latest") filename = false → existing = []) ∧
    (existing ≠ [] → files w !! filename = Some (Json (JArray existing))) ∧
    dedup as_dict (existing ++ data) [] ∅ = Ok unique.
Proof.
  unfold merge, read_existing, load, concat.
  destruct (contains (u "latest") filename) eqn:Hlatest.
  - rewrite andb_true_r. destruct (exists_ w filename).
    + destruct (files w !! filename) as [[e| |[l|]]|] eqn:Hfile.
      * destruct e; cbn [mbind res_bind]; try done. intros Hd. by exists [].
      * cbn [mbind res_bind]. intros Hd. by exists [].
      * destruct (loadable (JArray l)); cbn [mbind res_bind]; [|done].
        intros Hd. by exists l.
      * destruct (loadable JOther); cbn [mbind res_bind]; done.
      * done.
    + cbn [mbind res_bind]. intros Hd. by exists [].
  - rewrite andb_false_r. cbn [mbind res_bind]. intros Hd. by exists [].
Qed.

(** The merge of a latest store whose prior contents are the records
    [existing], or are taken for empty. *)
Lemma merge_latest as_dict w existing new filename :
  (∀ p, as_dict (Dict p) = Ok p) →
  contains (u "latest") filename = true →
  holds w filename existing
  ∨ existing = [] ∧ files w !! filename = Some Malformed →
  Forall (λ p, integers_convert p = true) existing →
  Forall (λ p, converts_scalar (article p) = true) new →
  merge as_dict w (Dict <$> new) filename
  = Ok (first_occurrences (existing ++ new) ∅).
Proof.
  intros Hd Hlatest Hfile Hints Hnew.
  assert (Forall (λ p, converts_scalar (article p) = true) (existing ++ new))
    as Hconv.
  { apply Forall_app. split; [|done].
    eapply Forall_impl; [exact Hints|]. intros p Hp.
    unfold integers_convert in Hp.
    repeat (apply andb_true_iff in Hp as [Hp ?]). done. }
  unfold merge, read_existing, load, concat. rewrite Hlatest, andb_true_r.
  destruct Hfile as [[[Hnone ->]|Hfile]|[-> Hfile]].
  - rewrite Hnone. cbn [mbind res_bind app].
    by apply (dedup_first_occurrences as_dict Hd).
  - unfold exists_. rewrite Hfile.
    rewrite bool_decide_eq_true_2 by eauto. cbn [orb].
    assert (loadable (JArray (Dict <$> existing)) = true) as ->.
    { simpl. apply forallb_forall. intros it Hit%list_elem_of_In.
      apply list_elem_of_fmap in Hit as (p & -> & Hp).
      rewrite List.Forall_forall in Hints. by apply Hints, list_elem_of_In. }
    cbn [mbind res_bind]. rewrite <- fmap_app.
    by apply (dedup_first_occurrences as_dict Hd).
  - unfold exists_. rewrite Hfile.
    rewrite bool_decide_eq_true_2 by eauto. cbn [orb mbind res_bind app].
    by apply (dedup_first_occurrences as_dict Hd).
Qed.

(** The merge on a file name without "latest": the file is not read. *)
Lemma merge_snapshot as_dict w new filename :
  (∀ p, as_dict (Dict p) = Ok p) →
  contains (u "latest") filename = false →
  Forall (λ p, converts_scalar (article p) = true) new →
  merge as_dict w (Dict <$> new) filename = Ok (first_occurrences new ∅).
Proof.
  intros Hd Hlatest Hnew. unfold merge, read_existing.
  rewrite Hlatest, andb_false_r. cbn [mbind res_bind].
  by apply (dedup_first_occurrences as_dict Hd).
Qed.

(** The steps of [save_to_json], one after the other: the directory,
    the merge, the writing. *)
Lemma save_body_steps as_dict w data filename :
  ∃ r1 w1,
    makedirs w (dirname filename) = (r1, w1) ∧
    save_body as_dict w data filename =
      match r1 with
      | Raise e => (Raise e, w1)
      | Ok _ =>
          match merge as_dict w data filename with
          | Raise e => (Raise e, w1)
          | Ok unique => dump w1 filename unique
          end
      end.
Proof.
  unfold save_body.
  destruct (makedirs w (dirname filename)) as [r1 w1] eqn:Hmk.
  exists r1, w1. split; [done|]. destruct r1 as [[]|e]; [|done].
  apply makedirs_frame in Hmk as (Hf & _ & _ & Hsub & Honly & _).
  rewrite (merge_frame as_dict w w1); [done|done|]. split; [|apply Hsub].
  intros [?|Hp]%Honly; [done|]. by apply parents_dirname_other in Hp.
Qed.

(** What the writing does. *)
Lemma dump_cases w f (records : list product) :
  dump w f records =
    if write_ok w f && negb (bool_decide (f ∈ dirs w))
    then (if forallb storable records then Ok tt else Raise ValueError,
          World (<[f := if forallb storable records
                        then Json (JArray (Dict <$> records))
                        else Malformed]> (files w))
                (dirs w) (mkdir_ok w) (write_ok w))
    else (Raise OSError, w).
Proof.
  unfold dump. destruct (_ && _); [|done]. by destruct (forallb _ _).
Qed.

(** Whatever [save_to_json] does, it takes no directory away and adds
    none but those on the way to the file; it leaves the files as they
    are, but for the file it is given. *)
Lemma save_body_frame as_dict w data filename r w' :
  save_body as_dict w data filename = (r, w') →
  mkdir_ok w' = mkdir_ok w ∧ write_ok w' = write_ok w ∧
  dirs w ⊆ dirs w' ∧
  (∀ b, b ∈ dirs w' → b ∈ dirs w ∨ b ∈ parents (dirname filename)) ∧
  (files w' = files w ∨ ∃ content, files w' = <[filename := content]> (files w)).
Proof.
  destruct (save_body_steps as_dict w data filename) as (r1 & w1 & Hmk & ->).
  apply makedirs_frame in Hmk as (Hf & Hm & Hw & Hsub & Honly & _).
  match goal with
  | |- _ → ?G =>
      assert (∀ e, (Raise e : res unit, w1) = (r, w') → G) as Hraise
  end.
  { intros e [= <- <-]. repeat split; [done..|]. by left. }
  destruct r1 as [[]|e]; [|apply Hraise].
  destruct (merge as_dict w data filename) as [unique|e]; [|apply Hraise].
  rewrite dump_cases. destruct (_ && _); [|apply Hraise].
  intros [= <- <-]. simpl. repeat split; [done..|]. right. rewrite Hf. eauto.
Qed.

(** What [save_to_json] has done when its body ends without an
    exception. *)
Lemma save_body_returns as_dict w data filename w' :
  save_body as_dict w data filename = (Ok tt, w') →
  ∃ w1 unique,
    makedirs w (dirname filename) = (Ok tt, w1) ∧
    merge as_dict w data filename = Ok unique ∧
    forallb storable unique = true ∧
    write_ok w filename = true ∧ (filename ∉ dirs w1) ∧
    w' = World (<[filename := Json (JArray (Dict <$> unique))]> (files w))
               (dirs w1) (mkdir_ok w) (write_ok w).
Proof.
  destruct (save_body_steps as_dict w data filename) as (r1 & w1 & Hmk & ->).
  destruct r1 as [[]|e]; [|done].
  destruct (merge as_dict w data filename) as [unique|e]; [|done].
  rewrite dump_cases.
  pose proof Hmk as (Hf & Hm & Hw & _)%makedirs_frame.
  destruct (write_ok w1 filename) eqn:Hwr; [|done].
  case_bool_decide as Hdir; [done|]. cbn [andb negb].
  destruct (forallb storable unique) eqn:Hst; [|done].
  intros [= <-]. exists w1, unique. rewrite Hf, Hm, Hw. rewrite Hw in Hwr.
  done.
Qed.

(** What it has done when the directory can be made and the file can be
    written. *)
Lemma save_body_runs as_dict w data filename unique :
  creatable w (dirname filename) → writable w filename →
  merge as_dict w data filename = Ok unique →
  save_body as_dict w data filename =
    if forallb storable unique
    then (Ok tt, written w filename unique)
    else (Raise ValueError, replaced w filename Malformed).
Proof.
  intros Hdir [Hwr Hnd] Hmerge.
  destruct (save_body_steps as_dict w data filename) as (r1 & w1 & Hmk & ->).
  rewrite (makedirs_creates w _ Hdir) in Hmk. injection Hmk as <- <-.
  rewrite Hmerge, dump_cases. unfold made. cbn [write_ok dirs files mkdir_ok].
  rewrite Hwr, bool_decide_eq_false_2.
  - by destruct (forallb storable unique).
  - intros [Hin%elem_of_list_to_set|Hin]%elem_of_union; [|done].
    by apply parents_dirname_other in Hin.
Qed.

(** An exception of the merge is reported and no file is written. *)
Lemma save_with_unmerged as_dict w data filename e :
  merge as_dict w data filename = Raise e →
  (save_with as_dict w data filename).1 = false
  ∧ files (save_with as_dict w data filename).2 = files w.
Proof.
  intros Hmerge. unfold save_with.
  destruct (save_body_steps as_dict w data filename) as (r1 & w1 & Hmk & ->).
  apply makedirs_frame in Hmk as (Hf & _). rewrite Hmerge.
  by destruct r1 as [[]|e1].
Qed.

Lemma save_with_merges as_dict w existing new filename :
  (∀ p, as_dict (Dict p) = Ok p) →
  contains (u "latest") filename = true →
  holds w filename existing
  ∨ existing = [] ∧ files w !! filename = Some Malformed →
  Forall (λ p, storable p = true) (existing ++ new) →
  creatable w (dirname filename) → writable w filename →
  save_with as_dict w (Dict <$> new) filename
  = (true, written w filename (first_occurrences (existing ++ new) ∅)).
Proof.
  intros Hd Hlatest Hfile Hst Hdir Hwr. unfold save_with.
  rewrite (save_body_runs as_dict w _ filename
             (first_occurrences (existing ++ new) ∅)); try done.
  - by rewrite first_occurrences_storable.
  - apply Forall_app in Hst as [Hex Hnew].
    apply merge_latest; try done.
    + eapply Forall_impl; [exact Hex|]. by intros p [? _]%storable_converts.
    + eapply Forall_impl; [exact Hnew|]. by intros p [_ ?]%storable_converts.
Qed.

Lemma save_with_snapshot as_dict w new filename :
  (∀ p, as_dict (Dict p) = Ok p) →
  contains (u "latest") filename = false →
  Forall (λ p, storable p = true) new →
  creatable w (dirname filename) → writable w filename →
  save_with as_dict w (Dict <$> new) filename
  = (true, written w filename (first_occurrences new ∅)).
Proof.
  intros Hd Hlatest Hst Hdir Hwr. unfold save_with.
  rewrite (save_body_runs as_dict w _ filename (first_occurrences new ∅));
    try done.
  - by rewrite first_occurrences_storable.
  - apply merge_snapshot; try done.
    eapply Forall_impl; [exact Hst|]. by intros p [_ ?]%storable_converts.
Qed.

Lemma same_key_merge_key p q : same_key p q ↔ merge_key p = merge_key q.
Proof.
  unfold same_key, merge_key. split; [by intros [-> ->]|by intros [= -> ->]].
Qed.

End Merge.

Import Py Store Spec.

(** The sample file system lets the latest store be written. *)
Lemma sample_disk_ready (content : file) :
  creatable (Sample.disk content) (dirname Sample.latest)
  ∧ writable (Sample.disk content) Sample.latest.
Proof.
  split; [split|split].
  - vm_compute. discriminate.
  - intros a Ha. left. vm_compute in Ha.
    apply list_elem_of_singleton in Ha as ->.
    unfold Sample.disk. cbn [dirs]. apply elem_of_singleton.
    vm_compute. reflexivity.
  - reflexivity.
  - unfold Sample.disk. cbn [dirs]. intros Hin%elem_of_singleton.
    vm_compute in Hin. discriminate.
Qed.

Lemma NoDup_fmap_same {A B : Type} (f : A → B) (l : list A) (x y : A) :
  NoDup (f <$> l) → x ∈ l → y ∈ l → f x = f y → x = y.
Proof.
  induction l as [|a l IH]; [by intros _ ?%elem_of_nil|].
  rewrite fmap_cons. intros [Ha Hnd]%NoDup_cons.
  intros [->|Hx]%elem_of_cons [->|Hy]%elem_of_cons Hxy; [done| | |by apply IH].
  - destruct Ha. rewrite Hxy. apply list_elem_of_fmap. eauto.
  - destruct Ha. rewrite <- Hxy. apply list_elem_of_fmap. eauto.
Qed.

(** C1: called on a file name that contains "latest", with a store that
    holds the records [prior] (none when there is no file yet) and with
    newly collected records [new], [save_to_json] (of either module)
    returns [True] and writes a list in which no two records have both
    the same article text and the same marketplace, namely the first
    occurrence of each such pair in [prior ++ new]; so a key of the
    prior store keeps a prior record, and a new record whose key the
    prior store lacks is written.  The records are such as [json.dump]
    can write, and the system lets the directory be made and the file be
    written. *)
Theorem latest_merge_first_wins (w : world) (prior new : list product)
    (filename : pystr) :
  contains (u "latest") filename = true →
  holds w filename prior →
  Forall (λ p, storable p = true) (prior ++ new) →
  creatable w (dirname filename) →
  writable w filename →
  ∃ merged,
    WB.save_to_json w (Dict <$> new) filename = (true, written w filename merged) ∧
    Ozon.save_to_json w (Dict <$> new) filename = (true, written w filename merged) ∧
    keeps_first_occurrences (prior ++ new) merged ∧
    (∀ p q, p ∈ merged → q ∈ merged → same_key p q → p = q) ∧
    (∀ p, p ∈ prior → ∃ q, q ∈ prior ∧ q ∈ merged ∧ same_key q p) ∧
    (∀ p, p ∈ new → (∀ q, q ∈ prior → ¬ same_key q p) →
       ∃ q, q ∈ new ∧ q ∈ merged ∧ same_key q p).
Proof.
  intros Hlatest Hfile Hst Hdir Hwr.
  exists (first_occurrences (prior ++ new) ∅).
  split; [|split; [|split; [|split; [|split]]]].
  - apply save_with_merges; auto.
  - apply save_with_merges; auto.
  - apply first_occurrences_keeps.
  - intros p q Hp Hq Hpq%same_key_merge_key.
    eapply NoDup_fmap_same; [apply first_occurrences_NoDup|done..].
  - intros p Hp. destruct (first_at_exists prior p Hp) as (i & q & Hi & Hk).
    exists q. split; [|split; [|by apply same_key_merge_key]].
    + destruct Hi as [Hi _]. by eapply list_elem_of_lookup_2.
    + apply first_occurrences_elem. exists i.
      split; [by apply first_at_app_l|apply not_elem_of_empty].
  - intros p Hp Hfresh.
    destruct (first_at_exists new p Hp) as (i & q & Hi & Hk).
    exists q. split; [|split; [|by apply same_key_merge_key]].
    + destruct Hi as [Hi _]. by eapply list_elem_of_lookup_2.
    + apply first_occurrences_elem. exists (length prior + i)%nat.
      split; [|apply not_elem_of_empty].
      apply first_at_app_r; [done|]. intros r Hr Heq.
      apply (Hfresh r Hr), same_key_merge_key. congruence.
Qed.

(** The example of the specification: the prior store holds article 1
    at price 100, the run brings article 1 at price 200 and article 2 at
    price 300. *)
Lemma latest_merge_first_wins_witness :
  ∃ merged,
    Ozon.save_to_json
      (Sample.disk (Json (JArray (Dict <$> [Sample.tv Sample.market 1 100]))))
      (Dict <$> [Sample.tv Sample.market 1 200; Sample.tv Sample.market 2 300])
      Sample.latest
    = (true,
       written
         (Sample.disk (Json (JArray (Dict <$> [Sample.tv Sample.market 1 100]))))
         Sample.latest merged) ∧
    keeps_first_occurrences
      ([Sample.tv Sample.market 1 100]
       ++ [Sample.tv Sample.market 1 200; Sample.tv Sample.market 2 300])
      merged.
Proof.
  destruct (latest_merge_first_wins
              (Sample.disk (Json (JArray (Dict <$> [Sample.tv Sample.market 1 100]))))
              [Sample.tv Sample.market 1 100]
              [Sample.tv Sample.market 1 200; Sample.tv Sample.market 2 300]
              Sample.latest)
    as (merged & _ & Hsave & Hkeeps & _).
  - vm_compute. reflexivity.
  - right. reflexivity.
  - repeat constructor.
  - apply sample_disk_ready.
  - apply sample_disk_ready.
  - exists merged. split; assumption.
Defined.

(** The merged store of the example, computed, and the store after a
    first run, when no file is there yet. *)
Example latest_merge_example :
  first_occurrences
    ([Sample.tv Sample.market 1 100]
     ++ [Sample.tv Sample.market 1 200; Sample.tv Sample.market 2 300]) ∅
  = [Sample.tv Sample.market 1 100; Sample.tv Sample.market 2 300]
  ∧ WB.save_to_json Sample.empty_disk
      (Dict <$> [Sample.tv Sample.market 1 200; Sample.tv Sample.market 2 300])
      Sample.latest
    = (true,
       written Sample.empty_disk Sample.latest
         [Sample.tv Sample.market 1 200; Sample.tv Sample.market 2 300]).
Proof. split; vm_compute; reflexivity. Qed.

(** C7, where the code departs from it: a latest file that cannot be
    read, because it cannot be opened or because its bytes do not
    decode, is not taken for empty; [save_to_json] (of either module)
    returns [False] and writes no file, so the records of the run are
    not stored.  Only the [JSONDecodeError] of [json.load] is caught at
    the reading. *)
Theorem undecodable_latest_not_taken_for_empty (w : world)
    (data : list item) (filename : pystr) (e : exn) :
  contains (u "latest") filename = true →
  files w !! filename = Some (Unreadable e) →
  e ≠ JSONDecodeError →
  (WB.save_to_json w data filename).1 = false ∧
  files (WB.save_to_json w data filename).2 = files w ∧
  (Ozon.save_to_json w data filename).1 = false ∧
  files (Ozon.save_to_json w data filename).2 = files w.
Proof.
  intros Hlatest Hfile He.
  assert (∀ as_dict, merge as_dict w data filename = Raise e) as Hmerge.
  { intros as_dict. unfold merge, read_existing, exists_, load.
    rewrite Hfile, Hlatest. rewrite bool_decide_eq_true_2 by eauto.
    cbn [orb andb]. by destruct e. }
  destruct (save_with_unmerged WB.item_dict w data filename e (Hmerge _)).
  destruct (save_with_unmerged Ozon.item_dict w data filename e (Hmerge _)).
  done.
Qed.

Lemma undecodable_latest_not_taken_for_empty_witness :
  (Ozon.save_to_json (Sample.disk (Unreadable UnicodeDecodeError))
     (Dict <$> [Sample.tv Sample.market 2 300]) Sample.latest).1 = false
  ∧ files (Ozon.save_to_json (Sample.disk (Unreadable UnicodeDecodeError))
             (Dict <$> [Sample.tv Sample.market 2 300]) Sample.latest).2
      !! Sample.latest
    = Some (Unreadable UnicodeDecodeError).
Proof.
  destruct (undecodable_latest_not_taken_for_empty
              (Sample.disk (Unreadable UnicodeDecodeError))
              (Dict <$> [Sample.tv Sample.market 2 300]) Sample.latest
              UnicodeDecodeError)
    as (_ & _ & Hfalse & Hfiles).
  - vm_compute. reflexivity.
  - vm_compute. reflexivity.
  - discriminate.
  - split; [exact Hfalse|]. rewrite Hfiles. vm_compute. reflexivity.
Defined.

Import Selenium.

(** ** Prices *)


Lemma plausible_truthy (x : float) :
  WB.plausible x = true → truthy_float x = true.
Proof.
  unfold WB.plausible, truthy_float. intros Hx.
  destruct x as [[]|[]| |[] m e]; try reflexivity;
    vm_compute in Hx; discriminate.
Qed.

Lemma plausible_not_zero (x : float) :
  WB.plausible x = true → feqb x (float_of_Z 0) = false.
Proof.
  intros Hx%plausible_truthy. unfold truthy_float in Hx.
  by apply negb_true_iff in Hx.
Qed.

Lemma if_price_returns (o : option float) (x : float) :
  WB.if_price o = Some x → o = Some x.
Proof.
  destruct o as [y|]; simpl; [|done]. by destruct (truthy_float y); intros [= ->].
Qed.


(** Unwinds a hypothesis that says a loop, a guarded block or a chain of
    calls returned a value, down to the pass that returned it. *)
Ltac unwind :=
  repeat match goal with
  | H : returned _ = Some _ |- _ => apply returned_returns in H
  | H : swallow _ = Ok (Some _) |- _ => apply swallow_returns in H
  | H : for_each _ _ = Ok (Some _) |- _ =>
      apply for_each_returns in H as (? & ? & H)
  | H : mbind _ _ = Ok _ |- _ => apply bind_returns in H as (? & ? & H)
  | H : WB.if_price _ = Some _ |- _ => apply if_price_returns in H
  | H : Ok _ = Ok _ |- _ => injection H as H
  | H : Some _ = Some _ |- _ => injection H as H
  | H : Raise _ = Ok _ |- _ => discriminate H
  | H : None = Some _ |- _ => discriminate H
  | H : (if ?b then _ else _) = _ |- _ => destruct b eqn:?
  | H : match ?x with _ => _ end = _ |- _ => destruct x eqn:?
  end.

Lemma clean_text_empty : WB.clean_text [] = [].
Proof. reflexivity. Qed.

(** Removing the matches of a one-character class keeps the other
    characters. *)
Lemma sub_one_class (p : N → bool) (before : option N) (s : pystr) :
  Re.sub_from [[Re.one p]] [] 0 before s = List.filter (fun c => negb (p c)) s.
Proof.
  revert before. induction s as [|c s IH]; intros before; [done|].
  cbn [Re.sub_from Re.match_here Re.run Re.one Re.rep List.filter].
  destruct (p c); cbn [negb Nat.eqb Nat.pred].
  - unfold Re.consumed. cbn [length].
    replace (S (length s) - length s)%nat with 1%nat by lia.
    cbn [app]. apply IH.
  - f_equal. apply IH.
Qed.

(** The text [float()] receives from [extract_price_from_text] holds
    decimal digits, points and spaces other than U+0020, nothing else. *)
Lemma clean_text_alphabet (text : pystr) :
  Forall (fun c => isdecimal c = true ∨ c = 46 ∨ (isspace c = true ∧ c ≠ 32))
         (WB.clean_text text).
Proof.
  unfold WB.clean_text, Re.sub. rewrite sub_one_class.
  induction (strip text) as [|c s IH]; [constructor|].
  cbn [List.filter]. unfold WB.not_price_char at 1, Re.none_of, Re.either.
  rewrite negb_involutive.
  destruct (isdecimal c) eqn:Hd; cbn [orb].
  { unfold replace_char in *. cbn [flat_map].
    destruct (c =? 32) eqn:H32; cbn [app]; [exact IH|].
    cbn [flat_map]. destruct (c =? 44) eqn:H44; cbn [app]; constructor; auto. }
  destruct (isspace c) eqn:Hs; cbn [orb].
  { unfold replace_char in *. cbn [flat_map].
    destruct (c =? 32) eqn:H32; cbn [app]; [exact IH|].
    cbn [flat_map]. destruct (c =? 44) eqn:H44; cbn [app]; constructor; auto.
    right; right. split; [done|]. by apply N.eqb_neq. }
  destruct (Re.any_of [44; 46] c) eqn:Hp; [|exact IH].
  unfold replace_char in *. cbn [flat_map].
  destruct (c =? 32) eqn:H32; cbn [app]; [exact IH|].
  cbn [flat_map]. destruct (c =? 44) eqn:H44; cbn [app]; constructor; auto.
  right; left. unfold Re.any_of in Hp. cbn [existsb] in Hp.
  rewrite H44 in Hp. cbn [orb] in Hp. rewrite orb_false_r in Hp.
  by apply N.eqb_eq in Hp.
Qed.

(** C9: [extract_price_from_text] returns on every text; it returns a
    value exactly when [float()] reads one from the cleaned text and
    that value lies between 10 and 1000000, so a text that does not
    parse and a value outside the band both give [None]. *)
Theorem extract_price_from_text_band (text : pystr) (v : float) :
  WB.extract_price_from_text text = Some v ↔
  float_of_str (WB.clean_text text) = Some v ∧
  fleb (float_of_Z 10) v = true ∧ fleb v (float_of_Z 1000000) = true.
Proof.
  unfold WB.extract_price_from_text. rewrite <- andb_true_iff.
  fold (WB.plausible v).
  destruct text as [|c text]; simpl negb; cbv iota.
  - rewrite clean_text_empty. split; [done|]. by intros [? _].
  - destruct (WB.clean_text (c :: text)) as [|c' s] eqn:Hclean; simpl truthy_str;
      cbv iota.
    + split; [done|]. by intros [? _].
    + destruct (float_of_str (c' :: s)) as [x|]; [|split; [done|by intros [? _]]].
      destruct (WB.plausible x) eqn:Hx; split.
      * intros [= ->]. done.
      * by intros [[= ->] _].
      * done.
      * intros [[= ->] Hv]. congruence.
Qed.

Lemma extract_price_from_text_plausible (text : pystr) (v : float) :
  WB.extract_price_from_text text = Some v → WB.plausible v = true.
Proof.
  unfold WB.extract_price_from_text. intros H. unwind; subst; done.
Qed.

Lemma extract_price_from_scripts_plausible d article v :
  WB.extract_price_from_scripts d article = Some v → WB.plausible v = true.
Proof.
  unfold WB.extract_price_from_scripts. intros H. unwind; subst; done.
Qed.

Lemma extract_product_price_plausible d article v :
  WB.extract_product_price d article = Some v → WB.plausible v = true.
Proof.
  unfold WB.extract_product_price. intros H.
  destruct (returned (for_each WB.price_selectors _)) as [p|] eqn:Hsel.
  { injection H as ->. unwind. subst.
    by eapply extract_price_from_text_plausible. }
  destruct (returned (swallow _)) as [p|] eqn:Hrub.
  { injection H as ->. unwind; subst;
      by eapply extract_price_from_text_plausible. }
  apply if_price_returns in H.
  by eapply extract_price_from_scripts_plausible.
Qed.


(** C3, where the code departs from it: with the narrow no-break space
    U+202F between the thousands and the hundreds, the separator that the
    price patterns of both modules expect next to the plain space,
    [extract_price_from_text] finds no price, although 1234 lies in the
    band; with a plain space it returns 1234.0, and 1234.56 for
    "1 234,56 ₽". *)
Theorem extract_price_from_text_narrow_space :
  WB.extract_price_from_text ([49; 8239] ++ u "234 ₽") = None ∧
  WB.extract_price_from_text (u "1 234 ₽") = Some (float_of_Z 1234) ∧
  WB.extract_price_from_text (u "1 234,56 ₽")
  = Some (float_of_decimal 123456 2).
Proof. vm_compute. repeat split; reflexivity. Qed.

(** ** Availability *)


Lemma availability_cases (d : driver) (price : float) :
  WB.extract_availability d price = WB.out_of_stock
  ∨ WB.extract_availability d price = WB.in_stock
  ∨ feqb price (float_of_Z 0) = true
    ∧ WB.extract_availability d price = WB.unknown.
Proof.
  unfold WB.extract_availability.
  destruct (returned (for_each WB.out_of_stock_selectors _)) as [a|] eqn:Hout.
  { left. unwind; congruence. }
  destruct (returned (for_each WB.in_stock_selectors _)) as [a|] eqn:Hin.
  { right; left. unwind; congruence. }
  destruct (feqb price (float_of_Z 0)); auto.
Qed.

(** One pass of the first loop of [extract_availability] either falls
    through or returns "out of stock". *)
Lemma out_of_stock_pass (d : driver) (selector : pystr) :
  let pass :=
    swallow (
      element ← find_element d CSS_SELECTOR selector;
      shown ← is_displayed element;
      if (shown : bool) then Ok (Some WB.out_of_stock) else Ok None) in
  (displays d selector ∧ pass = Ok (Some WB.out_of_stock))
  ∨ (¬ displays d selector ∧ pass = Ok None).
Proof.
  unfold displays. simpl.
  destruct (find_element d CSS_SELECTOR selector) as [e|x] eqn:He; simpl.
  - destruct (is_displayed e) as [[]|x] eqn:Hs; simpl.
    + left. eauto.
    + right. split; [|done]. intros (e' & [= <-] & Hs'). congruence.
    + right. split; [|done]. intros (e' & [= <-] & Hs'). congruence.
  - right. split; [|done]. by intros (e' & ? & _).
Qed.

Lemma in_stock_pass (d : driver) (selector : pystr) :
  let pass :=
    swallow (
      element ← find_element d CSS_SELECTOR selector;
      shown ← is_displayed element;
      usable ← (if (shown : bool) then is_enabled element else Ok false);
      if (usable : bool) then Ok (Some WB.in_stock) else Ok None) in
  (offers d selector ∧ pass = Ok (Some WB.in_stock))
  ∨ (¬ offers d selector ∧ pass = Ok None).
Proof.
  unfold offers. simpl.
  destruct (find_element d CSS_SELECTOR selector) as [e|x] eqn:He; simpl.
  - destruct (is_displayed e) as [[]|x] eqn:Hs; simpl.
    + destruct (is_enabled e) as [[]|x] eqn:Hn; simpl.
      * left. eauto.
      * right. split; [|done]. intros (e' & [= <-] & _ & Hn'). congruence.
      * right. split; [|done]. intros (e' & [= <-] & _ & Hn'). congruence.
    + right. split; [|done]. intros (e' & [= <-] & Hs' & _). congruence.
    + right. split; [|done]. intros (e' & [= <-] & Hs' & _). congruence.
  - right. split; [|done]. by intros (e' & ? & _).
Qed.

(** C6, as stated, fails: on a page where the sold-out selector finds a
    hidden element before a visible one, an out-of-stock element and an
    add-to-cart control are both visible, and the result is "В наличии":
    of the elements a selector finds, the code looks at the first
    only. *)
Lemma hidden_first_match_hides_indicator :
  out_of_stock_element Sample.wb_hidden_first_page ∧
  add_to_cart_control Sample.wb_hidden_first_page ∧
  WB.extract_availability Sample.wb_hidden_first_page (float_of_Z 15990)
  = WB.in_stock ∧
  WB.in_stock ≠ WB.out_of_stock.
Proof.
  split; [|split; [|split]].
  - exists (u ".sold-out"),
      [Sample.hidden (u "Sold out"); Sample.shown (u "Sold out")],
      (Sample.shown (u "Sold out")).
    split; [vm_compute; do 6 right; left|].
    split; [vm_compute; reflexivity|]. split; [right; left|reflexivity].
  - exists (u ".order-btn"). split.
    + vm_compute. do 1 right. left.
    + eexists. repeat split; vm_compute; reflexivity.
  - vm_compute. reflexivity.
  - vm_compute. discriminate.
Qed.

(** C6, amended: of the elements a selector finds, the first one counts.
    When the first element of some out-of-stock selector is displayed,
    the result is "Нет в наличии", whether or not an add-to-cart control
    is visible too; otherwise, when the first element of some
    add-to-cart selector is displayed and enabled, it is "В наличии";
    with neither, it is "Неизвестно" when the price equals zero and
    "В наличии" otherwise. *)
Theorem out_of_stock_wins (d : driver) (price : float) :
  (out_of_stock_indicator d →
   WB.extract_availability d price = WB.out_of_stock) ∧
  (¬ out_of_stock_indicator d → add_to_cart_control d →
   WB.extract_availability d price = WB.in_stock) ∧
  (¬ out_of_stock_indicator d → ¬ add_to_cart_control d →
   feqb price (float_of_Z 0) = true →
   WB.extract_availability d price = WB.unknown) ∧
  (¬ out_of_stock_indicator d → ¬ add_to_cart_control d →
   feqb price (float_of_Z 0) = false →
   WB.extract_availability d price = WB.in_stock).
Proof.
  unfold WB.extract_availability, out_of_stock_indicator, add_to_cart_control.
  split; [|split; [|split]].
  - intros (selector & Hsel & Hshown).
    erewrite for_each_hits; [done|exact Hsel| |].
    + destruct (out_of_stock_pass d selector) as [[_ ->]|[Hno _]]; done.
    + intros s _. destruct (out_of_stock_pass d s) as [[_ ->]|[_ ->]]; auto.
  - intros Hout (selector & Hsel & Hoffers).
    rewrite for_each_falls_through; cbn [returned].
    + erewrite for_each_hits; [done|exact Hsel| |].
      * destruct (in_stock_pass d selector) as [[_ ->]|[Hno _]]; done.
      * intros s _. destruct (in_stock_pass d s) as [[_ ->]|[_ ->]]; auto.
    + intros s Hs. destruct (out_of_stock_pass d s) as [[Hyes _]|[_ ->]]; [|done].
      destruct Hout. eauto.
  - intros Hout Hin Hzero.
    rewrite for_each_falls_through; cbn [returned].
    + rewrite for_each_falls_through; cbn [returned]; [by rewrite Hzero|].
      intros s Hs. destruct (in_stock_pass d s) as [[Hyes _]|[_ ->]]; [|done].
      destruct Hin. eauto.
    + intros s Hs. destruct (out_of_stock_pass d s) as [[Hyes _]|[_ ->]]; [|done].
      destruct Hout. eauto.
  - intros Hout Hin Hzero.
    rewrite for_each_falls_through; cbn [returned].
    + rewrite for_each_falls_through; cbn [returned]; [by rewrite Hzero|].
      intros s Hs. destruct (in_stock_pass d s) as [[Hyes _]|[_ ->]]; [|done].
      destruct Hin. eauto.
    + intros s Hs. destruct (out_of_stock_pass d s) as [[Hyes _]|[_ ->]]; [|done].
      destruct Hout. eauto.
Qed.

(** On the sample page both a sold-out banner and an order button are
    visible. *)
Lemma out_of_stock_wins_witness :
  add_to_cart_control Sample.wb_page ∧
  WB.extract_availability Sample.wb_page (float_of_Z 15990) = WB.out_of_stock.
Proof.
  split.
  - exists (u ".order-btn"). split.
    + vm_compute. do 1 right. left.
    + eexists. repeat split; vm_compute; reflexivity.
  - apply (out_of_stock_wins Sample.wb_page (float_of_Z 15990)).
    exists (u ".sold-out"). split.
    + vm_compute. do 6 right. left.
    + eexists. split; vm_compute; reflexivity.
Defined.


(** ** Assembly *)

Lemma availability_strings :
  WB.in_stock ≠ WB.unknown ∧ WB.out_of_stock ≠ WB.unknown.
Proof. split; vm_compute; discriminate. Qed.

(** What [collect_product_data] has done when it returns a record. *)
Lemma collect_product_data_returns `{U : Unicode}
    (session : pystr → res driver) (now article : pystr) (r : WB.ProductData) :
  WB.collect_product_data session now article = Some r →
  ∃ d,
    session (WB.url r) = Ok d ∧
    WB.is_blocked d = false ∧
    WB.extract_product_name d article = Some (WB.name r) ∧
    WB.name r ≠ [] ∧
    WB.extract_product_price d article = Some (WB.price r) ∧
    WB.article r = article ∧
    WB.availability r = WB.extract_availability d (WB.price r).
Proof.
  unfold WB.collect_product_data. intros H.
  destruct (session _) as [d|e] eqn:Hs; [|done].
  destruct (WB.is_blocked d) eqn:Hb; [done|].
  destruct (WB.extract_product_name d article) as [name|] eqn:Hn; [|done].
  destruct name as [|c name]; [done|]. simpl in H.
  destruct (WB.extract_product_price d article) as [price|] eqn:Hp; [|done].
  destruct (truthy_float price); [|done]. simpl in H.
  injection H as <-. simpl. exists d. by repeat split.
Qed.

(** C10: a record that [collect_product_data] assembles is "В наличии"
    or "Нет в наличии", never "Неизвестно": its price passed a band
    check, so it is not zero. *)
Theorem assembled_availability_known `{U : Unicode}
    (session : pystr → res driver) (now article : pystr) (r : WB.ProductData) :
  WB.collect_product_data session now article = Some r →
  (WB.availability r = WB.in_stock ∨ WB.availability r = WB.out_of_stock)
  ∧ WB.availability r ≠ WB.unknown.
Proof.
  intros (d & _ & _ & _ & _ & Hp & _ & ->)%collect_product_data_returns.
  apply extract_product_price_plausible, plausible_not_zero in Hp.
  destruct availability_strings as [Hin Hout].
  destruct (availability_cases d (WB.price r)) as [->|[->|[Hz _]]].
  - auto.
  - auto.
  - congruence.
Qed.

Lemma assembled_availability_known_witness :
  ∃ r,
    WB.collect_product_data (U := Sample.basic)
      (fun _ => Ok Sample.wb_plain_page) Sample.now (u "358384386") = Some r
    ∧ (WB.availability r = WB.in_stock ∨ WB.availability r = WB.out_of_stock)
    ∧ WB.availability r ≠ WB.unknown.
Proof.
  eexists. split; [vm_compute; reflexivity|].
  apply (assembled_availability_known (U := Sample.basic)
           (fun _ => Ok Sample.wb_plain_page) Sample.now (u "358384386")).
  vm_compute. reflexivity.
Defined.

(** C2, as stated, fails: Wildberries assembles a record for the empty
    article. *)
Lemma wildberries_record_with_empty_article :
  ∃ r,
    WB.collect_product_data (U := Sample.basic)
      (fun _ => Ok Sample.wb_plain_page) Sample.now [] = Some r
    ∧ WB.article r = [].
Proof. eexists. split; vm_compute; reflexivity. Qed.

(** C2, amended: a record assembled by Ozon carries a non-empty article
    read from its link, the non-empty name and the price of at least
    1000 its extractors returned; a record assembled by Wildberries
    carries the non-empty name and the price in the band its extractors
    returned, and as article the identifier it was asked for, as it was
    given.  Hence a candidate whose name or price (or, for Ozon, article)
    is not found yields no record. *)
Theorem assembled_fields_resolved `{U : Unicode} :
  (∀ (session : pystr → res Selenium.driver) (now article : pystr) r,
     WB.collect_product_data session now article = Some r →
     WB.article r = article ∧
     ∃ d, session (WB.url r) = Ok d ∧
          WB.extract_product_name d article = Some (WB.name r) ∧
          WB.name r ≠ [] ∧
          WB.extract_product_price d article = Some (WB.price r) ∧
          WB.plausible (WB.price r) = true) ∧
  (∀ (element : Selenium.card) (now : pystr) r,
     Ozon.extract_product_info_immediately element now = Some r →
     ∃ z,
       article r = Str (Ozon.extract_article_from_url (url r)) ∧
       Ozon.extract_article_from_url (url r) ≠ [] ∧
       Ozon.extract_product_name element = Some (name r) ∧
       name r ≠ [] ∧
       Ozon.extract_accurate_price element = Some z ∧
       price r = PyInt z ∧ (1000 ≤ z)%Z).
Proof.
  split.
  - intros session now article r
      (d & Hs & _ & Hn & Hne & Hp & Ha & _)%collect_product_data_returns.
    split; [done|]. exists d. repeat split; try done.
    by eapply extract_product_price_plausible.
  - intros element now r. unfold Ozon.extract_product_info_immediately.
    destruct (returned (for_each Ozon.link_selectors _)) as [product_url|];
      [|done].
    destruct (Ozon.extract_article_from_url product_url) as [|c a] eqn:Ha;
      [done|]. simpl negb. cbv iota.
    destruct (Ozon.extract_product_name element) as [[|c' n]|]; [done| |done].
    simpl negb. cbv iota.
    destruct (Ozon.extract_accurate_price element) as [z|]; [|done].
    destruct ((z =? 0)%Z || (z <? 1000)%Z) eqn:Hz; [done|].
    intros [= <-]. simpl. exists z. rewrite Ha.
    apply orb_false_iff in Hz as [_ Hz%Z.ltb_ge]. by repeat split.
Qed.

Lemma assembled_fields_resolved_witness :
  ∃ r,
    Ozon.extract_product_info_immediately Sample.ozon_card Sample.now = Some r
    ∧ ∃ z,
        article r = Str (Ozon.extract_article_from_url (url r)) ∧
        Ozon.extract_article_from_url (url r) ≠ [] ∧
        Ozon.extract_product_name Sample.ozon_card = Some (name r) ∧
        name r ≠ [] ∧
        Ozon.extract_accurate_price Sample.ozon_card = Some z ∧
        price r = PyInt z ∧ (1000 ≤ z)%Z.
Proof.
  eexists. split; [vm_compute; reflexivity|].
  apply (proj2 (assembled_fields_resolved (U := Sample.basic))
           Sample.ozon_card Sample.now).
  vm_compute. reflexivity.
Defined.

(** ** Blocking *)






(** A page that shows a captcha is taken for blocked. *)
Example is_blocked_captcha :
  WB.is_blocked (U := Sample.basic) Sample.captcha_page = true.
Proof. vm_compute. reflexivity. Qed.

(** ** Ratings and review counts *)

(** What Wildberries returns as rating lies between 0 and 5. *)
Lemma wildberries_rating_in_range (d : Selenium.driver) (x : float) :
  WB.extract_rating d = Some x → WB.in_rating_range x = true.
Proof.
  unfold WB.extract_rating. intros H. unwind; subst; done.
Qed.

(** C5, where the code departs from it: Ozon records the rating it reads
    without a range check; a rating element that reads 12,5 gives the
    rating 12.5. *)
Theorem ozon_rating_out_of_range :
  Ozon.extract_rating Sample.ozon_card = Some (float_of_decimal 125 1) ∧
  WB.in_rating_range (float_of_decimal 125 1) = false.
Proof. vm_compute. split; reflexivity. Qed.

(** C8, where the code departs from it: on the text 1 234 отзыва
    Wildberries, which removes the spaces first, counts 1234 reviews;
    Ozon, which does not, counts 1, neither 1234 nor the default 0. *)
Theorem ozon_reviews_count_truncated :
  WB.extract_reviews_count Sample.wb_reviews_page = 1234%Z ∧
  Ozon.extract_reviews_count Sample.ozon_card = 1%Z.
Proof. vm_compute. split; reflexivity. Qed.

Lemma extract_price_from_text_band_witness :
  WB.extract_price_from_text (u "1 234 ₽") = Some (float_of_Z 1234) ∧
  fleb (float_of_Z 10) (float_of_Z 1234) = true ∧
  fleb (float_of_Z 1234) (float_of_Z 1000000) = true.
Proof.
  split; [vm_compute; reflexivity|].
  apply (proj1 (extract_price_from_text_band (u "1 234 ₽") (float_of_Z 1234))).
  vm_compute. reflexivity.
Defined.


(** * Beyond the claims *)

(** ** More on [save_to_json] *)

Section Save.
Implicit Types (w : world) (ps new : list product) (data : list item)
  (filename : pystr) (as_dict : item → res product).

Lemma save_with_frame as_dict w data filename :
  dirs w ⊆ dirs (save_with as_dict w data filename).2 ∧
  (∀ b, b ∈ dirs (save_with as_dict w data filename).2 →
        b ∈ dirs w ∨ b ∈ parents (dirname filename)) ∧
  (files (save_with as_dict w data filename).2 = files w
   ∨ ∃ content,
       files (save_with as_dict w data filename).2
       = <[filename := content]> (files w)).
Proof.
  unfold save_with.
  destruct (save_body as_dict w data filename) as [r w'] eqn:Hb.
  apply save_body_frame in Hb as (_ & _ & ? & ? & ?).
  by destruct r.
Qed.

Lemma dirname_bare filename : bare filename → dirname filename = [].
Proof.
  unfold bare, dirname. intros Hbare.
  assert (head_of filename = []) as ->; [|done].
  destruct filename as [|c rest]; [done|]. simpl.
  apply not_elem_of_cons in Hbare as [Hc Hrest].
  assert (existsb (N.eqb 47) rest = false) as ->.
  { apply not_true_is_false. intros (x & Hx & <-%N.eqb_eq)%existsb_exists.
    by apply Hrest, list_elem_of_In. }
  destruct (c =? 47) eqn:Hc47; [|done]. apply N.eqb_eq in Hc47. congruence.
Qed.

(** A second call finds the directories made and the file written. *)
Lemma save_with_again as_dict w w1 (merged : list product) data filename :
  makedirs w (dirname filename) = (Ok tt, w1) →
  write_ok w filename = true → filename ∉ dirs w1 →
  forallb storable merged = true →
  let after :=
    World (<[filename := Json (JArray (Dict <$> merged))]> (files w))
          (dirs w1) (mkdir_ok w) (write_ok w) in
  merge as_dict after data filename = Ok merged →
  save_with as_dict after data filename = (true, after).
Proof.
  intros Hmk Hwr Hnd Hst after Hmerge. unfold save_with.
  destruct (save_body_steps as_dict after data filename)
    as (r1 & w2 & Hmk2 & ->).
  apply makedirs_frame in Hmk as (_ & _ & _ & _ & _ & Hall).
  destruct (Hall eq_refl) as [Hd Hthere].
  unfold makedirs in Hmk2. destruct (dirname filename) as [|c d]; [done|].
  simpl truthy_str in Hmk2. cbv iota in Hmk2.
  rewrite mkdirs_present in Hmk2 by exact Hthere. injection Hmk2 as <- <-.
  rewrite Hmerge, dump_cases. unfold after at 1 2. cbn [write_ok dirs].
  rewrite Hwr, bool_decide_eq_false_2 by done. cbn [andb negb].
  rewrite Hst. unfold after. cbn [files dirs mkdir_ok write_ok].
  by rewrite insert_insert_eq.
Qed.

End Save.

(** X1: on a file name without "latest", [save_to_json] never reads the
    file: whatever the path holds, a readable list or not, it is replaced
    by the first occurrences of the records passed. *)
Theorem snapshot_replaces_file (w : world) (new : list product)
    (filename : pystr) :
  contains (u "latest") filename = false →
  Forall (λ p, storable p = true) new →
  creatable w (dirname filename) →
  writable w filename →
  ∃ merged,
    WB.save_to_json w (Dict <$> new) filename = (true, written w filename merged) ∧
    Ozon.save_to_json w (Dict <$> new) filename = (true, written w filename merged) ∧
    keeps_first_occurrences new merged.
Proof.
  intros Hlatest Hst Hdir Hwr. exists (first_occurrences new ∅).
  split; [|split].
  - by apply save_with_snapshot.
  - by apply save_with_snapshot.
  - apply first_occurrences_keeps.
Qed.

Lemma snapshot_replaces_file_witness :
  ∃ merged,
    Ozon.save_to_json
      (World {[ u "data/products_1.json" := Unreadable OSError ]} ∅
             (fun _ => true) (fun _ => true))
      (Dict <$> [Sample.tv Sample.market 1 100; Sample.tv Sample.market 1 200])
      (u "data/products_1.json")
    = (true,
       written (World {[ u "data/products_1.json" := Unreadable OSError ]} ∅
                      (fun _ => true) (fun _ => true))
               (u "data/products_1.json") merged)
    ∧ keeps_first_occurrences
        [Sample.tv Sample.market 1 100; Sample.tv Sample.market 1 200] merged.
Proof.
  destruct (snapshot_replaces_file
              (World {[ u "data/products_1.json" := Unreadable OSError ]} ∅
                     (fun _ => true) (fun _ => true))
              [Sample.tv Sample.market 1 100; Sample.tv Sample.market 1 200]
              (u "data/products_1.json"))
    as (merged & _ & Hsave & Hkeeps).
  - vm_compute. reflexivity.
  - repeat constructor.
  - split; [vm_compute; discriminate|]. intros a Ha. right.
    vm_compute in Ha. apply list_elem_of_singleton in Ha as ->.
    split; [vm_compute|]; reflexivity.
  - split; [reflexivity|]. cbn [dirs]. apply not_elem_of_empty.
  - exists merged. split; assumption.
Defined.

(** X2: a file name without a directory part makes [save_to_json] fail:
    [os.makedirs('')] raises, so the function returns [False] and
    changes nothing, whatever the records. *)
Theorem save_needs_directory (w : world) (data : list item)
    (filename : pystr) :
  bare filename →
  WB.save_to_json w data filename = (false, w) ∧
  Ozon.save_to_json w data filename = (false, w).
Proof.
  intros Hbare%dirname_bare.
  unfold WB.save_to_json, Ozon.save_to_json, save_with, save_body, makedirs.
  rewrite Hbare. done.
Qed.

Lemma save_needs_directory_witness :
  Ozon.save_to_json (Sample.disk Malformed)
    (Dict <$> [Sample.tv Sample.market 1 100]) (u "products_latest.json")
  = (false, Sample.disk Malformed).
Proof.
  apply (save_needs_directory (Sample.disk Malformed)
           (Dict <$> [Sample.tv Sample.market 1 100])
           (u "products_latest.json")).
  unfold bare. vm_compute. intros Hin.
  repeat (apply elem_of_cons in Hin as [Hin|Hin]; [discriminate|]).
  by apply elem_of_nil in Hin.
Defined.

(** X3: [save_to_json] changes no file but the one it is given, whether
    it returns [True] or [False]: every other path holds the file it
    held before.  The directories that were there stay, and the only
    ones added are the directory of the file and those on the way to
    it. *)
Theorem save_touches_one_file (w : world) (data : list item)
    (filename other : pystr) :
  other ≠ filename →
  (files (WB.save_to_json w data filename).2 !! other = files w !! other ∧
   files (Ozon.save_to_json w data filename).2 !! other = files w !! other) ∧
  (dirs w ⊆ dirs (WB.save_to_json w data filename).2 ∧
   dirs w ⊆ dirs (Ozon.save_to_json w data filename).2) ∧
  ∀ a, a ∈ dirs (WB.save_to_json w data filename).2
       ∨ a ∈ dirs (Ozon.save_to_json w data filename).2 →
       a ∈ dirs w ∨ a ∈ parents (dirname filename).
Proof.
  intros Hother. unfold WB.save_to_json, Ozon.save_to_json.
  destruct (save_with_frame WB.item_dict w data filename)
    as (Hsub1 & Honly1 & Hfiles1).
  destruct (save_with_frame Ozon.item_dict w data filename)
    as (Hsub2 & Honly2 & Hfiles2).
  split; [split|split; [done|]].
  - destruct Hfiles1 as [->|[content ->]]; [done|].
    by rewrite lookup_insert_ne.
  - destruct Hfiles2 as [->|[content ->]]; [done|].
    by rewrite lookup_insert_ne.
  - intros a [Ha|Ha]; auto.
Qed.

Lemma save_touches_one_file_witness :
  files (Ozon.save_to_json (Sample.disk Malformed)
           (Dict <$> [Sample.tv Sample.market 1 100])
           (u "out/products_1.json")).2
    !! Sample.latest
  = Some Malformed
  ∧ u "out" ∈ dirs (Ozon.save_to_json (Sample.disk Malformed)
                      (Dict <$> [Sample.tv Sample.market 1 100])
                      (u "out/products_1.json")).2.
Proof.
  split.
  - rewrite (proj2 (proj1 (save_touches_one_file (Sample.disk Malformed)
                             (Dict <$> [Sample.tv Sample.market 1 100])
                             (u "out/products_1.json") Sample.latest
                             ltac:(vm_compute; discriminate)))).
    vm_compute. reflexivity.
  - vm_compute. reflexivity.
Defined.

(** X4: the latest store never refreshes a record it holds: when every
    new record has the key of a stored one, the store is written back
    as it was, the new prices and timestamps are dropped. *)
Theorem latest_keeps_known_records (w : world) (prior new : list product)
    (filename : pystr) :
  contains (u "latest") filename = true →
  files w !! filename = Some (Json (JArray (Dict <$> prior))) →
  NoDup (merge_key <$> prior) →
  (∀ p, p ∈ new → ∃ q, q ∈ prior ∧ same_key q p) →
  Forall (λ p, storable p = true) (prior ++ new) →
  creatable w (dirname filename) →
  writable w filename →
  WB.save_to_json w (Dict <$> new) filename = (true, written w filename prior) ∧
  Ozon.save_to_json w (Dict <$> new) filename = (true, written w filename prior) ∧
  files (written w filename prior) !! filename = files w !! filename.
Proof.
  intros Hlatest Hfile Hnd Hknown Hst Hdir Hwr.
  assert (first_occurrences (prior ++ new) ∅ = prior) as Hsame.
  { rewrite first_occurrences_first_by, first_by_app.
    rewrite first_by_distinct; [|done|intros x _; apply not_elem_of_empty].
    rewrite first_by_absorbed; [by rewrite app_nil_r|].
    intros p (q & Hq & Hk%same_key_merge_key)%Hknown. apply elem_of_union_l.
    unfold keys_of. apply elem_of_list_to_set, list_elem_of_fmap. eauto. }
  split; [|split].
  - rewrite <- Hsame at 1. apply save_with_merges; auto. left. by right.
  - rewrite <- Hsame at 1. apply save_with_merges; auto. left. by right.
  - unfold written, replaced. simpl. by rewrite lookup_insert_eq, Hfile.
Qed.

Lemma latest_keeps_known_records_witness :
  Ozon.save_to_json
    (Sample.disk (Json (JArray (Dict <$> [Sample.tv Sample.market 1 100]))))
    (Dict <$> [Sample.tv Sample.market 1 200]) Sample.latest
  = (true,
     written
       (Sample.disk (Json (JArray (Dict <$> [Sample.tv Sample.market 1 100]))))
       Sample.latest [Sample.tv Sample.market 1 100]).
Proof.
  apply (latest_keeps_known_records
           (Sample.disk (Json (JArray (Dict <$> [Sample.tv Sample.market 1 100]))))
           [Sample.tv Sample.market 1 100] [Sample.tv Sample.market 1 200]
           Sample.latest).
  - vm_compute. reflexivity.
  - vm_compute. reflexivity.
  - apply NoDup_singleton.
  - intros p ->%list_elem_of_singleton.
    exists (Sample.tv Sample.market 1 100). split; [left|].
    split; vm_compute; reflexivity.
  - repeat constructor.
  - apply sample_disk_ready.
  - apply sample_disk_ready.
Defined.

(** X5: the [save_to_json] of the Ozon module cannot store objects: one
    [ProductData] instance among the records makes it return [False] and
    write no file; when the directory of the file is there already,
    nothing changes at all. *)
Theorem ozon_save_rejects_objects (w : world) (data : list item)
    (filename : pystr) (p : product) :
  Instance p ∈ data →
  (Ozon.save_to_json w data filename).1 = false ∧
  files (Ozon.save_to_json w data filename).2 = files w ∧
  ((∀ a, a ∈ parents (dirname filename) → a ∈ dirs w) →
   Ozon.save_to_json w data filename = (false, w)).
Proof.
  intros Hin. unfold Ozon.save_to_json.
  destruct (merge Ozon.item_dict w data filename) as [unique|e] eqn:Hmerge.
  { apply merge_returns in Hmerge as (ex & _ & _ & Hd).
    apply dedup_returns in Hd as (ps & Hps & _).
    assert (Instance p ∈ ex ++ data) as Hin' by (apply elem_of_app; by right).
    apply list_elem_of_lookup_1 in Hin' as (i & Hi).
    destruct (Forall2_lookup_l _ _ _ _ _ Hps Hi) as (q & _ & Hq). done. }
  destruct (save_with_unmerged Ozon.item_dict w data filename e Hmerge)
    as [Hfalse Hfiles].
  split; [done|]. split; [done|]. intros Hthere.
  unfold save_with, save_body, makedirs.
  destruct (dirname filename) as [|c d]; [done|].
  simpl truthy_str. cbv iota. rewrite mkdirs_present by exact Hthere.
  by rewrite Hmerge.
Qed.

Lemma ozon_save_rejects_objects_witness :
  Ozon.save_to_json (Sample.disk Malformed)
    [Dict (Sample.tv Sample.market 1 100);
     Instance (Sample.tv Sample.market 2 300)] Sample.latest
  = (false, Sample.disk Malformed).
Proof.
  apply (ozon_save_rejects_objects _ _ _ (Sample.tv Sample.market 2 300)).
  - right. left.
  - intros a Ha. vm_compute in Ha. apply list_elem_of_singleton in Ha as ->.
    unfold Sample.disk. cbn [dirs]. apply elem_of_singleton.
    vm_compute. reflexivity.
Defined.

(** X6: the [save_to_json] of the Wildberries module stores an object as
    its [__dict__]: passing [ProductData] instances or passing their
    dictionaries gives the same result. *)
Theorem wildberries_save_unwraps_objects (w : world) (data : list item)
    (filename : pystr) :
  WB.save_to_json w data filename
  = WB.save_to_json w (unwrap <$> data) filename.
Proof.
  unfold WB.save_to_json, save_with.
  enough (save_body WB.item_dict w data filename
          = save_body WB.item_dict w (unwrap <$> data) filename) as -> by done.
  assert (∀ ex, dedup WB.item_dict (ex ++ data) [] ∅
                = dedup WB.item_dict (ex ++ (unwrap <$> data)) [] ∅) as Hsame.
  { intros ex. apply dedup_ext, Forall2_app.
    - by apply Forall_Forall2_diag, Forall_true.
    - apply Forall2_fmap_r, Forall_Forall2_diag, Forall_true. by intros []. }
  pose proof (Hsame []) as Hnone. cbn [app] in Hnone.
  assert (∀ w1, merge WB.item_dict w1 data filename
                = merge WB.item_dict w1 (unwrap <$> data) filename) as Hmerge.
  { intros w1. unfold merge, concat.
    destruct (read_existing w1 filename) as [[l|]|e]; cbn [mbind res_bind].
    - destruct (contains (u "latest") filename); cbn [mbind res_bind].
      + by rewrite Hsame.
      + by rewrite Hnone.
    - destruct (contains (u "latest") filename); cbn [mbind res_bind]; [done|].
      by rewrite Hnone.
    - done. }
  unfold save_body. destruct (makedirs w (dirname filename)) as [[[]|e] w1];
    [|done].
  by rewrite Hmerge.
Qed.

(** X7: saving the same records again changes nothing: after a call
    that returned [True], the same call returns [True] and leaves the
    file system as the first call left it. *)
Theorem save_again_changes_nothing (w w1 : world) (new : list product)
    (filename : pystr) :
  Ozon.save_to_json w (Dict <$> new) filename = (true, w1) →
  Ozon.save_to_json w1 (Dict <$> new) filename = (true, w1) ∧
  WB.save_to_json w1 (Dict <$> new) filename = (true, w1).
Proof.
  unfold Ozon.save_to_json, WB.save_to_json, save_with at 1.
  destruct (save_body Ozon.item_dict w (Dict <$> new) filename)
    as [[[]|e] w'] eqn:Hb; [|done].
  intros [= ->].
  apply save_body_returns in Hb
    as (wm & un & Hmk & Hmerge & Hst & Hwr & Hnd & ->).
  apply merge_returns in Hmerge as (ex & Hsnap & Hex & Hd).
  apply dedup_returns in Hd as (ps & Hps & Hconv & Hun).
  simpl in Hun. subst un.
  apply Forall2_app_inv_l in Hps as (ps1 & ps2 & Hps1 & Hps2 & ->).
  apply (Forall2_Dict Ozon.item_dict) in Hps2 as ->; [|done].
  set (merged := first_occurrences (ps1 ++ new) ∅) in *.
  assert (first_occurrences (merged ++ new) ∅ = merged) as Hsame.
  { rewrite first_occurrences_first_by, first_by_app.
    unfold merged at 1. rewrite first_occurrences_first_by, first_by_idem.
    rewrite <- first_occurrences_first_by. fold merged.
    rewrite first_by_absorbed; [by rewrite app_nil_r|].
    intros p Hp. apply elem_of_union_l.
    destruct (first_by_covers merge_key (ps1 ++ new) ∅ p) as [Hs|(q & Hq & Hk)].
    - apply elem_of_app. by right.
    - by apply elem_of_empty in Hs.
    - unfold keys_of. apply elem_of_list_to_set, list_elem_of_fmap.
      exists q. split; [done|]. unfold merged.
      by rewrite first_occurrences_first_by. }
  assert (Forall (λ p, integers_convert p = true) merged) as Hints.
  { apply List.Forall_forall. intros p Hp.
    eapply forallb_forall in Hst; [|exact Hp].
    by apply storable_converts in Hst as [? _]. }
  apply Forall_app in Hconv as [_ Hconv].
  assert (∀ as_dict, (∀ p, as_dict (Dict p) = Ok p) →
            merge as_dict
              (World (<[filename := Json (JArray (Dict <$> merged))]> (files w))
                     (dirs wm) (mkdir_ok w) (write_ok w))
              (Dict <$> new) filename = Ok merged) as Hagain.
  { intros as_dict Hdict.
    destruct (contains (u "latest") filename) eqn:Hlatest.
    - rewrite <- Hsame at 2. apply merge_latest; try done.
      left. right. cbn [files]. by rewrite lookup_insert_eq.
    - rewrite (Hsnap eq_refl) in Hps1. apply Forall2_nil_inv_l in Hps1.
      unfold merged. rewrite Hps1. by apply merge_snapshot. }
  split; apply (save_with_again _ w wm merged); auto.
Qed.

Lemma save_again_changes_nothing_witness :
  WB.save_to_json
    (written
       (Sample.disk (Json (JArray (Dict <$> [Sample.tv Sample.market 1 100]))))
       Sample.latest
       [Sample.tv Sample.market 1 100; Sample.tv Sample.market 2 300])
    (Dict <$> [Sample.tv Sample.market 1 200; Sample.tv Sample.market 2 300])
    Sample.latest
  = (true,
     written
       (Sample.disk (Json (JArray (Dict <$> [Sample.tv Sample.market 1 100]))))
       Sample.latest
       [Sample.tv Sample.market 1 100; Sample.tv Sample.market 2 300]).
Proof.
  apply (save_again_changes_nothing
           (Sample.disk (Json (JArray (Dict <$> [Sample.tv Sample.market 1 100]))))).
  vm_compute. reflexivity.
Defined.

(** X18: a record that [json.dump] cannot write costs the whole store.
    When a record with a text that holds a surrogate is the first of its
    key among the stored and the new records, [save_to_json] (of either
    module) has opened the file for writing before the exception:
    it returns [False] and leaves the file with the beginning of a
    document; the stored records are lost. *)
Theorem unwritable_record_loses_store (w : world) (prior new : list product)
    (filename : pystr) (i : nat) (p : product) :
  contains (u "latest") filename = true →
  holds w filename prior →
  Forall (λ q, integers_convert q = true) (prior ++ new) →
  first_at (prior ++ new) i p →
  texts_encode p = false →
  creatable w (dirname filename) →
  writable w filename →
  WB.save_to_json w (Dict <$> new) filename
  = (false, replaced w filename Malformed) ∧
  Ozon.save_to_json w (Dict <$> new) filename
  = (false, replaced w filename Malformed) ∧
  files (replaced w filename Malformed) !! filename = Some Malformed.
Proof.
  intros Hlatest Hfile Hints Hfirst Htext Hdir Hwr.
  assert (forallb storable (first_occurrences (prior ++ new) ∅) = false)
    as Hst.
  { apply not_true_is_false. intros Hall.
    assert (p ∈ first_occurrences (prior ++ new) ∅) as Hp.
    { apply first_occurrences_elem. exists i.
      split; [done|apply not_elem_of_empty]. }
    eapply forallb_forall in Hall; [|by apply list_elem_of_In].
    unfold storable in Hall. apply andb_true_iff in Hall as [_ Hall].
    congruence. }
  assert (∀ as_dict, (∀ p, as_dict (Dict p) = Ok p) →
            save_with as_dict w (Dict <$> new) filename
            = (false, replaced w filename Malformed)) as Hsave.
  { intros as_dict Hdict. unfold save_with.
    rewrite (save_body_runs as_dict w _ filename
               (first_occurrences (prior ++ new) ∅)); try done.
    - by rewrite Hst.
    - apply Forall_app in Hints as [Hex Hnew]. apply merge_latest; try done.
      + by left.
      + eapply Forall_impl; [exact Hnew|]. intros q Hq.
        unfold integers_convert in Hq.
        repeat (apply andb_true_iff in Hq as [Hq ?]). done. }
  split; [by apply Hsave|]. split; [by apply Hsave|].
  unfold replaced. cbn [files]. by rewrite lookup_insert_eq.
Qed.

Lemma unwritable_record_loses_store_witness :
  Ozon.save_to_json
    (Sample.disk (Json (JArray (Dict <$> [Sample.tv Sample.market 1 100]))))
    (Dict <$> [Sample.torn Sample.market 2 300]) Sample.latest
  = (false,
     replaced
       (Sample.disk (Json (JArray (Dict <$> [Sample.tv Sample.market 1 100]))))
       Sample.latest Malformed).
Proof.
  apply (unwritable_record_loses_store
           (Sample.disk (Json (JArray (Dict <$> [Sample.tv Sample.market 1 100]))))
           [Sample.tv Sample.market 1 100] [Sample.torn Sample.market 2 300]
           Sample.latest 1 (Sample.torn Sample.market 2 300)).
  - vm_compute. reflexivity.
  - right. reflexivity.
  - repeat constructor.
  - split; [reflexivity|]. intros [|j] q Hj Hq; [|lia].
    injection Hq as <-. vm_compute. discriminate.
  - vm_compute. reflexivity.
  - apply sample_disk_ready.
  - apply sample_disk_ready.
Defined.

(** X19: a latest file that holds no JSON document, as the file that a
    failed writing leaves, is taken for empty: the first occurrences of
    the new records are written. *)
Theorem malformed_latest_is_empty (w : world) (new : list product)
    (filename : pystr) :
  contains (u "latest") filename = true →
  files w !! filename = Some Malformed →
  Forall (λ p, storable p = true) new →
  creatable w (dirname filename) →
  writable w filename →
  ∃ merged,
    WB.save_to_json w (Dict <$> new) filename = (true, written w filename merged) ∧
    Ozon.save_to_json w (Dict <$> new) filename = (true, written w filename merged) ∧
    keeps_first_occurrences new merged.
Proof.
  intros Hlatest Hfile Hst Hdir Hwr. exists (first_occurrences new ∅).
  split; [|split].
  - apply (save_with_merges _ w [] new); auto.
  - apply (save_with_merges _ w [] new); auto.
  - apply first_occurrences_keeps.
Qed.

Lemma malformed_latest_is_empty_witness :
  ∃ merged,
    WB.save_to_json (Sample.disk Malformed)
      (Dict <$> [Sample.tv Sample.market 2 300; Sample.tv Sample.market 2 400])
      Sample.latest
    = (true, written (Sample.disk Malformed) Sample.latest merged) ∧
    keeps_first_occurrences
      [Sample.tv Sample.market 2 300; Sample.tv Sample.market 2 400] merged.
Proof.
  destruct (malformed_latest_is_empty (Sample.disk Malformed)
              [Sample.tv Sample.market 2 300; Sample.tv Sample.market 2 400]
              Sample.latest) as (merged & Hsave & _ & Hkeeps).
  - vm_compute. reflexivity.
  - vm_compute. reflexivity.
  - repeat constructor.
  - apply sample_disk_ready.
  - apply sample_disk_ready.
  - exists merged. split; assumption.
Defined.

(** ** The Ozon listing *)

Lemma unique_from_first_by (products unique_products : list product)
    (seen : gset scalar) :
  Ozon.unique_from products unique_products seen
  = unique_products ++ first_by article products seen.
Proof.
  revert unique_products seen.
  induction products as [|p products IH]; intros unique_products seen; simpl.
  - by rewrite app_nil_r.
  - case_bool_decide; rewrite IH; [by rewrite <- app_assoc|done].
Qed.

Lemma remove_duplicates_first_by (products : list product) :
  Ozon.remove_duplicates products = first_by article products ∅.
Proof.
  destruct products as [|p products]; [done|].
  unfold Ozon.remove_duplicates. by rewrite unique_from_first_by.
Qed.

(** X8: [remove_duplicates] keeps, in their order, the first product of
    every article and nothing else; applied twice it does what it does
    once, and a list of distinct articles comes back unchanged. *)
Theorem remove_duplicates_keeps_first (products : list product) :
  NoDup (article <$> Ozon.remove_duplicates products) ∧
  Ozon.remove_duplicates products `sublist_of` products ∧
  (∀ p, p ∈ products →
     ∃ q, q ∈ Ozon.remove_duplicates products ∧ article q = article p) ∧
  Ozon.remove_duplicates (Ozon.remove_duplicates products)
  = Ozon.remove_duplicates products ∧
  (NoDup (article <$> products) → Ozon.remove_duplicates products = products).
Proof.
  rewrite !remove_duplicates_first_by. repeat split.
  - apply first_by_NoDup.
  - apply first_by_sublist.
  - intros p Hp.
    destruct (first_by_covers article products ∅ p Hp) as [Hs|Hq]; [|done].
    by apply elem_of_empty in Hs.
  - apply first_by_idem.
  - intros Hnd. apply first_by_distinct; [done|].
    intros x _. apply not_elem_of_empty.
Qed.

Lemma fold_left_keeps {S X : Type} (P : S → Prop) (f : S → X → S)
    (xs : list X) (st : S) :
  (∀ st x, x ∈ xs → P st → P (f st x)) → P st → P (fold_left f xs st).
Proof.
  revert st. induction xs as [|x xs IH]; intros st Hstep Hst; simpl; [done|].
  apply IH.
  - intros st' y Hy. apply Hstep. by right.
  - apply Hstep; [left|done].
Qed.

Lemma scan_element_scanned (page : listing) (clock : nat → pystr)
    (st : Ozon.scan) (selector : pystr) (elements : list card)
    (element : card) :
  selector ∈ Ozon.selectors → find_cards page selector = Ok elements →
  element ∈ elements →
  scanned page clock st → scanned page clock (Ozon.scan_element clock st element).
Proof.
  intros Hsel Hfind Hel (Hnd & Hseen & Hall). unfold Ozon.scan_element.
  destruct (Ozon.extract_product_info_immediately element _) as [info|] eqn:Hi;
    [|done].
  case_bool_decide as Hnew; [|done].
  split; [|split]; simpl.
  - rewrite fmap_app. apply NoDup_app. split; [done|]. split.
    + intros a Ha Hb%list_elem_of_singleton. subst a. by apply Hnew, Hseen.
    + apply NoDup_singleton.
  - intros a. rewrite fmap_app, elem_of_app, elem_of_union, elem_of_singleton,
      Hseen. simpl. rewrite list_elem_of_singleton. tauto.
  - intros p [Hp|Hp%list_elem_of_singleton]%elem_of_app; [by apply Hall|].
    subst p.
    by exists selector, elements, element, (Ozon.assembled st).
Qed.

Lemma find_all_products_safe_scanned (page : listing) (clock : nat → pystr) :
  scanned page clock
    (fold_left (Ozon.scan_selector page clock) Ozon.selectors (Ozon.Scan [] ∅ 0)).
Proof.
  apply (fold_left_keeps (scanned page clock)).
  - intros st selector Hsel Hst. unfold Ozon.scan_selector.
    destruct (find_cards page selector) as [elements|] eqn:Hfind; [|done].
    apply (fold_left_keeps (scanned page clock)); [|done].
    intros st' element Hel. by eapply scan_element_scanned.
  - split; [constructor|]. split.
    + intros a. split; [by intros ?%elem_of_empty|by intros ?%elem_of_nil].
    + by intros p ?%elem_of_nil.
Qed.

(** What Ozon has done when it assembles a record. *)
Lemma ozon_record (element : card) (now : pystr) (r : product) :
  Ozon.extract_product_info_immediately element now = Some r →
  ∃ a z,
    article r = Str a ∧ a ≠ [] ∧
    marketplace r = u "Ozon" ∧
    price r = PyInt z ∧ Ozon.extract_accurate_price element = Some z ∧
    old_price r = option_map PyInt (Ozon.extract_old_price element) ∧
    reviews_count r = Ozon.extract_reviews_count element ∧
    availability r = None ∧ collected_at r = now ∧ url r ≠ [] ∧ name r ≠ [].
Proof.
  unfold Ozon.extract_product_info_immediately.
  destruct (returned (for_each Ozon.link_selectors _)) as [product_url|] eqn:Hu;
    [|done].
  destruct (Ozon.extract_article_from_url product_url) as [|c a] eqn:Ha;
    [done|]. simpl negb. cbv iota.
  destruct (Ozon.extract_product_name element) as [[|c' n]|]; [done| |done].
  simpl negb. cbv iota.
  destruct (Ozon.extract_accurate_price element) as [z|]; [|done].
  destruct ((z =? 0)%Z || (z <? 1000)%Z) eqn:Hz; [done|].
  intros [= <-]. simpl. exists (c :: a), z. repeat split; try done.
  unwind; subst;
    match goal with H : truthy_str ?x = true |- _ => by destruct x end.
Qed.

(** X9: the products [find_all_products_safe] returns have pairwise
    distinct articles, and each was assembled from a card that one of
    the selectors finds on the page; a selector whose lookup raises
    contributes nothing. *)
Theorem find_all_products_safe_distinct (page : listing)
    (clock : nat → pystr) :
  NoDup (article <$> Ozon.find_all_products_safe page clock) ∧
  (∀ p, p ∈ Ozon.find_all_products_safe page clock →
        listed_product page clock p) ∧
  ((∀ selector, selector ∈ Ozon.selectors →
      ∃ e, find_cards page selector = Raise e) →
   Ozon.find_all_products_safe page clock = []).
Proof.
  destruct (find_all_products_safe_scanned page clock) as (Hnd & _ & Hall).
  split; [done|]. split; [done|].
  intros Hraise. unfold Ozon.find_all_products_safe.
  enough (∀ l st, l ⊆ Ozon.selectors →
            fold_left (Ozon.scan_selector page clock) l st = st) as -> by done.
  induction l as [|selector l IH]; intros st Hl; simpl; [done|].
  unfold Ozon.scan_selector at 2.
  destruct (Hraise selector) as [e ->]; [apply Hl; left|].
  apply IH. intros x Hx. apply Hl. by right.
Qed.

Lemma filter_sublist {X : Type} (f : X → bool) (xs : list X) :
  List.filter f xs `sublist_of` xs.
Proof.
  induction xs as [|x xs IH]; simpl; [done|].
  destruct (f x); [by apply sublist_skip|by apply sublist_cons].
Qed.

(** What [search_target_products] has done when it returns. *)
Lemma search_target_products_returns (started : res browser)
    (clock : nat → pystr) (targets : list scalar) (found : list product) :
  Ozon.search_target_products started clock targets = Ok found →
  ∃ d, started = Ok d ∧ quit d = Ok tt ∧
       found =
       match search_page d with
       | Ok page =>
           List.filter (λ p, bool_decide (article p ∈ targets))
                       (Ozon.find_all_products_safe page clock)
       | Raise _ => []
       end.
Proof.
  unfold Ozon.search_target_products.
  destruct started as [d|e]; [cbn [mbind res_bind]|done].
  destruct (quit d) as [[]|e] eqn:Hq; [cbn [mbind res_bind]|done].
  intros [= <-]. exists d. split; [done|]. split; [done|].
  destruct (search_page d) as [page|e]; [|done].
  destruct (find_all_products_safe_scanned page clock) as (Hnd & _ & _).
  rewrite remove_duplicates_first_by.
  rewrite first_by_distinct.
  - apply List.filter_ext. intros p. apply bool_decide_ext.
    apply elem_of_list_to_set.
  - eapply sublist_NoDup; [exact Hnd|apply fmap_sublist, filter_sublist].
  - intros x _. apply not_elem_of_empty.
Qed.

(** X10: what [search_target_products] returns are the listed products
    whose article is one of the targets, with distinct articles: the
    call to [remove_duplicates] finds nothing to remove.  A page that
    fails to load gives the empty list. *)
Theorem search_target_products_finds_targets (started : res browser)
    (clock : nat → pystr) (targets : list scalar) (found : list product) :
  Ozon.search_target_products started clock targets = Ok found →
  NoDup (article <$> found) ∧
  (∀ p, p ∈ found → article p ∈ targets) ∧
  (∀ p, p ∈ found →
     ∃ d page, started = Ok d ∧ search_page d = Ok page ∧
               listed_product page clock p) ∧
  (∀ d page, started = Ok d → search_page d = Ok page →
     found = List.filter (λ p, bool_decide (article p ∈ targets))
                         (Ozon.find_all_products_safe page clock)) ∧
  (∀ d e, started = Ok d → search_page d = Raise e → found = []).
Proof.
  intros (d & -> & Hq & ->)%search_target_products_returns.
  destruct (search_page d) as [page|e] eqn:Hpage.
  - destruct (find_all_products_safe_scanned page clock) as (Hnd & _ & Hall).
    repeat split.
    + eapply sublist_NoDup; [exact Hnd|apply fmap_sublist, filter_sublist].
    + intros p [_ Hp]%list_elem_of_In%filter_In. by apply bool_decide_eq_true in Hp.
    + intros p [Hp _]%list_elem_of_In%filter_In. exists d, page.
      repeat split; [done|]. by apply Hall, list_elem_of_In.
    + intros d' page' [= <-] Hp. rewrite Hpage in Hp. by injection Hp as <-.
    + intros d' e [= <-] Hp. congruence.
  - repeat split.
    + constructor.
    + by intros p ?%elem_of_nil.
    + by intros p ?%elem_of_nil.
    + intros d' page [= <-] Hp. congruence.
Qed.

(** X11: identifiers given as numbers are never found: the article of a
    listed product is a [str], and no [str] equals an [int]. *)
Theorem search_target_products_numeric_targets (started : res browser)
    (clock : nat → pystr) (targets : list scalar) (found : list product) :
  (∀ t, t ∈ targets → ∃ z, t = Int z) →
  Ozon.search_target_products started clock targets = Ok found →
  found = [].
Proof.
  intros Hnum (d & -> & Hq & ->)%search_target_products_returns.
  destruct (search_page d) as [page|e]; [|done].
  destruct (find_all_products_safe_scanned page clock) as (_ & _ & Hall).
  destruct (List.filter _ _) as [|p found] eqn:Hf; [done|].
  assert (In p (List.filter (λ p, bool_decide (article p ∈ targets))
                  (Ozon.find_all_products_safe page clock))) as Hp
    by (rewrite Hf; left; done).
  apply filter_In in Hp as [Hp Ht]. apply bool_decide_eq_true in Ht.
  destruct (Hnum _ Ht) as [z Hz].
  destruct (Hall p) as (sel & els & el & n & _ & _ & _ & Hr);
    [by apply list_elem_of_In|].
  apply ozon_record in Hr as (a & z' & Ha & _). congruence.
Qed.

Lemma search_target_products_finds_targets_witness :
  ∃ found,
    Ozon.search_target_products (Ok Sample.ozon_browser) Sample.clock
      [Str (u "1955609657"); Str (u "2573828081")] = Ok found
    ∧ NoDup (article <$> found) ∧ length found = 1%nat.
Proof.
  eexists. split; [vm_compute; reflexivity|].
  split; [|reflexivity].
  apply (search_target_products_finds_targets (Ok Sample.ozon_browser)
           Sample.clock [Str (u "1955609657"); Str (u "2573828081")]).
  vm_compute. reflexivity.
Defined.

Lemma search_target_products_numeric_targets_witness :
  Ozon.search_target_products (Ok Sample.ozon_browser) Sample.clock
    [Int 1955609657; Int 2573828081] = Ok [].
Proof.
  assert (∃ found,
            Ozon.search_target_products (Ok Sample.ozon_browser) Sample.clock
              [Int 1955609657; Int 2573828081] = Ok found) as [found Hfound].
  { eexists. vm_compute. reflexivity. }
  rewrite Hfound. f_equal.
  apply (search_target_products_numeric_targets (Ok Sample.ozon_browser)
           Sample.clock [Int 1955609657; Int 2573828081]); [|exact Hfound].
  intros t Ht. repeat (apply elem_of_cons in Ht as [->|Ht]; [eauto|]).
  by apply elem_of_nil in Ht.
Defined.

(** ** The fields of a record *)

Lemma int_of_str_nonneg (s : pystr) (z : Z) :
  int_of_str s = Some z → (0 ≤ z)%Z.
Proof.
  unfold int_of_str. destruct (span_digits s) as [ds r].
  destruct ds; [done|]. destruct r; [|done].
  destruct (Nat.leb _ _); [|done]. intros [= <-]. lia.
Qed.

Lemma ozon_price_band (element : card) (z : Z) :
  Ozon.extract_accurate_price element = Some z → (1000 ≤ z ≤ 100000)%Z.
Proof.
  unfold Ozon.extract_accurate_price. intros H. unwind; subst;
    match goal with
    | H : Ozon.plausible _ = true |- _ =>
        apply andb_true_iff in H as [?%Z.leb_le ?%Z.leb_le]; lia
    end.
Qed.

Lemma ozon_old_price_above (element : card) (z : Z) :
  Ozon.extract_old_price element = Some z → (1000 < z)%Z.
Proof.
  unfold Ozon.extract_old_price. intros H. unwind; subst.
  by apply Z.ltb_lt.
Qed.

Lemma ozon_reviews_nonneg (element : card) :
  (0 ≤ Ozon.extract_reviews_count element)%Z.
Proof.
  unfold Ozon.extract_reviews_count.
  destruct (returned _) as [z|] eqn:H; simpl; [|done].
  unwind; subst. by eapply int_of_str_nonneg.
Qed.

(** X12: every record Ozon assembles is marked "Ozon", carries an [int]
    price between 1000 and 100000, an old price above 1000 when it has
    one, a review count that is not negative, no availability, and the
    time it was given. *)
Theorem ozon_record_bounds (element : card) (now : pystr) (r : product) :
  Ozon.extract_product_info_immediately element now = Some r →
  marketplace r = u "Ozon" ∧
  (∃ z, price r = PyInt z ∧ (1000 ≤ z ≤ 100000)%Z) ∧
  (old_price r = None ∨ ∃ z, old_price r = Some (PyInt z) ∧ (1000 < z)%Z) ∧
  (0 ≤ reviews_count r)%Z ∧
  availability r = None ∧
  collected_at r = now.
Proof.
  intros (a & z & _ & _ & Hm & Hp & Hz & Ho & Hr & Hav & Hc & _)%ozon_record.
  split; [done|]. split; [|split; [|split; [|done]]].
  - exists z. split; [done|]. by apply (ozon_price_band element).
  - rewrite Ho. destruct (Ozon.extract_old_price element) as [o|] eqn:Hold;
      [right|by left].
    exists o. split; [done|]. by apply (ozon_old_price_above element).
  - rewrite Hr. apply ozon_reviews_nonneg.
Qed.

Lemma ozon_record_bounds_witness :
  ∃ r,
    Ozon.extract_product_info_immediately Sample.ozon_card Sample.now = Some r
    ∧ ∃ z, price r = PyInt z ∧ (1000 ≤ z ≤ 100000)%Z.
Proof.
  eexists. split; [vm_compute; reflexivity|].
  apply (ozon_record_bounds Sample.ozon_card Sample.now).
  vm_compute. reflexivity.
Defined.

(** ** Wildberries records *)

Lemma wildberries_old_price_plausible (d : driver) (v : float) :
  WB.extract_old_price d = Some v → WB.plausible v = true.
Proof.
  unfold WB.extract_old_price. intros H. unwind; subst.
  by eapply extract_price_from_text_plausible.
Qed.

Lemma wildberries_reviews_nonneg (d : driver) :
  (0 ≤ WB.extract_reviews_count d)%Z.
Proof.
  unfold WB.extract_reviews_count.
  destruct (returned _) as [z|] eqn:H; simpl; [|done].
  unwind; subst. by eapply int_of_str_nonneg.
Qed.

(** The fields of a record [collect_product_data] assembles. *)
Lemma wildberries_record `{U : Unicode} (session : pystr → res driver)
    (now article : pystr) (r : WB.ProductData) :
  WB.collect_product_data session now article = Some r →
  ∃ d,
    session (WB.url r) = Ok d ∧
    WB.marketplace r = u "Wildberries" ∧
    WB.article r = article ∧
    WB.url r = u "https://www.wildberries.ru/catalog/" ++ article
               ++ u "/detail.aspx" ∧
    WB.extract_product_name d article = Some (WB.name r) ∧
    WB.extract_product_price d article = Some (WB.price r) ∧
    WB.old_price r = WB.extract_old_price d ∧
    WB.rating r = WB.extract_rating d ∧
    WB.reviews_count r = WB.extract_reviews_count d ∧
    WB.collected_at r = now.
Proof.
  unfold WB.collect_product_data. intros H.
  destruct (session _) as [d|e] eqn:Hs; [|done].
  destruct (WB.is_blocked d) eqn:Hb; [done|].
  destruct (WB.extract_product_name d article) as [name|] eqn:Hn; [|done].
  destruct name as [|c name]; [done|]. simpl in H.
  destruct (WB.extract_product_price d article) as [price|] eqn:Hp; [|done].
  destruct (truthy_float price); [|done]. simpl in H.
  injection H as <-. simpl. exists d. by repeat split.
Qed.

(** X13: every record Wildberries assembles is marked "Wildberries",
    links to the detail page of its article, carries a price and, when it
    has one, an old price between 10 and 1000000, a rating between 0 and
    5 when it has one, a review count that is not negative, and the time
    it was given. *)
Theorem wildberries_record_bounds `{U : Unicode}
    (session : pystr → res driver) (now article : pystr)
    (r : WB.ProductData) :
  WB.collect_product_data session now article = Some r →
  WB.marketplace r = u "Wildberries" ∧
  WB.url r = u "https://www.wildberries.ru/catalog/" ++ WB.article r
             ++ u "/detail.aspx" ∧
  WB.plausible (WB.price r) = true ∧
  (∀ v, WB.old_price r = Some v → WB.plausible v = true) ∧
  (∀ v, WB.rating r = Some v → WB.in_rating_range v = true) ∧
  (0 ≤ WB.reviews_count r)%Z ∧
  WB.collected_at r = now.
Proof.
  intros (d & _ & Hm & Ha & Hu & _ & Hp & Ho & Hr & Hc & Ht)%wildberries_record.
  split; [done|]. split; [by rewrite Ha|].
  split; [by eapply extract_product_price_plausible|].
  split; [|split; [|split; [|done]]].
  - intros v Hv. rewrite Ho in Hv. by eapply wildberries_old_price_plausible.
  - intros v Hv. rewrite Hr in Hv. by eapply wildberries_rating_in_range.
  - rewrite Hc. apply wildberries_reviews_nonneg.
Qed.

Lemma wildberries_record_bounds_witness :
  ∃ r,
    WB.collect_product_data (U := Sample.basic) (Sample.wb_session 0)
      Sample.now (u "358384386") = Some r
    ∧ WB.old_price r = Some (float_of_Z 19990)
    ∧ WB.rating r = Some (float_of_decimal 45 1)
    ∧ WB.reviews_count r = 1234%Z
    ∧ WB.plausible (WB.price r) = true.
Proof.
  eexists. split; [vm_compute; reflexivity|].
  split; [vm_compute; reflexivity|]. split; [vm_compute; reflexivity|].
  split; [vm_compute; reflexivity|].
  apply (wildberries_record_bounds (U := Sample.basic) (Sample.wb_session 0)
           Sample.now (u "358384386")).
  vm_compute. reflexivity.
Defined.

(** ** Several articles *)

Lemma collect_from_appends `{U : Unicode} (session : nat → pystr → res driver)
    (clock : nat → pystr) (articles : list pystr) (i : nat)
    (results : list WB.ProductData) :
  ∃ out,
    WB.collect_from session clock i articles results = results ++ out ∧
    WB.article <$> out `sublist_of` articles ∧
    ∀ r, r ∈ out →
      ∃ j, articles !! j = Some (WB.article r) ∧
           WB.collect_product_data (session (i + j)%nat) (clock (i + j)%nat)
             (WB.article r) = Some r.
Proof.
  revert i results. induction articles as [|article articles IH];
    intros i results; simpl.
  - exists []. split; [by rewrite app_nil_r|]. split; [done|].
    by intros r ?%elem_of_nil.
  - destruct (WB.collect_product_data (session i) (clock i) article)
      as [product|] eqn:Hc.
    + destruct (IH (S i) (results ++ [product])) as (out & -> & Hsub & Hall).
      exists (product :: out). split; [by rewrite <- app_assoc|].
      pose proof Hc as (d & _ & _ & Ha & _)%wildberries_record.
      split.
      * rewrite fmap_cons, Ha. by apply sublist_skip.
      * intros r [->|Hr]%elem_of_cons.
        -- exists 0%nat. rewrite Ha, Nat.add_0_r. by split.
        -- destruct (Hall r Hr) as (j & Hj & Hcj). exists (S j).
           split; [done|]. by replace (i + S j)%nat with (S i + j)%nat by lia.
    + destruct (IH (S i) results) as (out & -> & Hsub & Hall).
      exists out. split; [done|]. split; [by apply sublist_cons|].
      intros r Hr. destruct (Hall r Hr) as (j & Hj & Hcj). exists (S j).
      split; [done|]. by replace (i + S j)%nat with (S i + j)%nat by lia.
Qed.

Lemma collect_from_keeps `{U : Unicode} (session : nat → pystr → res driver)
    (clock : nat → pystr) (article : pystr) (r : WB.ProductData)
    (articles : list pystr) (i : nat) (results : list WB.ProductData)
    (j : nat) :
  articles !! j = Some article →
  WB.collect_product_data (session (i + j)%nat) (clock (i + j)%nat) article
  = Some r →
  r ∈ WB.collect_from session clock i articles results.
Proof.
  revert i results j. induction articles as [|a articles IH];
    intros i results j Hj Hc; [done|].
  simpl. destruct j as [|j]; simpl in Hj.
  - injection Hj as ->. rewrite Nat.add_0_r in Hc. rewrite Hc.
    destruct (collect_from_appends session clock articles (S i)
                (results ++ [r])) as (out & -> & _).
    apply elem_of_app. left. apply elem_of_app. right. left.
  - replace (i + S j)%nat with (S i + j)%nat in Hc by lia.
    destruct (WB.collect_product_data (session i) (clock i) a); by eapply IH.
Qed.

(** X14: [collect_multiple_products] returns, in the order of the
    articles it was given, the records of those articles for which
    [collect_product_data] assembled one: the articles of the result are
    a sublist of the articles asked for, and a failed article is skipped
    without stopping the run. *)
Theorem collect_multiple_products_in_order `{U : Unicode}
    (session : nat → pystr → res driver) (clock : nat → pystr)
    (articles : list pystr) :
  WB.article <$> WB.collect_multiple_products session clock articles
    `sublist_of` articles ∧
  (∀ r, r ∈ WB.collect_multiple_products session clock articles →
     ∃ j, articles !! j = Some (WB.article r) ∧
          WB.collect_product_data (session j) (clock j) (WB.article r)
          = Some r) ∧
  (∀ j article r,
     articles !! j = Some article →
     WB.collect_product_data (session j) (clock j) article = Some r →
     r ∈ WB.collect_multiple_products session clock articles).
Proof.
  unfold WB.collect_multiple_products. split; [|split].
  - destruct (collect_from_appends session clock articles 0 [])
      as (out & -> & Hsub & _). done.
  - destruct (collect_from_appends session clock articles 0 [])
      as (out & -> & _ & Hall). done.
  - intros j article r Hj Hc. by eapply (collect_from_keeps _ _ _ _ _ 0%nat).
Qed.

Lemma collect_multiple_products_in_order_witness :
  WB.article <$>
    WB.collect_multiple_products (U := Sample.basic) Sample.wb_session
      Sample.clock [u "152113569"; u "358384386"]
  = [u "358384386"]
  ∧ WB.article <$>
      WB.collect_multiple_products (U := Sample.basic) Sample.wb_session
        Sample.clock [u "152113569"; u "358384386"]
    `sublist_of` [u "152113569"; u "358384386"].
Proof.
  split; [vm_compute; reflexivity|].
  apply (proj1 (collect_multiple_products_in_order (U := Sample.basic)
                  Sample.wb_session Sample.clock
                  [u "152113569"; u "358384386"])).
Defined.

(** ** Names *)

Lemma drop_while_head (p : N → bool) (s : pystr) (c : N) (rest : pystr) :
  drop_while p s = c :: rest → p c = false.
Proof.
  induction s as [|a s IH]; simpl; [done|].
  destruct (p a) eqn:Ha; [done|]. by intros [= <- _].
Qed.

Lemma drop_while_keeps_last (p : N → bool) (s : pystr) (c : N) :
  p c = false → drop_while p (s ++ [c]) = drop_while p s ++ [c].
Proof.
  intros Hc. induction s as [|a s IH]; simpl; [by rewrite Hc|].
  by destruct (p a).
Qed.

Lemma strip_trimmed (s : pystr) : trimmed (strip s).
Proof.
  unfold strip, rstrip, lstrip. split.
  - intros c rest Hs.
    destruct (drop_while isspace s) as [|a t] eqn:Hl; [done|].
    pose proof (drop_while_head _ _ _ _ Hl) as Ha.
    assert (∃ t', rev (drop_while isspace (rev (a :: t))) = a :: t')
      as [t' Ht'].
    { simpl. rewrite drop_while_keeps_last by done.
      rewrite rev_app_distr. simpl. eauto. }
    rewrite Ht' in Hs. by injection Hs as <- _.
  - intros c front Hs.
    apply (f_equal (@rev N)) in Hs. rewrite rev_involutive, rev_app_distr in Hs.
    simpl in Hs. by eapply drop_while_head.
Qed.

Lemma clean_product_name_trimmed `{U : Unicode} (name : pystr) :
  trimmed (WB.clean_product_name name).
Proof.
  unfold WB.clean_product_name. destruct (truthy_str name); simpl negb;
    cbv iota; [apply strip_trimmed|].
  split.
  - intros c rest Hs. vm_compute in Hs. by injection Hs as <- _.
  - intros c front Hs. apply (f_equal (@rev N)) in Hs. rewrite rev_app_distr in Hs.
    vm_compute in Hs. by injection Hs as <- _.
Qed.

Lemma extract_product_name_trimmed `{U : Unicode} (d : driver)
    (article name : pystr) :
  WB.extract_product_name d article = Some name → trimmed name.
Proof.
  unfold WB.extract_product_name.
  destruct (returned (for_each WB.name_selectors _)) as [n|] eqn:Hsel.
  - intros [= <-]. unwind; subst; apply clean_product_name_trimmed.
  - intros H. unwind; subst; apply clean_product_name_trimmed.
Qed.

(** X15: the name of a record Wildberries assembles has no space at its
    start and none at its end, whatever the Unicode tables: every name
    goes through [clean_product_name], which strips last. *)
Theorem wildberries_name_trimmed `{U : Unicode}
    (session : pystr → res driver) (now article : pystr)
    (r : WB.ProductData) :
  WB.collect_product_data session now article = Some r →
  trimmed (WB.name r) ∧ WB.name r ≠ [].
Proof.
  intros Hr. pose proof Hr as (d & _ & _ & _ & _ & Hn & _)%wildberries_record.
  split; [by eapply extract_product_name_trimmed|].
  apply collect_product_data_returns in Hr as (d' & _ & _ & _ & Hne & _). done.
Qed.

Lemma wildberries_name_trimmed_witness :
  ∃ r,
    WB.collect_product_data (U := Sample.basic) (Sample.wb_session 0)
      Sample.now (u "358384386") = Some r
    ∧ WB.name r = u "Smart TV 32 Full HD" ∧ trimmed (WB.name r).
Proof.
  eexists. split; [vm_compute; reflexivity|].
  split; [vm_compute; reflexivity|].
  apply (wildberries_name_trimmed (U := Sample.basic) (Sample.wb_session 0)
           Sample.now (u "358384386")).
  vm_compute. reflexivity.
Defined.

(** ** What a group captures *)

Section Captures.
Variable P : N → bool.

Lemma rep_sound (p : N → bool) (greedy : bool) (recording : bool)
    (k : Re.cont) (fuel lo : nat) :
  (recording = true → ∀ c, p c = true → P c = true) →
  captures_sound P recording k →
  captures_sound P recording (Re.rep p greedy lo fuel k).
Proof.
  unfold captures_sound. intros Hp Hk. revert lo.
  induction fuel as [|fuel IH]; intros lo st s g rest Hrec Hcap H.
  - simpl in H.
    repeat match goal with
    | H : (if ?b then _ else _) = Some _ |- _ => destruct b eqn:?
    | H : match ?x with Some _ => _ | None => _ end = Some _ |- _ =>
        destruct x as [[? ?]|] eqn:?
    end; simplify_eq; eauto.
  - assert (∀ c s' g rest, p c = true →
              Re.rep p greedy (Nat.pred lo) fuel k (Re.push c st) s'
              = Some (g, rest) → Forall (λ c, P c = true) g) as Hmore.
    { intros c s' g' rest' Hc. apply IH; [done|]. unfold Re.push. simpl.
      destruct (Re.recording st) eqn:Hr; [|done].
      constructor; [|done]. apply Hp; congruence. }
    simpl in H.
    repeat match goal with
    | H : (if ?b then _ else _) = Some _ |- _ => destruct b eqn:?
    | H : match ?x with Some _ => _ | None => _ end = Some _ |- _ =>
        destruct x as [[? ?]|] eqn:?
    | H : match ?x with [] => _ | _ :: _ => _ end = Some _ |- _ => destruct x
    end; simplify_eq; eauto.
Qed.

Lemma run_sound (re : Re.sequence) (recording : bool) (k : Re.cont) :
  captures_within P recording re →
  (∀ b, captures_sound P b k) →
  captures_sound P recording (Re.run re k).
Proof.
  intros Hre Hk. revert recording Hre.
  induction re as [|a re IH]; intros recording Hre; simpl; [apply Hk|].
  destruct a as [p lo hi greedy|word| | | |]; simpl in Hre.
  - destruct Hre as [Hp Hre]. intros st s g rest Hrec Hcap.
    by apply (rep_sound p greedy recording _ _ lo Hp (IH _ Hre)).
  - intros st s g rest Hrec Hcap H.
    destruct (Re.at_boundary word st s); [|done]. by eapply (IH _ Hre).
  - intros st s g rest Hrec Hcap H.
    destruct (Re.at_bol st); [|done]. by eapply (IH _ Hre).
  - intros st s g rest Hrec Hcap H.
    destruct (Re.at_eol s); [|done]. by eapply (IH _ Hre).
  - intros st s g rest Hrec Hcap H. by eapply (IH true Hre); [| |exact H].
  - intros st s g rest Hrec Hcap H. by eapply (IH false Hre); [| |exact H].
Qed.

Lemma match_here_sound (re : Re.pattern) (before : option N) (s : pystr)
    (g rest : pystr) :
  Forall (captures_within P false) re →
  Re.match_here re before s = Some (g, rest) →
  Forall (λ c, P c = true) g.
Proof.
  intros Hre. induction Hre as [|alt re Halt _ IH]; simpl; [done|].
  destruct (Re.run alt _ _ s) as [[g' rest']|] eqn:Hrun; [|done].
  intros [= <- <-].
  assert (∀ b, captures_sound P b (λ st rest, Some (rev (Re.captured st), rest)))
    as Hlast.
  { intros b st s0 g0 rest0 _ Hcap [= <- _]. by apply List.Forall_rev. }
  exact (run_sound alt false _ Halt Hlast (Re.MState before false []) _ _ _
           eq_refl (List.Forall_nil _) Hrun).
Qed.

Lemma search_sound (re : Re.pattern) (s g : pystr) :
  Forall (captures_within P false) re →
  Re.search re s = Some g → Forall (λ c, P c = true) g.
Proof.
  intros Hre. unfold Re.search.
  enough (∀ before r, Re.search_from re before s = Some r →
                      Forall (λ c, P c = true) r.1) as Hfrom.
  { destruct (Re.search_from re None s) as [r|] eqn:Hs; [|done].
    intros [= <-]. by eapply Hfrom. }
  induction s as [|c s IH]; intros before [g' rest]; simpl.
  - destruct (Re.match_here re before []) as [[g0 r0]|] eqn:Hm; [|done].
    intros [= <- <-]. by eapply match_here_sound.
  - destruct (Re.match_here re before (c :: s)) as [[g0 r0]|] eqn:Hm.
    + intros [= <- <-]. by eapply match_here_sound.
    + apply IH.
Qed.

End Captures.

Lemma extract_article_from_url_digits (url : pystr) :
  Forall (λ c, isdecimal c = true) (Ozon.extract_article_from_url url).
Proof.
  unfold Ozon.extract_article_from_url.
  destruct (returned _) as [a|] eqn:Ha; simpl; [|constructor].
  unwind. subst.
  match goal with H : _ ∈ Ozon.article_patterns |- _ => rename H into Hin end.
  match goal with H : Re.search _ _ = Some _ |- _ => rename H into Hs end.
  eapply (search_sound isdecimal); [|exact Hs].
  unfold Ozon.article_patterns in Hin.
  repeat (apply elem_of_cons in Hin as [->|Hin];
          [repeat constructor; simpl; try done; intros; done|]).
  by apply elem_of_nil in Hin.
Qed.

(** X17: the article of a record Ozon assembles is the one read from the
    address of the record, and it is a non-empty text of decimal digits:
    each of the three address patterns captures digits only. *)
Theorem ozon_article_is_digits (element : card) (now : pystr) (r : product) :
  Ozon.extract_product_info_immediately element now = Some r →
  ∃ a, article r = Str a ∧ a = Ozon.extract_article_from_url (url r) ∧
       a ≠ [] ∧ Forall (λ c, isdecimal c = true) a.
Proof.
  unfold Ozon.extract_product_info_immediately.
  destruct (returned (for_each Ozon.link_selectors _)) as [product_url|];
    [|done].
  pose proof (extract_article_from_url_digits product_url) as Hd.
  destruct (Ozon.extract_article_from_url product_url) as [|c a] eqn:Ha;
    [done|]. simpl negb. cbv iota.
  destruct (Ozon.extract_product_name element) as [[|c' n]|]; [done| |done].
  simpl negb. cbv iota.
  destruct (Ozon.extract_accurate_price element) as [z|]; [|done].
  destruct ((z =? 0)%Z || (z <? 1000)%Z); [done|].
  intros [= <-]. simpl. by exists (c :: a).
Qed.

Lemma ozon_article_is_digits_witness :
  ∃ r a,
    Ozon.extract_product_info_immediately Sample.ozon_card Sample.now = Some r
    ∧ article r = Str a ∧ a ≠ [] ∧ Forall (λ c, isdecimal c = true) a.
Proof.
  assert (∃ r, Ozon.extract_product_info_immediately Sample.ozon_card
                 Sample.now = Some r) as [r Hr].
  { eexists. vm_compute. reflexivity. }
  exists r.
  destruct (ozon_article_is_digits Sample.ozon_card Sample.now r Hr)
    as (a & Ha & _ & Hne & Hd).
  by exists a.
Defined.

(** ** Decimal marks *)

Lemma filter_drop_while (p q : N → bool) (s : pystr) :
  (∀ c, p c = true → q c = false) →
  List.filter q (drop_while p s) = List.filter q s.
Proof.
  intros Hpq. induction s as [|c s IH]; [done|]. simpl.
  destruct (p c) eqn:Hp; [|done]. by rewrite (Hpq c Hp).
Qed.

Lemma filter_strip (q : N → bool) (s : pystr) :
  (∀ c, isspace c = true → q c = false) →
  List.filter q (strip s) = List.filter q s.
Proof.
  intros Hq. unfold strip, rstrip, lstrip.
  rewrite List.filter_rev, filter_drop_while, <- List.filter_rev by done.
  rewrite rev_involutive. by apply filter_drop_while.
Qed.

Lemma span_digits_split (s : pystr) (ds : list N) (r : pystr) :
  span_digits s = (ds, r) →
  ∃ pre, s = pre ++ r ∧ Forall (λ c, isdecimal c = true) pre.
Proof.
  revert ds r. induction s as [|c s IH]; intros ds r; simpl.
  { intros [= <- <-]. by exists []. }
  destruct (todecimal c) as [d|] eqn:Hd.
  - destruct (span_digits s) as [ds' r'] eqn:Hs. intros [= <- <-].
    destruct (IH _ _ eq_refl) as (pre & -> & Hpre).
    exists (c :: pre). split; [done|]. constructor; [|done].
    unfold isdecimal. by rewrite Hd.
  - intros [= <- <-]. by exists [].
Qed.

Lemma filter_none (q : N → bool) (P : N → Prop) (s : pystr) :
  (∀ c, P c → q c = false) → Forall P s → List.filter q s = [].
Proof.
  intros Hq. induction 1 as [|c s Hc _ IH]; [done|]. simpl.
  by rewrite (Hq c Hc).
Qed.

Lemma isspace_not_mark (c : N) :
  isspace c = true → (c =? 44) || (c =? 46) = false.
Proof.
  intros Hs. destruct (c =? 44) eqn:H44.
  { apply N.eqb_eq in H44. by subst. }
  destruct (c =? 46) eqn:H46; [|done].
  apply N.eqb_eq in H46. by subst.
Qed.

Lemma float_space_not_point (c : N) : float_space c = true → (c =? 46) = false.
Proof.
  intros Hs. destruct (c =? 46) eqn:H46; [|done].
  apply N.eqb_eq in H46. by subst.
Qed.

Lemma isdecimal_not_point (c : N) : isdecimal c = true → (c =? 46) = false.
Proof.
  intros Hs. destruct (c =? 46) eqn:H46; [|done].
  apply N.eqb_eq in H46. by subst.
Qed.

(** [float()] accepts at most one point. *)
Lemma float_of_str_one_point (s : pystr) (v : float) :
  float_of_str s = Some v →
  (length (List.filter (N.eqb 46) s) ≤ 1)%nat.
Proof.
  unfold float_of_str.
  rewrite <- (filter_drop_while float_space (N.eqb 46) s)
    by (intros c Hc; rewrite N.eqb_sym; by apply float_space_not_point).
  destruct (span_digits (drop_while float_space s)) as [ip r1] eqn:H1.
  apply span_digits_split in H1 as (pre1 & -> & Hpre1).
  assert (∀ l, Forall (λ c, isdecimal c = true) l →
               List.filter (N.eqb 46) l = []) as Hdigits.
  { intros l. apply filter_none. intros c Hc. rewrite N.eqb_sym.
    by apply isdecimal_not_point. }
  assert (∀ l, forallb float_space l = true →
               List.filter (N.eqb 46) l = []) as Hblank.
  { intros l Hl. apply (filter_none _ (λ c, float_space c = true)).
    - intros c Hc. rewrite N.eqb_sym. by apply float_space_not_point.
    - apply List.Forall_forall. by apply forallb_forall. }
  rewrite List.filter_app, Hdigits, app_nil_l by done.
  destruct (match r1 with 46 :: r => span_digits r | _ => ([], r1) end)
    as [fp r2] eqn:H2.
  destruct (forallb float_space r2) eqn:Hr2; [|done]. intros _.
  assert (r1 = r2 ∨ ∃ pre2, r1 = 46 :: pre2 ++ r2 ∧
                            Forall (λ c, isdecimal c = true) pre2) as [->|Hr1].
  { destruct r1 as [|c r]; [left; congruence|].
    destruct (N.eq_dec c 46) as [->|Hc].
    - right. apply span_digits_split in H2 as (pre2 & -> & Hpre2). eauto.
    - left. revert H2. clear -Hc. destruct c as [|p]; [congruence|].
      repeat (destruct p as [p|p|]; try congruence). }
  - rewrite Hblank by done. simpl. lia.
  - destruct Hr1 as (pre2 & -> & Hpre2). simpl.
    rewrite List.filter_app, Hdigits, Hblank by done. simpl. lia.
Qed.

Lemma clean_text_points (text : pystr) :
  length (List.filter (N.eqb 46) (WB.clean_text text))
  = length (List.filter (λ c, (c =? 44) || (c =? 46)) text).
Proof.
  unfold WB.clean_text, Re.sub. rewrite sub_one_class.
  rewrite <- (filter_strip (λ c, (c =? 44) || (c =? 46)) text)
    by apply isspace_not_mark.
  induction (strip text) as [|c s IH]; [done|].
  cbn [List.filter]. unfold WB.not_price_char at 1, Re.none_of, Re.either.
  rewrite negb_involutive. unfold Re.any_of. cbn [existsb].
  rewrite orb_false_r.
  destruct (c =? 44) eqn:H44.
  { apply N.eqb_eq in H44. subst c. simpl. by rewrite IH. }
  destruct (c =? 46) eqn:H46.
  { apply N.eqb_eq in H46. subst c. simpl. by rewrite IH. }
  cbn [orb]. rewrite orb_false_r.
  destruct (isdecimal c || isspace c); [|exact IH].
  unfold replace_char in *. cbn [flat_map].
  destruct (c =? 32) eqn:H32; cbn [app]; [exact IH|].
  cbn [flat_map]. rewrite H44. cbn [app List.filter].
  rewrite N.eqb_sym, H46. exact IH.
Qed.

(** X16: a price text that carries two decimal marks, points or commas,
    as in 1.234,56, gives no price: the commas become points and
    [float()] refuses a text with two of them. *)
Theorem extract_price_from_text_two_marks (text : pystr) :
  (2 ≤ length (List.filter (λ c, (c =? 44)%N || (c =? 46)%N) text))%nat →
  WB.extract_price_from_text text = None.
Proof.
  intros Hmarks. rewrite <- clean_text_points in Hmarks.
  unfold WB.extract_price_from_text.
  destruct (negb (truthy_str text)); [done|]. cbv zeta.
  destruct (truthy_str (WB.clean_text text)); [|done].
  destruct (float_of_str (WB.clean_text text)) as [v|] eqn:Hv; [|done].
  apply float_of_str_one_point in Hv. lia.
Qed.

Lemma extract_price_from_text_two_marks_witness :
  WB.extract_price_from_text (u "1.234,56 ₽") = None.
Proof.
  apply (extract_price_from_text_two_marks (u "1.234,56 ₽")).
  vm_compute. lia.
Defined.

Lemma remove_duplicates_keeps_first_witness :
  Ozon.remove_duplicates
    [Sample.tv Sample.market 1 100; Sample.tv Sample.market 2 300]
  = [Sample.tv Sample.market 1 100; Sample.tv Sample.market 2 300].
Proof.
  apply (proj2 (proj2 (proj2 (proj2
           (remove_duplicates_keeps_first
              [Sample.tv Sample.market 1 100;
               Sample.tv Sample.market 2 300]))))).
  apply NoDup_cons. split; [|apply NoDup_singleton].
  intros Hin%list_elem_of_singleton. vm_compute in Hin. discriminate.
Defined.

Lemma find_all_products_safe_distinct_witness :
  Ozon.find_all_products_safe (Listing (λ _, Raise WebDriverException))
    Sample.clock = [].
Proof.
  apply (proj2 (proj2 (find_all_products_safe_distinct
                         (Listing (λ _, Raise WebDriverException))
                         Sample.clock))).
  intros selector _. by exists WebDriverException.
Defined.
